(** * btcli: stake removal, stake listing and subnet commands

    A shallow embedding of the decision logic of
    [bittensor_cli/src/commands/stake/remove.py],
    [bittensor_cli/src/commands/stake/list.py] and
    [bittensor_cli/src/commands/subnets.py], followed by the properties
    established about it.

    Conventions of the embedding:
    - a Python [int] is a [Z];
    - a Python [float] is an exact rational [Q]: every statement below is
      about which branch is taken, which value is handed on, or an order
      between values, never about the last bit of a rounded result;
    - a Python [str] is a [string] (its UTF-8 bytes), except in [Module Json]
      where escaping works on code points;
    - a [dict] is a [gmap];
    - an exception is a constructor of [Py.exn], and code that can raise
      returns a [Py.result] or runs in the monad [M] of [Module Proc]. *)

From Stdlib Require Import ZArith QArith Qround Qabs Lqa Lia.
From Stdlib Require Import List String Ascii DecimalString.
From Stdlib Require Import Sorting Permutation.
From stdpp Require Import base gmap strings.

Set Warnings "-register-all".

Import ListNotations.

(** ** Python values and built-ins *)

Module Py.

(** The exceptions that the three files raise, catch or let through.
    [KeyboardInterrupt] is the one [BaseException] that is not an
    [Exception]; [Other] stands for any further [Exception] subclass. *)
Inductive exn : Type :=
| ZeroDivisionError
| IndexError
| KeyError (key : string)
| KeyFileError
| SubstrateRequestException (msg : string)
| OperationalError
| JSONDecodeError
| TyperExit
| KeyboardInterrupt
| Other (name msg : string).

Inductive result (A : Type) : Type :=
| Ok (a : A)
| Raise (e : exn).
Arguments Ok {A} a.
Arguments Raise {A} e.

(** [isinstance(e, Exception)] *)
Definition is_Exception (e : exn) : bool :=
  match e with
  | KeyboardInterrupt => false
  | _ => true
  end.

(** [isinstance(e, SubstrateRequestException)] *)
Definition is_SubstrateRequestException (e : exn) : bool :=
  match e with
  | SubstrateRequestException _ => true
  | _ => false
  end.

(** [str(e)] *)
Definition str_exn (e : exn) : string :=
  match e with
  | ZeroDivisionError => "division by zero"
  | IndexError => "list index out of range"
  | KeyError k => k
  | KeyFileError => "KeyFileError"
  | SubstrateRequestException m => m
  | OperationalError => "OperationalError"
  | JSONDecodeError => "JSONDecodeError"
  | TyperExit => EmptyString
  | KeyboardInterrupt => EmptyString
  | Other _ m => m
  end.

(** [x / y] on floats *)
Definition truediv (x y : Q) : result Q :=
  if Qeq_bool y 0 then Raise ZeroDivisionError else Ok (x / y)%Q.

(** [int(x)] on a float: truncation towards zero *)
Definition int (x : Q) : Z := Z.quot (Qnum x) (Z.pos (Qden x)).

(** [str(n)] on an int *)
Definition str (n : Z) : string := NilZero.string_of_int (Z.to_int n).

(** [x or y] on ints *)
Definition or_int (x y : Z) : Z := if (x =? 0)%Z then y else x.

(** [x or y] on floats *)
Definition or_float (x y : Q) : Q := if Qeq_bool x 0 then y else x.

(** [x > y], [x < y], [x != 0] on floats *)
Definition gt (x y : Q) : bool := negb (Qle_bool x y).
Definition lt (x y : Q) : bool := negb (Qle_bool y x).
Definition nonzero (x : Q) : bool := negb (Qeq_bool x 0).

(** [max(x, y)]: Python returns the first argument unless the second is
    strictly larger. *)
Definition max (x y : Q) : Q := if gt y x then y else x.

(** Nearest integer, ties to even, of a non-negative rational. *)
Definition round_half_even (x : Q) : Z :=
  let f := Qfloor x in
  let r := (x - inject_Z f)%Q in
  match (r ?= 1 # 2)%Q with
  | Lt => f
  | Gt => (f + 1)%Z
  | Eq => if Z.even f then f else (f + 1)%Z
  end.

Fixpoint zeros (n : nat) : string :=
  match n with
  | O => EmptyString
  | S n' => "0" +:+ zeros n'
  end.

(** [s.zfill(width)] on a string of digits *)
Definition zfill (width : nat) (s : string) : string :=
  zeros (width - String.length s) +:+ s.

(** [f"{x:.{prec}f}"] *)
Definition format_f (prec : nat) (x : Q) : string :=
  let scale := (10 ^ Z.of_nat prec)%Z in
  let n := round_half_even (Qabs x * inject_Z scale)%Q in
  let sign := if lt x 0 then "-" else EmptyString in
  let whole := str (n / scale)%Z in
  match prec with
  | O => sign +:+ whole
  | S _ => sign +:+ whole +:+ "." +:+ zfill prec (str (n mod scale)%Z)
  end.

(** [prefix p s]: [s.startswith(p)] *)
Fixpoint startswith (p s : string) : bool :=
  match p, s with
  | EmptyString, _ => true
  | String a p', String b s' => (Ascii.eqb a b && startswith p' s')%bool
  | String _ _, EmptyString => false
  end.

(** [needle in hay] on strings *)
Fixpoint contains (needle hay : string) : bool :=
  (startswith needle hay
   || match hay with
      | EmptyString => false
      | String _ hay' => contains needle hay'
      end)%bool.

End Py.

Abbreviation result := Py.result.
Abbreviation Ok := Py.Ok.
Abbreviation Raise := Py.Raise.

(** ** Balances *)

(** The [Balance] class of [bittensor_cli/src/bittensor/balances.py] is not
    among the sources; the three files only construct balances, read [rao]
    and [tao], set the unit, compare and add. *)
Module Balance.

(** Modelled from the spec: the scale of the fixed-point amount, the
    constant [RAO_PER_TAO] that [subnets.py] imports (the factor
    [1000000000] of its line 761). *)
Definition RAO_PER_TAO : Z := 1000000000.

(** Modelled from the spec: [Balance], a fixed-point amount (held in rao)
    carrying a unit tag (netuid). *)
Record t : Type := mk { rao : Z; netuid_unit : Z }.

(** Modelled from the spec: [Balance(n)] and [Balance.from_rao(n)] for an
    int [n]. *)
Definition from_rao (n : Z) : t := mk n 0.

(** Modelled from the spec: [Balance.from_tao(x)], the amount [x] in TAO
    cut to whole rao. *)
Definition from_tao (x : Q) : t :=
  mk (Py.int (x * inject_Z RAO_PER_TAO)%Q) 0.

(** Modelled from the spec: [b.tao], the amount in TAO as a float. *)
Definition tao (b : t) : Q := (inject_Z (rao b) / inject_Z RAO_PER_TAO)%Q.

(** Modelled from the spec: [b.set_unit(netuid)]. *)
Definition set_unit (n : Z) (b : t) : t := mk (rao b) n.

(** Modelled from the spec: [a > b] compares the amounts. *)
Definition gtb (a b : t) : bool := (rao b <? rao a)%Z.

(** Modelled from the spec: [a + b] adds the amounts. *)
Definition add (a b : t) : t := mk (rao a + rao b) (netuid_unit a).

End Balance.

Abbreviation Balance := Balance.t.

(** ** Chain data *)

(** The attributes of [DynamicInfo] that the three files read. *)
Module DynamicInfo.
Record t : Type := mk {
  netuid : Z;
  symbol : string;
  subnet_name : string;
  is_dynamic : bool;
  tao_in : Balance;
  alpha_in : Balance;
  alpha_out : Balance;
  price : Balance;
  emission : Balance;
  tempo : Z;
  blocks_since_last_step : Z
}.
End DynamicInfo.

Abbreviation DynamicInfo := DynamicInfo.t.

(** The attributes of [StakeInfo] that the three files read. *)
Module StakeInfo.
Record t : Type := mk {
  hotkey_ss58 : string;
  netuid : Z;
  stake : Balance;
  emission : Balance;
  is_registered : bool
}.
End StakeInfo.

Abbreviation StakeInfo := StakeInfo.t.

(** The methods [alpha_to_tao] and [alpha_to_tao_with_slippage] of
    [DynamicInfo] live in [bittensor_cli/src/bittensor/chain_data.py], which
    is not among the sources. The spec gives the pool model: the price is
    the reserve ratio, the no-slippage value is linear at that price, the
    swap is a constant-product one, slippage is the difference as a
    percentage, and a non-dynamic subnet converts 1:1 with zero slippage.
    The column descriptions at the end of [stake/list.py] say the same.
    Amounts are exact numbers of TAO; the spec fixes no rounding. *)
Module Pool.

(** Modelled from the spec: the price of [DynamicInfo], missing from the
    sources, as the reserve ratio [tao_in / alpha_in]. *)
Definition reserve_ratio (pool : DynamicInfo) : Q :=
  (Balance.tao (DynamicInfo.tao_in pool)
   / Balance.tao (DynamicInfo.alpha_in pool))%Q.

(** Modelled from the spec: [DynamicInfo.alpha_to_tao], missing from the
    sources: the no-slippage TAO value of [alpha], linear at the price,
    1:1 on a non-dynamic subnet. *)
Definition alpha_to_tao (pool : DynamicInfo) (alpha : Balance) : Q :=
  if DynamicInfo.is_dynamic pool
  then (Balance.tao alpha * reserve_ratio pool)%Q
  else Balance.tao alpha.

(** Modelled from the spec: [DynamicInfo.alpha_to_tao_with_slippage],
    missing from the sources: (received TAO, slippage in TAO, slippage in
    percent) of a constant-product swap, 1:1 with zero slippage on a
    non-dynamic subnet. *)
Definition alpha_to_tao_with_slippage (pool : DynamicInfo) (alpha : Balance)
  : Q * Q * Q :=
  if DynamicInfo.is_dynamic pool then
    let tao_in := Balance.tao (DynamicInfo.tao_in pool) in
    let alpha_in := Balance.tao (DynamicInfo.alpha_in pool) in
    let k := (tao_in * alpha_in)%Q in
    let new_alpha_in := (alpha_in + Balance.tao alpha)%Q in
    let new_tao_in := (k / new_alpha_in)%Q in
    let tao_returned := (tao_in - new_tao_in)%Q in
    let ideal := alpha_to_tao pool alpha in
    let slippage := (ideal - tao_returned)%Q in
    let slippage_pct :=
      if Qeq_bool ideal 0 then 0%Q else (100 * slippage / ideal)%Q in
    (tao_returned, slippage, slippage_pct)
  else (Balance.tao alpha, 0%Q, 0%Q).

End Pool.

(** ** Names imported from modules that are not among the sources

    [COLOR_PALETTE] entries, [str] of a balance or a float, and
    [format_error_message] are only interpolated into messages; nothing is
    assumed about them. *)
Class Externals : Type := {
  STAKE_SLIPPAGE_PERCENT : string;
  STAKE_SLIPPAGE_TEXT : string;
  STAKE_NOT_REGISTERED : string;
  STAKE_STAKE_AMOUNT : string;
  GENERAL_SUBHEADING : string;
  str_Balance : Balance -> string;
  str_balances : gmap string Balance -> string;
  str_float : Q -> string;
  format_error_message : string + Py.exn -> string
}.

(** ** Effects: console, chain client, wallet *)

Module Proc.

(** A value of a [call_params] dict. *)
Inductive param : Type :=
| PStr (s : string)
| PInt (n : Z)
| PFloat (x : Q)
| PBool (b : bool).

(** The arguments of [substrate.compose_call]. *)
Record Call : Type := {
  call_module : string;
  call_function : string;
  call_params : gmap string param
}.

(** The arguments of [substrate.create_signed_extrinsic]. *)
Record Extrinsic : Type := {
  ext_call : Call;
  ext_keypair : string;
  ext_nonce : option Z
}.

(** What the output channels received. *)
Inductive output : Type :=
| console_print (s : string)
| console_print_table (footer : string)
| err_console_print (s : string)
| print_error (s : string)
| status_update (s : string).

(** The observable state of a command run: what was printed, which calls
    were handed to [compose_call] and which extrinsics to
    [submit_extrinsic], oldest first. *)
Record World : Type := {
  printed : list output;
  composed : list Call;
  submitted : list Extrinsic
}.

Definition M (A : Type) : Type := World -> result A * World.

Definition ret {A} (a : A) : M A := fun w => (Ok a, w).

Definition bind {A B} (m : M A) (k : A -> M B) : M B :=
  fun w =>
    match m w with
    | (Py.Ok a, w') => k a w'
    | (Py.Raise e, w') => (Raise e, w')
    end.

Definition raise {A} (e : Py.exn) : M A := fun w => (Raise e, w).

(** [try: body  except <matches> as e: handler(e)] *)
Definition try_except {A} (body : M A) (matches : Py.exn -> bool)
    (handler : Py.exn -> M A) : M A :=
  fun w =>
    match body w with
    | (Py.Ok a, w') => (Ok a, w')
    | (Py.Raise e, w') =>
        if matches e then handler e w' else (Raise e, w')
    end.

(** The outcome of awaiting a call on the chain client or the wallet. *)
Definition lift {A} (r : result A) : M A := fun w => (r, w).

Definition emit (o : output) : M unit :=
  fun w =>
    (Ok tt, {| printed := printed w ++ [o];
               composed := composed w;
               submitted := submitted w |}).

Definition history : M (list Extrinsic) := fun w => (Ok (submitted w), w).

(** The receipt returned by [submit_extrinsic]. *)
Record Response : Type := {
  process_events : result unit;
  is_success : result bool;
  error_message : result string;
  triggered_events : result (list (string * list Z))
}.

(** The chain client as this program sees it: the outcome of each call,
    which may depend on the extrinsics submitted so far. *)
Record SubtensorInterface : Type := {
  network : string;
  all_subnets : result (list DynamicInfo);
  get_stake_for_coldkey : string -> result (list StakeInfo);
  get_balance : list Extrinsic -> string -> result (gmap string Balance);
  get_stake : list Extrinsic -> string -> string -> Z -> result Balance;
  get_chain_head : list Extrinsic -> result string;
  get_account_next_index : list Extrinsic -> string -> result Z;
  query_runtime_api : string -> string -> result (option Z);
  compose_call : Call -> result Call;
  create_signed_extrinsic : Call -> string -> option Z -> result Extrinsic;
  submit_extrinsic : list Extrinsic -> Extrinsic -> result Response
}.

(** [await subtensor.substrate.compose_call(...)] *)
Definition compose (subtensor : SubtensorInterface) (c : Call) : M Call :=
  fun w =>
    (compose_call subtensor c,
     {| printed := printed w;
        composed := composed w ++ [c];
        submitted := submitted w |}).

(** [await subtensor.substrate.submit_extrinsic(...)] *)
Definition submit (subtensor : SubtensorInterface) (x : Extrinsic)
  : M Response :=
  fun w =>
    (submit_extrinsic subtensor (submitted w) x,
     {| printed := printed w;
        composed := composed w;
        submitted := submitted w ++ [x] |}).

(** [m] leaves the observation [obs] of the world as it was. *)
Definition preserves {A B} (obs : World -> B) (m : M A) : Prop :=
  forall w, obs (snd (m w)) = obs w.

(** [m] composes the call [c] and no other, or raises before it composes
    anything. *)
Definition composes_only {A} (c : Call) (m : M A) : Prop :=
  forall w,
    (composed (snd (m w)) = composed w /\ exists e, fst (m w) = Raise e)
    \/ composed (snd (m w)) = composed w ++ [c].

(** The world after [o] was printed. *)
Definition printing (o : output) (w : World) : World := snd (emit o w).

(** The line printed when the coldkey cannot be unlocked. *)
Definition decrypt_error : output :=
  err_console_print "Error decrypting coldkey (possibly incorrect password)".

(** The wallet as this program sees it. *)
Record Wallet : Type := {
  name : string;
  coldkeypub_ss58_address : string;
  coldkey : string;
  hotkey_ss58_address : string;
  unlock_coldkey : result unit
}.

(** The answers of the user: [Confirm.ask], and the dialogue of
    [_ask_unstake_amount], which returns [None] for "quit". *)
Record User : Type := {
  Confirm_ask : string -> bool;
  _ask_unstake_amount :
    Balance -> Z -> string -> string -> bool -> option Balance
}.

End Proc.

Declare Scope proc_scope.
Delimit Scope proc_scope with proc.
Notation "x <- m ;; k" := (Proc.bind m (fun x => k))
  (at level 60, m at next level, right associativity) : proc_scope.
Notation "m ;;; k" := (Proc.bind m (fun _ => k))
  (at level 60, right associativity) : proc_scope.

(** ** stake/remove.py *)

Module Remove.
Import Proc.
Local Open Scope proc_scope.

(** An entry of [unstake_operations]; [price_with_tolerance] is the key
    that is present only in safe-staking mode. *)
Record UnstakeOp : Type := {
  op_netuid : Z;
  hotkey_name : string;
  hotkey_ss58 : string;
  amount_to_unstake : Balance;
  current_stake_balance : Balance;
  received_amount : Q;
  slippage_pct : string;
  slippage_pct_float : Q;
  dynamic_info : DynamicInfo;
  price_with_tolerance : option param
}.

(** An entry of [hotkeys_to_unstake_from]: (name, ss58) and, in
    interactive mode, the netuid chosen with it. *)
Record Hotkey : Type := {
  staking_address_name : option string;
  staking_address_ss58 : string;
  selected_netuid : Z
}.

(** The arguments of [unstake] that steer the collection and execution. *)
Record Args : Type := {
  amount : Q;
  prompt : bool;
  interactive : bool;
  safe_staking : bool;
  rate_tolerance : Q;
  allow_partial_stake : bool
}.

(** The variables that the collection loops of [unstake] update. *)
Record Collected : Type := {
  unstake_operations : list UnstakeOp;
  total_received_amount : Q;
  max_float_slippage : Q;
  skip_remaining_subnets : bool
}.

Definition Collected_init : Collected :=
  {| unstake_operations := [];
     total_received_amount := 0%Q;
     max_float_slippage := 0%Q;
     skip_remaining_subnets := false |}.

Definition set_skip (st : Collected) : Collected :=
  {| unstake_operations := unstake_operations st;
     total_received_amount := total_received_amount st;
     max_float_slippage := max_float_slippage st;
     skip_remaining_subnets := true |}.

(** [name if name else ss58] *)
Definition name_or (name_ : option string) (ss58 : string) : string :=
  match name_ with
  | Some (String a n) => String a n
  | _ => ss58
  end.

(** [_calculate_slippage(subnet_info, amount)] *)
Definition _calculate_slippage (subnet_info : DynamicInfo) (amount : Balance)
  : Q * string * Q :=
  let '(received_amount, _, slippage_pct_float) :=
    Pool.alpha_to_tao_with_slippage subnet_info amount in
  if DynamicInfo.is_dynamic subnet_info
  then (received_amount, Py.format_f 4 slippage_pct_float +:+ " %",
        slippage_pct_float)
  else (received_amount, "[red]N/A[/red]", 0%Q).

Section Extrinsics.
Context `{Externals}.

(** The f-string [failure_prelude] of both extrinsic helpers. *)
Definition failure_prelude (amount : Balance) (netuid : Z) : string :=
  ":cross_mark: [red]Failed[/red] to unstake " +:+ str_Balance amount
  +:+ " on Netuid " +:+ Py.str netuid.

Definition unstaking_status (amount : Balance) (hotkey_ss58 : string)
    (netuid : Z) : output :=
  status_update
    (String "010" ":satellite: Unstaking " +:+ str_Balance amount
     +:+ " from " +:+ hotkey_ss58 +:+ " on netuid: " +:+ Py.str netuid
     +:+ " ...").

Definition balance_line (old new : gmap string Balance) : output :=
  console_print
    ("Balance:" +:+ String "010" "  [blue]" +:+ str_balances old
     +:+ "[/blue] :arrow_right: [" +:+ STAKE_STAKE_AMOUNT +:+ "]"
     +:+ str_balances new).

Definition stake_line (netuid : Z) (old new : Balance) : output :=
  console_print
    ("Subnet: [" +:+ GENERAL_SUBHEADING +:+ "]" +:+ Py.str netuid
     +:+ "[/" +:+ GENERAL_SUBHEADING +:+ "] Stake:"
     +:+ String "010" "  [blue]"
     +:+ str_Balance old +:+ "[/blue] :arrow_right: ["
     +:+ STAKE_STAKE_AMOUNT +:+ "]" +:+ str_Balance new).

(** [call_params] of [remove_stake] *)
Definition remove_stake_params (hotkey_ss58 : string) (netuid : Z)
    (amount : Balance) : gmap string param :=
  <["hotkey" := PStr hotkey_ss58]>
    (<["netuid" := PInt netuid]>
       (<["amount_unstaked" := PInt (Balance.rao amount)]> ∅)).

(** [call_params] of [remove_stake_limit] *)
Definition remove_stake_limit_params (hotkey_ss58 : string) (netuid : Z)
    (amount : Balance) (price_limit : param) (allow_partial_stake : bool)
  : gmap string param :=
  <["hotkey" := PStr hotkey_ss58]>
    (<["netuid" := PInt netuid]>
       (<["amount_unstaked" := PInt (Balance.rao amount)]>
          (<["limit_price" := price_limit]>
             (<["allow_partial" := PBool allow_partial_stake]> ∅)))).

Definition remove_stake_call (hotkey_ss58 : string) (netuid : Z)
    (amount : Balance) : Call :=
  {| call_module := "SubtensorModule";
     call_function := "remove_stake";
     call_params := remove_stake_params hotkey_ss58 netuid amount |}.

Definition remove_stake_limit_call (hotkey_ss58 : string) (netuid : Z)
    (amount : Balance) (price_limit : param) (allow_partial_stake : bool)
  : Call :=
  {| call_module := "SubtensorModule";
     call_function := "remove_stake_limit";
     call_params :=
       remove_stake_limit_params hotkey_ss58 netuid amount price_limit
         allow_partial_stake |}.

(** The statements of both helpers after a successful response: fetch
    the latest balance and stake and print them. *)
Definition report_finalized (wallet : Wallet)
    (subtensor : SubtensorInterface) (netuid : Z) (hotkey_ss58 : string)
  : M (gmap string Balance * Balance) :=
  h <- history ;;
  block_hash <- lift (get_chain_head subtensor h) ;;
  new_balance <-
    lift (get_balance subtensor h (coldkeypub_ss58_address wallet)) ;;
  new_stake <-
    lift (get_stake subtensor h hotkey_ss58
            (coldkeypub_ss58_address wallet) netuid) ;;
  emit (console_print
          ":white_heavy_check_mark: [green]Finalized[/green]") ;;;
  ret (new_balance, new_stake).

(** [_unstake_extrinsic]: the standard unstake extrinsic. *)
Definition _unstake_extrinsic (wallet : Wallet)
    (subtensor : SubtensorInterface) (netuid : Z)
    (amount current_stake : Balance) (hotkey_ss58 : string) : M unit :=
  emit (unstaking_status amount hotkey_ss58 netuid) ;;;
  h <- history ;;
  current_balance <-
    lift (get_balance subtensor h (coldkeypub_ss58_address wallet)) ;;
  call <- compose subtensor (remove_stake_call hotkey_ss58 netuid amount) ;;
  extrinsic <-
    lift (create_signed_extrinsic subtensor call (coldkey wallet) None) ;;
  try_except
    (response <- submit subtensor extrinsic ;;
     lift (process_events response) ;;;
     ok <- lift (is_success response) ;;
     if negb ok then
       msg <- lift (error_message response) ;;
       emit (print_error
               (failure_prelude amount netuid +:+ " with error: "
                +:+ format_error_message (inl msg)))
     else
       new_ <- report_finalized wallet subtensor netuid hotkey_ss58 ;;
       emit (balance_line current_balance (fst new_)) ;;;
       emit (stake_line netuid current_stake (snd new_)))
    Py.is_Exception
    (fun e =>
       emit (print_error
               (failure_prelude amount netuid +:+ " with error: "
                +:+ Py.str_exn e))).

(** The two messages of the [except SubstrateRequestException] clause. *)
Definition price_tolerance_message (amount : Balance) (netuid : Z)
  : string :=
  String "010" (failure_prelude amount netuid)
  +:+ ": Price exceeded tolerance limit. "
  +:+ "Transaction rejected because partial unstaking is disabled. "
  +:+ "Either increase price tolerance or enable partial unstaking.".

Definition generic_failure_message (amount : Balance) (netuid : Z)
    (err : string + Py.exn) : string :=
  String "010" (failure_prelude amount netuid) +:+ " with error: "
  +:+ format_error_message err.

(** [_safe_unstake_extrinsic]: the unstake extrinsic with a price
    limit. *)
Definition _safe_unstake_extrinsic (wallet : Wallet)
    (subtensor : SubtensorInterface) (netuid : Z)
    (amount current_stake : Balance) (hotkey_ss58 : string)
    (price_limit : param) (allow_partial_stake : bool) : M unit :=
  emit (unstaking_status amount hotkey_ss58 netuid) ;;;
  h <- history ;;
  block_hash <- lift (get_chain_head subtensor h) ;;
  current_balance <-
    lift (get_balance subtensor h (coldkeypub_ss58_address wallet)) ;;
  next_nonce <-
    lift (get_account_next_index subtensor h
            (coldkeypub_ss58_address wallet)) ;;
  current_stake <-
    lift (get_stake subtensor h hotkey_ss58
            (coldkeypub_ss58_address wallet) netuid) ;;
  call <- compose subtensor
            (remove_stake_limit_call hotkey_ss58 netuid amount price_limit
               allow_partial_stake) ;;
  extrinsic <-
    lift (create_signed_extrinsic subtensor call (coldkey wallet)
            (Some next_nonce)) ;;
  submitted_ <-
    try_except
      (response <- submit subtensor extrinsic ;; ret (Some response))
      Py.is_SubstrateRequestException
      (fun e =>
         (if Py.contains "Custom error: 8" (Py.str_exn e)
          then emit (print_error (price_tolerance_message amount netuid))
          else emit (print_error
                       (generic_failure_message amount netuid (inr e)))) ;;;
         ret None) ;;
  match submitted_ with
  | None => ret tt
  | Some response =>
      lift (process_events response) ;;;
      ok <- lift (is_success response) ;;
      if negb ok then
        msg <- lift (error_message response) ;;
        emit (print_error
                (generic_failure_message amount netuid (inl msg)))
      else
        new_ <- report_finalized wallet subtensor netuid hotkey_ss58 ;;
        emit (balance_line current_balance (fst new_)) ;;;
        let amount_unstaked :=
          Balance.mk (Balance.rao current_stake - Balance.rao (snd new_))
            (Balance.netuid_unit current_stake) in
        (if (allow_partial_stake
             && negb (Balance.rao amount_unstaked
                      =? Balance.rao amount)%Z)%bool
         then emit (console_print
                      ("Partial unstake transaction. Unstaked:"
                       +:+ String "010" "  [" +:+ STAKE_STAKE_AMOUNT +:+ "]"
                       +:+ str_Balance
                             (Balance.set_unit netuid amount_unstaked)
                       +:+ "[/" +:+ STAKE_STAKE_AMOUNT
                       +:+ "] instead of [blue]" +:+ str_Balance amount
                       +:+ "[/blue]"))
         else ret tt) ;;;
        emit (stake_line netuid current_stake (snd new_))
  end.

End Extrinsics.

Section Unstake.
Context `{Externals}.
Variables (wallet : Wallet) (subtensor : SubtensorInterface)
          (user : User) (args : Args).

(** Lines 111-117 of [unstake]: [stake_in_netuids], by hotkey and then
    by netuid; a later entry of the list overwrites an earlier one. *)
Definition build_stake_in_netuids (stake_info_list : list StakeInfo)
  : gmap string (gmap Z Balance) :=
  foldl
    (fun stake_in_netuids stake_info =>
       let inner :=
         default ∅ (stake_in_netuids !! StakeInfo.hotkey_ss58 stake_info) in
       <[StakeInfo.hotkey_ss58 stake_info :=
           <[StakeInfo.netuid stake_info := StakeInfo.stake stake_info]>
             inner]> stake_in_netuids)
    ∅ stake_info_list.

(** [{info.netuid: info for info in all_sn_dynamic_info_}] *)
Definition by_netuid (infos : list DynamicInfo) : gmap Z DynamicInfo :=
  foldl (fun m info => <[DynamicInfo.netuid info := info]> m) ∅ infos.

Definition not_enough_stake_message (current_stake_balance
    amount_to_unstake_as_balance : Balance) (netuid : Z) : string :=
  "[red]Not enough stake to remove[/red]:" +:+ String "010"
    " Stake balance: [dark_orange]"
  +:+ str_Balance current_stake_balance
  +:+ "[/dark_orange] < Unstaking amount: [dark_orange]"
  +:+ str_Balance amount_to_unstake_as_balance
  +:+ "[/dark_orange] on netuid: " +:+ Py.str netuid.

(** Lines 219-232: the price limit recorded for safe unstaking. *)
Definition safe_price_with_tolerance (subnet_info : DynamicInfo)
  : option param :=
  if safe_staking args then
    Some (if DynamicInfo.is_dynamic subnet_info
          then PFloat (inject_Z (Balance.rao (DynamicInfo.price subnet_info))
                       * (1 - rate_tolerance args))%Q
          else PInt 1)
  else None.

(** Lines 162-174, "Determine the amount we are unstaking": the
    [--amount] option when it is given, else the answer at the prompt,
    [None] when the user quits. *)
Definition requested_amount (hotkey : Hotkey) (netuid : Z)
    (current_stake_balance : Balance) : option Balance :=
  if Py.nonzero (amount args)
  then Some (Balance.from_tao (amount args))
  else _ask_unstake_amount user current_stake_balance netuid
         (name_or (staking_address_name hotkey)
            (staking_address_ss58 hotkey))
         (staking_address_ss58 hotkey) (interactive args).

(** Lines 148-241: the body of the loop over [netuids_to_process], for
    one hotkey and one netuid. [continue] returns the state unchanged,
    [break] returns it with [skip_remaining_subnets] set. The row added
    to [table_rows] is display only and is left out. *)
Definition collect_netuid
    (all_sn_dynamic_info : gmap Z DynamicInfo)
    (stake_in_netuids : gmap string (gmap Z Balance))
    (hotkey : Hotkey) (netuid : Z) (st : Collected) : M Collected :=
  let staking_address_name := staking_address_name hotkey in
  let staking_address_ss58 := staking_address_ss58 hotkey in
  let subnet_info := all_sn_dynamic_info !! netuid in
  match stake_in_netuids !! staking_address_ss58 with
  | None =>
      emit (print_error
              ("No stake found for hotkey: " +:+ staking_address_ss58
               +:+ " on netuid: " +:+ Py.str netuid)) ;;;
      ret st
  | Some stakes =>
      let no_stake :=
        emit (print_error
                ("No stake to unstake from " +:+ staking_address_ss58
                 +:+ " on netuid: " +:+ Py.str netuid)) ;;;
        ret st in
      match stakes !! netuid with
      | None => no_stake
      | Some current_stake_balance =>
          if Qeq_bool (Balance.tao current_stake_balance) 0 then no_stake
          else
            match requested_amount hotkey netuid current_stake_balance
            with
            | None => ret (set_skip st)
            | Some amount_ =>
                let amount_to_unstake_as_balance :=
                  Balance.set_unit netuid amount_ in
                if Balance.gtb amount_to_unstake_as_balance
                     current_stake_balance
                then
                  emit (err_console_print
                          (not_enough_stake_message current_stake_balance
                             amount_to_unstake_as_balance netuid)) ;;;
                  ret st
                else
                  match subnet_info with
                  | None =>
                      raise (Py.Other "AttributeError"
                               "'NoneType' object has no attribute 'alpha_to_tao_with_slippage'")
                  | Some subnet_info =>
                      let '(received_amount, slippage_pct,
                            slippage_pct_float) :=
                        _calculate_slippage subnet_info
                          amount_to_unstake_as_balance in
                      let base_unstake_op :=
                        {| op_netuid := netuid;
                           hotkey_name :=
                             name_or staking_address_name
                               staking_address_ss58;
                           hotkey_ss58 := staking_address_ss58;
                           amount_to_unstake :=
                             amount_to_unstake_as_balance;
                           current_stake_balance := current_stake_balance;
                           received_amount := received_amount;
                           slippage_pct := slippage_pct;
                           slippage_pct_float := slippage_pct_float;
                           dynamic_info := subnet_info;
                           price_with_tolerance :=
                             safe_price_with_tolerance subnet_info |} in
                      ret {| unstake_operations :=
                               unstake_operations st ++ [base_unstake_op];
                             total_received_amount :=
                               (total_received_amount st
                                + received_amount)%Q;
                             max_float_slippage :=
                               Py.max (max_float_slippage st)
                                 slippage_pct_float;
                             skip_remaining_subnets :=
                               skip_remaining_subnets st |}
                  end
            end
      end
  end.

(** Lines 144-241: [for netuid in netuids_to_process]. *)
Fixpoint collect_netuids
    (all_sn_dynamic_info : gmap Z DynamicInfo)
    (stake_in_netuids : gmap string (gmap Z Balance))
    (hotkey : Hotkey) (netuids_to_process : list Z) (st : Collected)
  : M Collected :=
  match netuids_to_process with
  | [] => ret st
  | netuid :: rest =>
      if skip_remaining_subnets st then ret st
      else
        st' <- collect_netuid all_sn_dynamic_info stake_in_netuids
                 hotkey netuid st ;;
        collect_netuids all_sn_dynamic_info stake_in_netuids hotkey rest
          st'
  end.

(** Lines 131-241: [for hotkey in hotkeys_to_unstake_from]. *)
Fixpoint collect_hotkeys
    (all_sn_dynamic_info : gmap Z DynamicInfo)
    (stake_in_netuids : gmap string (gmap Z Balance))
    (netuids : list Z) (hotkeys_to_unstake_from : list Hotkey)
    (st : Collected) : M Collected :=
  match hotkeys_to_unstake_from with
  | [] => ret st
  | hotkey :: rest =>
      if skip_remaining_subnets st then ret st
      else
        let netuids_to_process :=
          if interactive args then [selected_netuid hotkey] else netuids in
        st' <- collect_netuids all_sn_dynamic_info stake_in_netuids
                 hotkey netuids_to_process st ;;
        collect_hotkeys all_sn_dynamic_info stake_in_netuids netuids rest
          st'
  end.

(** [_print_table_and_slippage]: the table, the warning above 5 %
    slippage, and the column descriptions. The rule lines of the warning
    and the text of the descriptions are display only and are cut short. *)
Definition _print_table_and_slippage (total_received_amount
    max_float_slippage : Q) : M unit :=
  emit (console_print_table (str_float total_received_amount)) ;;;
  (if Py.gt max_float_slippage 5
   then emit (console_print
                ("[bold]WARNING:[/bold]  The slippage on one of your operations is high: ["
                 +:+ STAKE_SLIPPAGE_PERCENT +:+ "]"
                 +:+ str_float max_float_slippage +:+ " %[/"
                 +:+ STAKE_SLIPPAGE_PERCENT
                 +:+ "], this may result in a loss of funds."))
   else ret tt) ;;;
  emit (console_print "[bold white]Description[/bold white]:").

(** Lines 273-294: one operation in safe-staking mode. *)
Definition perform_safe (op : UnstakeOp) : M unit :=
  if (op_netuid op =? 0)%Z then
    _unstake_extrinsic wallet subtensor (op_netuid op)
      (amount_to_unstake op) (current_stake_balance op) (hotkey_ss58 op)
  else
    match price_with_tolerance op with
    | None => raise (Py.KeyError "price_with_tolerance")
    | Some price_limit =>
        _safe_unstake_extrinsic wallet subtensor (op_netuid op)
          (amount_to_unstake op) (current_stake_balance op)
          (hotkey_ss58 op) price_limit (allow_partial_stake args)
    end.

(** Lines 297-305: one operation otherwise. *)
Definition perform_plain (op : UnstakeOp) : M unit :=
  _unstake_extrinsic wallet subtensor (op_netuid op)
    (amount_to_unstake op) (current_stake_balance op) (hotkey_ss58 op).

(** [for op in unstake_operations: await f(op)] *)
Fixpoint for_each (f : UnstakeOp -> M unit) (ops : list UnstakeOp)
  : M unit :=
  match ops with
  | [] => ret tt
  | op :: rest => f op ;;; for_each f rest
  end.

(** Lines 259-308 of [unstake]: confirmation, unlocking, execution.
    The value is the one [unstake] returns: [Some false] for
    [return False], [None] when the body runs to its end. *)
Definition unstake_execute (unstake_operations : list UnstakeOp)
  : M (option bool) :=
  (if prompt args
   then if Confirm_ask user "Would you like to continue?"
        then ret tt
        else raise Py.TyperExit
   else ret tt) ;;;
  unlocked <-
    try_except
      (lift (unlock_coldkey wallet) ;;; ret true)
      (fun e => match e with Py.KeyFileError => true | _ => false end)
      (fun _ =>
         emit (err_console_print
                 "Error decrypting coldkey (possibly incorrect password)") ;;;
         ret false) ;;
  if negb unlocked then ret (Some false)
  else
    emit (status_update
            (String "010" ":satellite: Performing unstaking operations...")) ;;;
    (if safe_staking args
     then for_each perform_safe unstake_operations
     else for_each perform_plain unstake_operations) ;;;
    emit (console_print
            ("[" +:+ STAKE_STAKE_AMOUNT
             +:+ "]Unstaking operations completed.")) ;;;
    ret None.

(** [unstake], from the retrieval of the stake data (line 101) on.
    [hotkeys_to_unstake_from] and [netuids] are what
    [_unstake_selection] or [_get_hotkeys_to_unstake] and
    [get_all_subnet_netuids] returned; these only query and prompt. *)
Definition unstake (hotkeys_to_unstake_from : list Hotkey)
    (netuids : list Z) : M (option bool) :=
  all_sn_dynamic_info_ <- lift (all_subnets subtensor) ;;
  let all_sn_dynamic_info := by_netuid all_sn_dynamic_info_ in
  h <- history ;;
  chain_head <- lift (get_chain_head subtensor h) ;;
  stake_info_list <-
    lift (get_stake_for_coldkey subtensor
            (coldkeypub_ss58_address wallet)) ;;
  let stake_in_netuids := build_stake_in_netuids stake_info_list in
  (if ((1 <? length netuids)%nat && negb (Py.nonzero (amount args)))%bool
   then emit (console_print
                ("[dark_sea_green3]Tip: Enter 'q' any time to stop going over remaining subnets and process current unstakes."
                 +:+ String "010" EmptyString))
   else ret tt) ;;;
  st <- collect_hotkeys all_sn_dynamic_info stake_in_netuids netuids
          hotkeys_to_unstake_from Collected_init ;;
  match unstake_operations st with
  | [] =>
      emit (console_print "[red]No unstake operations to perform.[/red]") ;;;
      ret (Some false)
  | _ :: _ =>
      _print_table_and_slippage (total_received_amount st)
        (max_float_slippage st) ;;;
      unstake_execute (unstake_operations st)
  end.

(** The call that the execution loop of safe-staking mode is expected
    to compose for an operation: plain [remove_stake] on netuid 0,
    [remove_stake_limit] with the recorded price limit elsewhere. *)
Definition expected_safe_call (op : UnstakeOp) : option Call :=
  if (op_netuid op =? 0)%Z
  then Some (remove_stake_call (hotkey_ss58 op) (op_netuid op)
               (amount_to_unstake op))
  else
    match price_with_tolerance op with
    | Some price_limit =>
        Some (remove_stake_limit_call (hotkey_ss58 op) (op_netuid op)
                (amount_to_unstake op) price_limit
                (allow_partial_stake args))
    | None => None
    end.

(** Every collected operation asks for no more than the balance it was
    checked against. *)
Definition within_balance (st : Collected) : Prop :=
  Forall (fun op =>
            Balance.gtb (amount_to_unstake op) (current_stake_balance op)
            = false)
    (unstake_operations st).

(** Every collected operation carries the price limit computed from its
    own subnet. *)
Definition priced (st : Collected) : Prop :=
  Forall (fun op =>
            price_with_tolerance op
            = safe_price_with_tolerance (dynamic_info op))
    (unstake_operations st).

End Unstake.

End Remove.

(** ** stake/list.py: the cells of the stake tables *)

Module StakeList.

(** The float literal [0.00009] of both tables. *)
Definition ownership_threshold : Q := 9 # 100000.

(** "Alpha value cell": [Balance.from_rao(int(stake.rao)).set_unit(netuid)] *)
Definition alpha_value_of (substake_ : StakeInfo) : Balance :=
  Balance.set_unit (StakeInfo.netuid substake_)
    (Balance.from_rao (Balance.rao (StakeInfo.stake substake_))).

(** "Issuance cell": [pool.alpha_out if pool.is_dynamic else tao_locked] *)
Definition issuance_of (pool : DynamicInfo) : Balance :=
  if DynamicInfo.is_dynamic pool
  then DynamicInfo.alpha_out pool
  else DynamicInfo.tao_in pool.

(** [substake.emission.tao / (pool.tempo or 1)] *)
Definition per_block_emission_of (pool : DynamicInfo) (substake_ : StakeInfo)
  : result Q :=
  Py.truediv (Balance.tao (StakeInfo.emission substake_))
    (inject_Z (Py.or_int (DynamicInfo.tempo pool) 1)).

(** What one iteration computes for the ownership cells: the value bound
    to [tao_ownership] in this iteration, if one is bound, and
    [total_tao_ownership] afterwards. *)
Record Ownership : Type := {
  tao_ownership : option Balance;
  total_tao_ownership : Balance
}.

(** [Balance.from_tao((alpha_value.tao / issuance.tao) * tao_locked.tao)] *)
Definition ownership_share (alpha_value issuance tao_locked : Balance)
  : result Balance :=
  match Py.truediv (Balance.tao alpha_value) (Balance.tao issuance) with
  | Py.Ok share => Ok (Balance.from_tao (share * Balance.tao tao_locked)%Q)
  | Py.Raise e => Raise e
  end.

(** [create_table], lines 195-217 of one iteration of the loop over
    [sorted_substakes]: TAO locked, issuance, per-block emission and the
    ownership cells. *)
Definition create_table_ownership (pool : DynamicInfo)
    (substake_ : StakeInfo) (total : Balance) : result Ownership :=
  let alpha_value := alpha_value_of substake_ in
  let tao_locked := DynamicInfo.tao_in pool in
  let issuance := issuance_of pool in
  match per_block_emission_of pool substake_ with
  | Py.Raise e => Raise e
  | Py.Ok per_block_emission =>
      if Py.gt (Balance.tao alpha_value) ownership_threshold then
        if Py.nonzero (Balance.tao issuance) then
          match ownership_share alpha_value issuance tao_locked with
          | Py.Raise e => Raise e
          | Py.Ok tao_ownership =>
              Ok {| tao_ownership := Some tao_ownership;
                    total_tao_ownership := Balance.add total tao_ownership |}
          end
        else
          Ok {| tao_ownership := Some (Balance.from_tao 0);
                total_tao_ownership := total |}
      else Ok {| tao_ownership := None; total_tao_ownership := total |}
  end.

(** [create_live_table], lines 312-346 of one iteration: the skip test,
    the ownership, and the emission stored in [current_data]. *)
Definition create_live_table_ownership (pool : option DynamicInfo)
    (substake : StakeInfo) (total : Balance) : result Ownership :=
  match pool with
  | None => Ok {| tao_ownership := None; total_tao_ownership := total |}
  | Some pool =>
      if (Balance.rao (StakeInfo.stake substake) =? 0)%Z
      then Ok {| tao_ownership := None; total_tao_ownership := total |}
      else
        let alpha_value := alpha_value_of substake in
        let tao_locked := DynamicInfo.tao_in pool in
        let issuance := issuance_of pool in
        let owned :=
          if (Py.gt (Balance.tao alpha_value) ownership_threshold
              && Py.nonzero (Balance.tao issuance))%bool
          then
            match ownership_share alpha_value issuance tao_locked with
            | Py.Raise e => Raise e
            | Py.Ok tao_ownership =>
                Ok {| tao_ownership := Some tao_ownership;
                      total_tao_ownership :=
                        Balance.add total tao_ownership |}
            end
          else
            Ok {| tao_ownership := Some (Balance.from_tao 0);
                  total_tao_ownership := total |} in
        match owned with
        | Py.Raise e => Raise e
        | Py.Ok o =>
            match per_block_emission_of pool substake with
            | Py.Raise e => Raise e
            | Py.Ok _ => Ok o
            end
        end
  end.

Section Cells.
Context `{Externals}.

(** [create_table], lines 174-184: the swapped value and the slippage
    text of one position. *)
Definition swap_cells (pool : DynamicInfo) (substake_ : StakeInfo)
  : Q * string :=
  let '(swapped_tao_value, _, slippage_percentage_) :=
    Pool.alpha_to_tao_with_slippage pool (StakeInfo.stake substake_) in
  let slippage_percentage :=
    if DynamicInfo.is_dynamic pool
    then "[" +:+ STAKE_SLIPPAGE_PERCENT +:+ "]"
         +:+ Py.format_f 3 slippage_percentage_
         +:+ "%[/" +:+ STAKE_SLIPPAGE_PERCENT +:+ "]"
    else "[" +:+ STAKE_SLIPPAGE_PERCENT +:+ "]0.000%[/"
         +:+ STAKE_SLIPPAGE_PERCENT +:+ "]" in
  (swapped_tao_value, slippage_percentage).

(** [create_table], lines 167-172: the linear TAO value of one
    position. *)
Definition tao_value_cell (pool : DynamicInfo) (substake_ : StakeInfo)
  : Q :=
  Pool.alpha_to_tao pool (alpha_value_of substake_).

End Cells.

End StakeList.

(** ** subnets.py *)

Module Subnets.
Import Proc.
Local Open Scope proc_scope.

(** The two non-ASCII pieces of the row strings, as UTF-8: the letter tau
    and the left-to-right mark U+200E. *)
Definition tau : string := String "207" (String "132" EmptyString).
Definition LRM : string := String "226" (String "128" (String "142" EmptyString)).

(** The digits of an integer part with a comma before every group of
    three, as the [,] format option inserts them. *)
Fixpoint group_thousands_rev (digits_rev : list ascii) (seen : nat)
  : list ascii :=
  match digits_rev with
  | [] => []
  | d :: rest =>
      match rest with
      | [] => [d]
      | _ :: _ =>
          if (seen =? 2)%nat
          then d :: ","%char :: group_thousands_rev rest 0
          else d :: group_thousands_rev rest (S seen)
      end
  end.

Definition group_thousands (digits : string) : string :=
  string_of_list_ascii
    (rev (group_thousands_rev (rev (list_ascii_of_string digits)) 0)).

(** [f"{x:,.4f}"] for a non-negative [x] *)
Definition format_comma_4f (x : Q) : string :=
  let scale := 10000%Z in
  let n := Py.round_half_even (Qabs x * inject_Z scale)%Q in
  group_thousands (Py.str (n / scale)%Z) +:+ "."
  +:+ Py.zfill 4 (Py.str (n mod scale)%Z).

(** A row of the subnets table: the nine strings of the tuple, in order;
    [emission_cell] is [x[2]]. *)
Record Row : Type := {
  netuid_cell : string;
  symbol_cell : string;
  emission_cell : string;
  stake_cell : string;
  tao_pool_cell : string;
  alpha_pool_cell : string;
  rate_cell : string;
  tempo_cell : string;
  weight_cell : string
}.

(** [subnets_list], lines 168-190: the row of one subnet. *)
Definition row_of (global_weights : gmap Z Q) (subnet : DynamicInfo) : Row :=
  let netuid := DynamicInfo.netuid subnet in
  let global_weight := global_weights !! netuid in
  let symbol := DynamicInfo.symbol subnet +:+ LRM in
  let emission_tao :=
    if (netuid =? 0)%Z then 0%Q
    else Balance.tao (DynamicInfo.emission subnet) in
  {| netuid_cell := Py.str netuid;
     symbol_cell :=
       "[light_goldenrod1]" +:+ DynamicInfo.symbol subnet
       +:+ "[light_goldenrod1]";
     emission_cell := tau +:+ " " +:+ Py.format_f 4 emission_tao;
     stake_cell :=
       format_comma_4f (Balance.tao (DynamicInfo.alpha_out subnet))
       +:+ " " +:+ symbol;
     tao_pool_cell :=
       tau +:+ " "
       +:+ format_comma_4f (Balance.tao (DynamicInfo.tao_in subnet));
     alpha_pool_cell :=
       format_comma_4f (Balance.tao (DynamicInfo.alpha_in subnet))
       +:+ " " +:+ symbol;
     rate_cell :=
       Py.format_f 4 (Balance.tao (DynamicInfo.price subnet))
       +:+ " " +:+ tau +:+ "/" +:+ symbol;
     tempo_cell :=
       Py.str (DynamicInfo.blocks_since_last_step subnet) +:+ "/"
       +:+ Py.str (DynamicInfo.tempo subnet);
     weight_cell :=
       match global_weight with
       | Some w => Py.format_f 4 w
       | None => "N/A"
       end |}.

(** [sorted(l, key=key, reverse=True)] for string keys: a stable sort,
    largest key first; equal keys keep their order. *)
Fixpoint insert_reverse {A} (key : A -> string) (x : A) (l : list A)
  : list A :=
  match l with
  | [] => [x]
  | y :: l' =>
      if String.ltb (key x) (key y)
      then y :: insert_reverse key x l'
      else x :: y :: l'
  end.

Definition sorted_reverse {A} (key : A -> string) (l : list A) : list A :=
  foldr (insert_reverse key) [] l.

(** [a] may stand before [b] in a list ordered by descending key, the
    keys being compared as strings, character by character. *)
Definition key_desc {A} (key : A -> string) (a b : A) : Prop :=
  String.leb (key b) (key a) = true.

(** Line 244:
    [[rows[0]] + sorted(rows[1:], key=lambda x: x[2], reverse=True)] *)
Definition sorted_rows (rows : list Row) : result (list Row) :=
  match rows with
  | [] => Raise Py.IndexError
  | first :: others => Ok (first :: sorted_reverse emission_cell others)
  end.

(** [subnets_list]: the rows in the order in which they are added to the
    table. *)
Definition subnets_list (subnets : list DynamicInfo)
    (global_weights : gmap Z Q) : result (list Row) :=
  sorted_rows (map (row_of global_weights) subnets).

(** The three subnets used to show the order of the table: root, then
    emissions of 9 and of 10 TAO. *)
Definition demo_subnet (netuid emission_rao : Z) : DynamicInfo :=
  DynamicInfo.mk netuid "a" "demo" (negb (netuid =? 0)%Z)
    (Balance.from_rao 0) (Balance.from_rao 0) (Balance.from_rao 0)
    (Balance.from_rao 0) (Balance.from_rao emission_rao) 360 0.

Definition demo_subnets : list DynamicInfo :=
  [demo_subnet 0 0; demo_subnet 1 9000000000; demo_subnet 2 10000000000;
   demo_subnet 3 2500000000].

Section Register.
Context `{Externals}.
Variables (subtensor : SubtensorInterface) (wallet : Wallet)
          (user : User).

(** [lock_cost(subtensor)] *)
Definition lock_cost : M (option Balance) :=
  lc <- lift (query_runtime_api subtensor "SubnetRegistrationRuntimeApi"
                "get_network_registration_cost") ;;
  match lc with
  | Some (Z0) | None =>
      emit (err_console_print
              "Subnet lock cost: [red]Failed to get subnet lock cost[/red]") ;;;
      ret None
  | Some lc =>
      let lock_cost_ := Balance.from_rao lc in
      emit (console_print
              ("Subnet lock cost: [green]" +:+ str_Balance lock_cost_
               +:+ "[/green]")) ;;;
      ret (Some lock_cost_)
  end.

(** [_find_event_attributes_in_extrinsic_receipt] *)
Fixpoint find_event_attributes (events : list (string * list Z))
    (event_name : string) : list Z :=
  match events with
  | [] => [(-1)%Z]
  | (event_id, attributes) :: rest =>
      if String.eqb event_id event_name then attributes
      else find_event_attributes rest event_name
  end.

(** [register_subnetwork_extrinsic] *)
Definition register_subnetwork_extrinsic
    (wait_for_inclusion wait_for_finalization prompt : bool) : M bool :=
  h <- history ;;
  your_balance_ <-
    lift (get_balance subtensor h (coldkeypub_ss58_address wallet)) ;;
  match your_balance_ !! coldkeypub_ss58_address wallet with
  | None => raise (Py.KeyError (coldkeypub_ss58_address wallet))
  | Some your_balance =>
      burn_cost <- lock_cost ;;
      match burn_cost with
      | None =>
          raise (Py.Other "TypeError"
                   "'>' not supported between instances of 'NoneType' and 'Balance'")
      | Some burn_cost =>
          if Balance.gtb burn_cost your_balance then
            emit (err_console_print
                    ("Your balance of: [green]" +:+ str_Balance your_balance
                     +:+ "[/green] is not enough to pay the subnet lock cost of: [green]"
                     +:+ str_Balance burn_cost +:+ "[/green]")) ;;;
            ret false
          else
            confirmed <-
              (if prompt then
                 emit (console_print
                         ("Your balance is: [green]"
                          +:+ str_Balance your_balance +:+ "[/green]")) ;;;
                 ret (Confirm_ask user
                        ("Do you want to register a subnet for [green]"
                         +:+ str_Balance burn_cost +:+ "[/green]?"))
               else ret true) ;;
            if negb confirmed then ret false
            else
              unlocked <-
                try_except
                  (lift (unlock_coldkey wallet) ;;; ret true)
                  (fun e =>
                     match e with Py.KeyFileError => true | _ => false end)
                  (fun _ =>
                     emit (err_console_print
                             "Error decrypting coldkey (possibly incorrect password)") ;;;
                     ret false) ;;
              if negb unlocked then ret false
              else
                call <- compose subtensor
                          {| call_module := "SubtensorModule";
                             call_function := "register_network";
                             call_params :=
                               <["hotkey" :=
                                   PStr (hotkey_ss58_address wallet)]>
                                 (<["mechid" := PInt 1]> ∅) |} ;;
                extrinsic <-
                  lift (create_signed_extrinsic subtensor call
                          (coldkey wallet) None) ;;
                response <- submit subtensor extrinsic ;;
                if (negb wait_for_finalization
                    && negb wait_for_inclusion)%bool
                then ret true
                else
                  lift (process_events response) ;;;
                  ok <- lift (is_success response) ;;
                  if negb ok then
                    msg <- lift (error_message response) ;;
                    emit (err_console_print
                            (":cross_mark: [red]Failed[/red]: "
                             +:+ format_error_message (inl msg))) ;;;
                    ret false
                  else
                    events <- lift (triggered_events response) ;;
                    match find_event_attributes events "NetworkAdded" with
                    | [] => raise Py.IndexError
                    | netuid :: _ =>
                        emit (console_print
                                (":white_heavy_check_mark: [green]Registered subnetwork with netuid: "
                                 +:+ Py.str netuid +:+ "[/green]")) ;;;
                        ret true
                    end
      end
  end.

End Register.

End Subnets.

(** ** The [json] module as [metagraph_cmd] uses it

    A [str] is the list of its code points. [dumps] is [json.dumps] with its
    default options ([ensure_ascii], separators [", "]) on lists and strings;
    [loads] is [json.loads] on the same fragment of JSON: any other kind of
    value is reported as [JSONDecodeError]. *)

Module Json.

Definition str : Type := list N.

(** An ASCII literal as a [str]. *)
Definition of_string (s : string) : str :=
  map N_of_ascii (list_ascii_of_string s).

Inductive value : Type :=
| Str (s : str)
| Arr (items : list value).

(** [table_data], a list of rows of strings, as a JSON value. *)
Definition of_rows (rows : list (list str)) : value :=
  Arr (map (fun row => Arr (map Str row)) rows).

(** The rows of a loaded value, when it is a list of lists of strings. *)
Definition cell_of (v : value) : option str :=
  match v with
  | Str s => Some s
  | Arr _ => None
  end.

Fixpoint all_some {A} (l : list (option A)) : option (list A) :=
  match l with
  | [] => Some []
  | Some x :: l' =>
      match all_some l' with
      | Some xs => Some (x :: xs)
      | None => None
      end
  | None :: _ => None
  end.

Definition row_of (v : value) : option (list str) :=
  match v with
  | Str _ => None
  | Arr cells => all_some (map cell_of cells)
  end.

Definition to_rows (v : value) : option (list (list str)) :=
  match v with
  | Str _ => None
  | Arr rows => all_some (map row_of rows)
  end.

(** *** Encoding *)

(** The lower-case hexadecimal digit of [d < 16]. *)
Definition hex_digit (d : N) : N :=
  (if d <? 10 then 48 + d else 87 + d)%N.

(** ['\\u{0:04x}'.format(n)] *)
Definition u_escape (n : N) : str :=
  [92; 117;
   hex_digit (N.land (N.shiftr n 12) 15);
   hex_digit (N.land (N.shiftr n 8) 15);
   hex_digit (N.land (N.shiftr n 4) 15);
   hex_digit (N.land n 15)]%N.

(** [replace] of [py_encode_basestring_ascii]: the text that stands for
    one code point. Printable ASCII other than the quote and the
    backslash is kept. *)
Definition escape_char (c : N) : str :=
  (if c =? 34 then [92; 34]
   else if c =? 92 then [92; 92]
   else if (32 <=? c) && (c <=? 126) then [c]
   else if c =? 8 then [92; 98]
   else if c =? 12 then [92; 102]
   else if c =? 10 then [92; 110]
   else if c =? 13 then [92; 114]
   else if c =? 9 then [92; 116]
   else if c <? 65536 then u_escape c
   else
     let n := c - 65536 in
     let s1 := N.lor 55296 (N.land (N.shiftr n 10) 1023) in
     let s2 := N.lor 56320 (N.land n 1023) in
     u_escape s1 ++ u_escape s2)%N.

(** [py_encode_basestring_ascii(s)] *)
Definition encode_basestring_ascii (s : str) : str :=
  (34 :: flat_map escape_char s ++ [34])%N.

(** [', '.join(chunks)] *)
Fixpoint join (chunks : list str) : str :=
  match chunks with
  | [] => []
  | [chunk] => chunk
  | chunk :: rest => chunk ++ [44; 32]%N ++ join rest
  end.

(** [json.dumps(v)] *)
Fixpoint dumps (v : value) : str :=
  match v with
  | Str s => encode_basestring_ascii s
  | Arr items => (91 :: join (map dumps items) ++ [93])%N
  end.

(** *** Decoding *)

(** The value of a hexadecimal digit. *)
Definition hex_value (c : N) : option N :=
  (if (48 <=? c) && (c <=? 57) then Some (c - 48)
   else if (97 <=? c) && (c <=? 102) then Some (c - 87)
   else if (65 <=? c) && (c <=? 70) then Some (c - 55)
   else None)%N.

(** [_decode_uXXXX]: [int(esc, 16)] on four hexadecimal digits. *)
Definition decode_uXXXX (a b c d : N) : option N :=
  match hex_value a, hex_value b, hex_value c, hex_value d with
  | Some x3, Some x2, Some x1, Some x0 =>
      Some (x3 * 4096 + x2 * 256 + x1 * 16 + x0)%N
  | _, _, _, _ => None
  end.

(** The table [BACKSLASH]. *)
Definition BACKSLASH (esc : N) : option N :=
  (if esc =? 34 then Some 34
   else if esc =? 92 then Some 92
   else if esc =? 47 then Some 47
   else if esc =? 98 then Some 8
   else if esc =? 102 then Some 12
   else if esc =? 110 then Some 10
   else if esc =? 114 then Some 13
   else if esc =? 116 then Some 9
   else None)%N.

Definition push (c : N) (r : result (str * str)) : result (str * str) :=
  match r with
  | Py.Ok (content, rest) => Ok (c :: content, rest)
  | Py.Raise e => Raise e
  end.

(** [py_scanstring(s, end)] with [strict=True], from the character after
    the opening quote: the decoded string and the text after the closing
    quote. *)
Fixpoint scanstring (s : str) : result (str * str) :=
  match s with
  | [] => Raise Py.JSONDecodeError
  | c :: rest =>
      if (c =? 34)%N then Ok ([], rest)
      else if (c =? 92)%N then
        match rest with
        | [] => Raise Py.JSONDecodeError
        | esc :: rest1 =>
            if (esc =? 117)%N then
              match rest1 with
              | a :: b :: c' :: d :: rest2 =>
                  match decode_uXXXX a b c' d with
                  | None => Raise Py.JSONDecodeError
                  | Some uni =>
                      if ((55296 <=? uni) && (uni <=? 56319))%N then
                        match rest2 with
                        | bs :: u :: tail =>
                            if ((bs =? 92) && (u =? 117))%N then
                              match tail with
                              | e :: f :: g :: h :: rest3 =>
                                  match decode_uXXXX e f g h with
                                  | None => Raise Py.JSONDecodeError
                                  | Some uni2 =>
                                      if ((56320 <=? uni2)
                                          && (uni2 <=? 57343))%N
                                      then
                                        push
                                          (65536
                                           + N.lor
                                               (N.shiftl (uni - 55296) 10)
                                               (uni2 - 56320))%N
                                          (scanstring rest3)
                                      else push uni (scanstring rest2)
                                  end
                              | _ => Raise Py.JSONDecodeError
                              end
                            else push uni (scanstring rest2)
                        | _ => push uni (scanstring rest2)
                        end
                      else push uni (scanstring rest2)
                  end
              | _ => Raise Py.JSONDecodeError
              end
            else
              match BACKSLASH esc with
              | None => Raise Py.JSONDecodeError
              | Some char => push char (scanstring rest1)
              end
        end
      else if (c <? 32)%N then Raise Py.JSONDecodeError
      else push c (scanstring rest)
  end.

(** [WHITESPACE.match(s, end).end()] *)
Definition is_ws (c : N) : bool :=
  ((c =? 32) || (c =? 9) || (c =? 10) || (c =? 13))%N.

Fixpoint skip_ws (s : str) : str :=
  match s with
  | c :: rest => if is_ws c then skip_ws rest else s
  | [] => []
  end.

(** [scan_once] and the loop of [JSONArray]. [fuel] bounds the number of
    values still to be read; [loads] supplies more than the text can
    hold. *)
Fixpoint scan_once (fuel : nat) (s : str) : result (value * str) :=
  match fuel with
  | O => Raise Py.JSONDecodeError
  | S fuel' =>
      match s with
      | [] => Raise Py.JSONDecodeError
      | c :: rest =>
          if (c =? 34)%N then
            match scanstring rest with
            | Py.Ok (content, rest') => Ok (Str content, rest')
            | Py.Raise e => Raise e
            end
          else if (c =? 91)%N then
            match skip_ws rest with
            | [] => Raise Py.JSONDecodeError
            | c' :: rest' =>
                if (c' =? 93)%N then Ok (Arr [], rest')
                else
                  match array_items fuel' (c' :: rest') with
                  | Py.Ok (items, rest'') => Ok (Arr items, rest'')
                  | Py.Raise e => Raise e
                  end
            end
          else Raise Py.JSONDecodeError
      end
  end
with array_items (fuel : nat) (s : str) : result (list value * str) :=
  match fuel with
  | O => Raise Py.JSONDecodeError
  | S fuel' =>
      match scan_once fuel' s with
      | Py.Raise e => Raise e
      | Py.Ok (item, rest) =>
          match skip_ws rest with
          | [] => Raise Py.JSONDecodeError
          | c :: rest' =>
              if (c =? 93)%N then Ok ([item], rest')
              else if (c =? 44)%N then
                match array_items fuel' (skip_ws rest') with
                | Py.Ok (items, rest'') => Ok (item :: items, rest'')
                | Py.Raise e => Raise e
                end
              else Raise Py.JSONDecodeError
          end
      end
  end.

(** [json.loads(s)] *)
Definition loads (s : str) : result value :=
  match scan_once (S (length s)) (skip_ws s) with
  | Py.Raise e => Raise e
  | Py.Ok (v, rest) =>
      match skip_ws rest with
      | [] => Ok v
      | _ :: _ => Raise Py.JSONDecodeError
      end
  end.

(** The number of values in [v], itself included, plus the number of
    array items: enough fuel for [scan_once] to read [dumps v]. *)
Fixpoint nodes (v : value) : nat :=
  match v with
  | Str _ => 1
  | Arr items => S (list_sum (map nodes items) + length items)
  end.

(** [scan_once] reads [v] back from its text, whatever follows it. *)
Definition reads_back (v : value) : Prop :=
  forall fuel rest,
    nodes v <= fuel -> scan_once fuel (dumps v ++ rest) = Ok (v, rest).

(** A code point that is a Unicode scalar value: below [0x110000] and not
    a surrogate. *)
Definition scalar (c : N) : Prop :=
  (c < 55296 \/ (57344 <= c /\ c < 1114112))%N.

(** A value all of whose strings are text. *)
Inductive text : value -> Prop :=
| text_Str (s : str) : Forall scalar s -> text (Str s)
| text_Arr (items : list value) : Forall text items -> text (Arr items).

(** Text: every code point of every cell is a scalar value. *)
Definition text_rows (rows : list (list str)) : Prop :=
  Forall (Forall (Forall scalar)) rows.

End Json.

(** ** subnets.py: [metagraph_cmd] and its cache *)

Module Metagraph.

(** The metadata table of the local cache: for each table name, its keys
    and values. *)
Abbreviation DB := (gmap string (gmap string Json.str)).

(** Modelled from the spec: [update_metadata_table] of
    [bittensor_cli/src/bittensor/utils.py] is not among the sources. The
    spec describes the cache as storing the last rendered table's row data
    and summary metadata keyed by command name. *)
Definition update_metadata_table (table_name : string)
    (values : gmap string Json.str) (db : DB) : DB :=
  <[table_name := values]> db.

(** Modelled from the spec: [get_metadata_table] of
    [bittensor_cli/src/bittensor/utils.py] is not among the sources. The
    spec has the stored data read back for the reuse-last mode, absence
    being a recoverable error. *)
Definition get_metadata_table (table_name : string) (db : DB)
  : result (gmap string Json.str) :=
  match db !! table_name with
  | Some values => Ok values
  | None => Raise Py.OperationalError
  end.

(** [row[idx] for idx in table_cols_indices] *)
Fixpoint select_columns (table_cols_indices : list nat)
    (row : list Json.str) : result (list Json.str) :=
  match table_cols_indices with
  | [] => Ok []
  | idx :: rest =>
      match nth_error row idx, select_columns rest row with
      | Some cell, Py.Ok cells => Ok (cell :: cells)
      | None, _ => Raise Py.IndexError
      | _, Py.Raise e => Raise e
      end
  end.

Fixpoint select_all (table_cols_indices : list nat)
    (table_data : list (list Json.str)) : result (list (list Json.str)) :=
  match table_data with
  | [] => Ok []
  | row :: rest =>
      match select_columns table_cols_indices row,
            select_all table_cols_indices rest with
      | Py.Ok r, Py.Ok rs => Ok (r :: rs)
      | Py.Raise e, _ => Raise e
      | _, Py.Raise e => Raise e
      end
  end.

(** The indices [idx] of the columns with [display_cols[k] is True], in
    the order of [cols]. *)
Fixpoint shown_indices (display_cols : list bool) (idx : nat) : list nat :=
  match display_cols with
  | [] => []
  | shown :: rest =>
      if shown then idx :: shown_indices rest (S idx)
      else shown_indices rest (S idx)
  end.

(** Lines 1154-1167: the rows handed to [table.add_row]. *)
Definition added_rows (display_cols : list bool)
    (table_data : list (list Json.str)) : result (list (list Json.str)) :=
  if forallb negb display_cols
  then Ok [[repeat 32%N 256]]
  else if existsb negb display_cols
       then select_all (shown_indices display_cols 0) table_data
       else Ok table_data.

(** [metagraph_cmd] without [html_output]. [fetched] is what the chain
    queries and the loop over [metagraph.uids] produce: [table_data] and
    the other entries of [metadata_info]. The value is the rows added to
    the table, or [None] when the command gives up with a message; the
    second component is the cache afterwards. The data table written by
    [create_table] is not part of the metadata table and is left out. *)
Definition metagraph_cmd (reuse_last no_cache : bool)
    (display_cols : list bool)
    (fetched : result (list (list Json.str) * gmap string Json.str))
    (db : DB) : result (option (list (list Json.str))) * DB :=
  if negb reuse_last then
    match fetched with
    | Py.Raise e => (Raise e, db)
    | Py.Ok (table_data, summary) =>
        let metadata_info :=
          <["table_data" := Json.dumps (Json.of_rows table_data)]> summary in
        let db' :=
          if negb no_cache
          then update_metadata_table "metagraph" metadata_info db
          else db in
        (match added_rows display_cols table_data with
         | Py.Ok rows => Ok (Some rows)
         | Py.Raise e => Raise e
         end, db')
    end
  else
    match get_metadata_table "metagraph" db with
    | Py.Raise Py.OperationalError => (Ok None, db)
    | Py.Raise e => (Raise e, db)
    | Py.Ok metadata_info =>
        match metadata_info !! "table_data" with
        | None => (Raise (Py.KeyError "table_data"), db)
        | Some text =>
            match Json.loads text with
            | Py.Raise e => (Raise e, db)
            | Py.Ok loaded =>
                match Json.to_rows loaded with
                | None =>
                    (Raise (Py.Other "TypeError"
                              "Value after * must be an iterable"), db)
                | Some table_data =>
                    (match added_rows display_cols table_data with
                     | Py.Ok rows => Ok (Some rows)
                     | Py.Raise e => Raise e
                     end, db)
                end
            end
        end
    end.

End Metagraph.

(** ** Concrete data for the examples *)

Module Demo.
Import Proc.

#[export] Instance externals : Externals := {|
  STAKE_SLIPPAGE_PERCENT := "dark_red";
  STAKE_SLIPPAGE_TEXT := "red";
  STAKE_NOT_REGISTERED := "grey";
  STAKE_STAKE_AMOUNT := "blue";
  GENERAL_SUBHEADING := "white";
  str_Balance := fun b => Py.str (Balance.rao b);
  str_balances := fun _ => "{}";
  str_float := Py.format_f 4;
  format_error_message :=
    fun err => match err with inl m => m | inr e => Py.str_exn e end
|}.

Definition tao_ (n : Z) : Balance := Balance.from_rao (n * 1000000000).

(** The root subnet: fixed 1:1 rate. *)
Definition root_pool : DynamicInfo :=
  DynamicInfo.mk 0 "t" "root" false (tao_ 4000) (tao_ 4000) (tao_ 0)
    (tao_ 1) (tao_ 0) 100 0.

(** A dynamic subnet with reserves of 1000 TAO and 500 alpha: price 2. *)
Definition pool_1 : DynamicInfo :=
  DynamicInfo.mk 1 "a" "alpha" true (tao_ 1000) (tao_ 500) (tao_ 800)
    (tao_ 2) (tao_ 1) 360 10.

(** A dynamic subnet on which nothing was issued yet. *)
Definition pool_2 : DynamicInfo :=
  DynamicInfo.mk 2 "b" "beta" true (tao_ 10) (tao_ 10) (tao_ 0)
    (tao_ 1) (tao_ 0) 0 0.

Definition stake_on (netuid amount : Z) : StakeInfo :=
  StakeInfo.mk "5Hot" netuid (tao_ amount) (tao_ 0) true.

Definition wallet : Wallet :=
  {| name := "default";
     coldkeypub_ss58_address := "5Cold";
     coldkey := "coldkey";
     hotkey_ss58_address := "5Hot";
     unlock_coldkey := Ok tt |}.

(** A wallet whose coldkey cannot be decrypted. *)
Definition locked_wallet : Wallet :=
  {| name := "default";
     coldkeypub_ss58_address := "5Cold";
     coldkey := "coldkey";
     hotkey_ss58_address := "5Hot";
     unlock_coldkey := Raise Py.KeyFileError |}.

Definition response_ok : Response :=
  {| process_events := Ok tt;
     is_success := Ok true;
     error_message := Ok EmptyString;
     triggered_events := Ok [("NetworkAdded", [7%Z])] |}.

(** A chain client on which every call succeeds; [submit] is the outcome
    of [submit_extrinsic]. *)
Definition chain (submit : result Response) : SubtensorInterface :=
  {| network := "test";
     all_subnets := Ok [root_pool; pool_1; pool_2];
     get_stake_for_coldkey :=
       fun _ => Ok [stake_on 0 5; stake_on 1 30; stake_on 2 1];
     get_balance := fun _ addr => Ok {[addr := tao_ 100]};
     get_stake := fun _ _ _ _ => Ok (tao_ 5);
     get_chain_head := fun _ => Ok "0xhead";
     get_account_next_index := fun _ _ => Ok 3%Z;
     query_runtime_api := fun _ _ => Ok (Some 1000000000%Z);
     compose_call := fun c => Ok c;
     create_signed_extrinsic :=
       fun c kp nonce =>
         Ok {| ext_call := c; ext_keypair := kp; ext_nonce := nonce |};
     submit_extrinsic := fun _ _ => submit |}.

Definition user : User :=
  {| Confirm_ask := fun _ => true;
     _ask_unstake_amount := fun current _ _ _ _ => Some current |}.

Definition hotkey : Remove.Hotkey :=
  {| Remove.staking_address_name := Some "validator";
     Remove.staking_address_ss58 := "5Hot";
     Remove.selected_netuid := 1 |}.

(** [unstake --amount 10], safe staking with 5 % tolerance. *)
Definition args : Remove.Args :=
  {| Remove.amount := 10;
     Remove.prompt := true;
     Remove.interactive := false;
     Remove.safe_staking := true;
     Remove.rate_tolerance := 5 # 100;
     Remove.allow_partial_stake := false |}.

Definition world0 : World :=
  {| printed := []; composed := []; submitted := [] |}.

(** Two rows of a metagraph table, the second with a quote, a newline,
    an accented letter and an emoji in its cells. *)
Definition table_data : list (list Json.str) :=
  [[Json.of_string "0"; Json.of_string "1.0000"; Json.of_string "*"];
   [[49; 34; 10]%N; [233; 128512]%N; Json.of_string "5F3sa2TJAW"]].

(** The dicts that [unstake] builds from the answers of [chain]. *)
Definition infos : gmap Z DynamicInfo :=
  Remove.by_netuid [root_pool; pool_1; pool_2].

Definition stakes_of_5Hot : gmap Z Balance :=
  <[2%Z := tao_ 1]> (<[1%Z := tao_ 30]> (<[0%Z := tao_ 5]> ∅)).

Definition stake_in_netuids : gmap string (gmap Z Balance) :=
  Remove.build_stake_in_netuids [stake_on 0 5; stake_on 1 30; stake_on 2 1].

(** The operation that the collection queues for [args] on subnet 1. *)
Definition op_1 : Remove.UnstakeOp :=
  {| Remove.op_netuid := 1;
     Remove.hotkey_name := "validator";
     Remove.hotkey_ss58 := "5Hot";
     Remove.amount_to_unstake := Balance.set_unit 1 (Balance.from_tao 10);
     Remove.current_stake_balance := tao_ 30;
     Remove.received_amount :=
       fst (fst (Remove._calculate_slippage pool_1
                   (Balance.set_unit 1 (Balance.from_tao 10))));
     Remove.slippage_pct :=
       snd (fst (Remove._calculate_slippage pool_1
                   (Balance.set_unit 1 (Balance.from_tao 10))));
     Remove.slippage_pct_float :=
       snd (Remove._calculate_slippage pool_1
              (Balance.set_unit 1 (Balance.from_tao 10)));
     Remove.dynamic_info := pool_1;
     Remove.price_with_tolerance :=
       Some (PFloat (inject_Z 2000000000 * (1 - (5 # 100)))%Q) |}.

(** An operation on the root subnet, as safe-staking mode records it. *)
Definition op_0 : Remove.UnstakeOp :=
  {| Remove.op_netuid := 0;
     Remove.hotkey_name := "validator";
     Remove.hotkey_ss58 := "5Hot";
     Remove.amount_to_unstake := tao_ 5;
     Remove.current_stake_balance := tao_ 5;
     Remove.received_amount := 5;
     Remove.slippage_pct := "[red]N/A[/red]";
     Remove.slippage_pct_float := 0;
     Remove.dynamic_info := root_pool;
     Remove.price_with_tolerance := Some (PInt 1) |}.

(** What the collection loops return for [args], [hotkey] and the
    netuids 0 to 3: only the operation on subnet 1. *)
Definition collected : Remove.Collected :=
  {| Remove.unstake_operations := [op_1];
     Remove.total_received_amount := (0 + Remove.received_amount op_1)%Q;
     Remove.max_float_slippage :=
       Py.max 0 (Remove.slippage_pct_float op_1);
     Remove.skip_remaining_subnets := false |}.

(** A rejection by the chain for a violated price limit, and an
    exception that is not a [SubstrateRequestException]. *)
Definition price_rejection : Py.exn :=
  Py.SubstrateRequestException
    "{'code': 1010, 'message': 'Invalid Transaction', 'data': 'Custom error: 8'}".

Definition timeout : Py.exn := Py.Other "TimeoutError" "timed out".

End Demo.

(** ** stake/remove.py: bookkeeping of the collection *)

Module Ledger.
Import Proc Remove.

(** The entries of [stake_info_list] for one hotkey on one subnet. *)
Definition entry_for (hotkey : string) (netuid : Z) (stake_info : StakeInfo)
  : bool :=
  (String.eqb (StakeInfo.hotkey_ss58 stake_info) hotkey
   && (StakeInfo.netuid stake_info =? netuid)%Z)%bool.

(** [stake_in_netuids[hotkey].get(netuid)], [None] also when the hotkey is
    not a key. *)
Definition stake_of (stake_in_netuids : gmap string (gmap Z Balance))
    (hotkey : string) (netuid : Z) : option Balance :=
  match stake_in_netuids !! hotkey with
  | Some stakes => stakes !! netuid
  | None => None
  end.

(** The sum of the received amounts of the queued operations. *)
Definition sum_received (ops : list UnstakeOp) : Q :=
  foldr (fun op total => (received_amount op + total)%Q) 0%Q ops.

(** What [_calculate_slippage] says about an operation. *)
Definition calculated (op : UnstakeOp) : Prop :=
  _calculate_slippage (dynamic_info op) (amount_to_unstake op)
  = (received_amount op, slippage_pct op, slippage_pct_float op).

(** The state after an operation was appended (lines 188-241). *)
Definition appended (st : Collected) (op : UnstakeOp) : Collected :=
  {| unstake_operations := unstake_operations st ++ [op];
     total_received_amount :=
       (total_received_amount st + received_amount op)%Q;
     max_float_slippage :=
       Py.max (max_float_slippage st) (slippage_pct_float op);
     skip_remaining_subnets := skip_remaining_subnets st |}.

(** The totals shown with the table agree with the queued operations. *)
Definition balanced (st : Collected) : Prop :=
  (total_received_amount st == sum_received (unstake_operations st))%Q
  /\ (0 <= max_float_slippage st)%Q
  /\ Forall (fun op => (slippage_pct_float op <= max_float_slippage st)%Q)
       (unstake_operations st)
  /\ Forall calculated (unstake_operations st).

(** An outcome that [except Exception] catches. *)
Definition catchable {A} (r : result A) : Prop :=
  match r with
  | Py.Ok _ => True
  | Py.Raise e => Py.is_Exception e = true
  end.

(** No call on the chain client, and no awaited attribute of a receipt,
    raises anything but an [Exception]. *)
Definition no_interrupt (subtensor : SubtensorInterface) : Prop :=
  (forall h addr, catchable (get_balance subtensor h addr))
  /\ (forall h hk ck n, catchable (get_stake subtensor h hk ck n))
  /\ (forall h, catchable (get_chain_head subtensor h))
  /\ (forall h x,
        match submit_extrinsic subtensor h x with
        | Py.Ok response =>
            catchable (process_events response)
            /\ catchable (is_success response)
            /\ catchable (error_message response)
        | Py.Raise e => Py.is_Exception e = true
        end).

(** The chain client answers the balance query, composes and signs. *)
Definition signs (subtensor : SubtensorInterface) : Prop :=
  (forall h addr, exists b, get_balance subtensor h addr = Ok b)
  /\ (forall c, exists c', compose_call subtensor c = Ok c')
  /\ (forall c kp nonce,
        exists x, create_signed_extrinsic subtensor c kp nonce = Ok x).

(** [m] hands at most [c] calls to [compose_call] and at most [s]
    extrinsics to [submit_extrinsic], and takes nothing back. *)
Definition grows_by {A} (c s : nat) (m : M A) : Prop :=
  forall w,
    exists (cs : list Call) (xs : list Extrinsic),
      composed (snd (m w)) = composed w ++ cs
      /\ submitted (snd (m w)) = submitted w ++ xs
      /\ (length cs <= c)%nat /\ (length xs <= s)%nat.

(** The lines with which an extrinsic helper ends: a failure, or the new
    stake. *)
Definition is_report (o : output) : bool :=
  match o with
  | print_error _ | console_print _ => true
  | _ => false
  end.

(** The pairs that the collection loops visit, in order. *)
Definition visited (args : Args) (netuids : list Z) (hotkeys : list Hotkey)
  : list (Hotkey * Z) :=
  flat_map
    (fun hotkey =>
       map (fun netuid => (hotkey, netuid))
         (if interactive args then [selected_netuid hotkey] else netuids))
    hotkeys.

(** The world after the lines [os] were printed. *)
Definition printing_all (os : list output) (w : World) : World :=
  {| printed := printed w ++ os;
     composed := composed w;
     submitted := submitted w |}.

(** The line of [unstake] for a hotkey that has no stake at all. *)
Definition no_stake_found (pair : Hotkey * Z) : output :=
  print_error
    ("No stake found for hotkey: " +:+ staking_address_ss58 (fst pair)
     +:+ " on netuid: " +:+ Py.str (snd pair)).

(** The tip of [unstake], printed when several subnets will be gone over
    at the prompt. *)
Definition tip (args : Args) (netuids : list Z) : list output :=
  if ((1 <? length netuids)%nat && negb (Py.nonzero (amount args)))%bool
  then [console_print
          ("[dark_sea_green3]Tip: Enter 'q' any time to stop going over remaining subnets and process current unstakes."
           +:+ String "010" EmptyString)]
  else [].

End Ledger.


(** ** stake/remove.py: the prompt for the amount *)

Module Prompts.
Import Proc.
Local Open Scope proc_scope.

(** [Prompt.ask] reads the next line that the user types; the lines still
    to come are threaded through the dialogue. At the end of the input it
    raises. The text of the prompt itself is shown by [Prompt.ask] and is
    not recorded. *)
Definition EOFError : Py.exn := Py.Other "EOFError" "EOF when reading a line".

Section Ask.
Context `{Externals}.

(** [str.lower] and [float] on what the user typed, [None] standing for
    [ValueError]. Nothing is assumed about them; a float is a rational, so
    the texts that [float] reads as infinities or as not-a-number are
    outside the embedding. *)
Variables (lower : string -> string) (float : string -> option Q).

(** Lines 950-977 of [_ask_unstake_amount]: the inner [while True], which
    asks for an amount until it gets one it accepts. *)
Fixpoint ask_amount (current_stake_balance : Balance) (netuid : Z)
    (answers : list string) : M (option Balance * list string) :=
  match answers with
  | [] => raise EOFError
  | amount_input :: answers =>
      if String.eqb (lower amount_input) "q" then ret (None, answers)
      else
        match float amount_input with
        | None =>
            emit (console_print
                    "[red]Invalid input. Please enter a numeric value or 'q' to quit.[/red]") ;;;
            ask_amount current_stake_balance netuid answers
        | Some amount_value =>
            if Qle_bool amount_value 0 then
              emit (console_print
                      "[red]Amount must be greater than zero.[/red]") ;;;
              ask_amount current_stake_balance netuid answers
            else
              let amount_to_unstake :=
                Balance.set_unit netuid (Balance.from_tao amount_value) in
              if Balance.gtb amount_to_unstake current_stake_balance then
                emit (console_print
                        ("[red]Amount exceeds current stake balance of "
                         +:+ str_Balance current_stake_balance
                         +:+ ".[/red]")) ;;;
                ask_amount current_stake_balance netuid answers
              else ret (Some amount_to_unstake, answers)
        end
  end.

(** [_ask_unstake_amount]: the balance to unstake, or [None] when the user
    quits, and the lines not read. [staking_address_name],
    [staking_address_ss58] and [interactive] only appear in the text of
    the prompt. *)
Fixpoint _ask_unstake_amount (current_stake_balance : Balance) (netuid : Z)
    (staking_address_name staking_address_ss58 : string) (interactive : bool)
    (answers : list string) : M (option Balance * list string) :=
  match answers with
  | [] => raise EOFError
  | response :: answers =>
      let response := lower response in
      if String.eqb response "q" then ret (None, answers)
      else if String.eqb response "y"
      then ret (Some current_stake_balance, answers)
      else if negb (String.eqb response "n") then
        emit (console_print
                "[red]Invalid input. Please enter 'y', 'n', or 'q'.[/red]") ;;;
        _ask_unstake_amount current_stake_balance netuid
          staking_address_name staking_address_ss58 interactive answers
      else ask_amount current_stake_balance netuid answers
  end.

(** An answer of the dialogue: the whole stake, or a positive number of
    TAO cut to rao and given the unit of the subnet. *)
Definition answer_for (current_stake_balance : Balance) (netuid : Z)
    (b : Balance) : Prop :=
  b = current_stake_balance
  \/ exists amount_value : Q,
       (0 < amount_value)%Q
       /\ b = Balance.set_unit netuid (Balance.from_tao amount_value).

(** The user of [Proc.User] answers the amount prompt as some run of the
    dialogue does. *)
Definition answers_by_dialogue (user : User) : Prop :=
  forall current_stake_balance netuid name ss58 interactive b,
    Proc._ask_unstake_amount user current_stake_balance netuid name ss58
      interactive = Some b ->
    exists answers rest w w',
      _ask_unstake_amount current_stake_balance netuid name ss58
        interactive answers w
      = (Ok (Some b, rest), w').

(** The lines of [print_error]. *)
Definition is_print_error (o : output) : bool :=
  match o with
  | print_error _ => true
  | _ => false
  end.

End Ask.

End Prompts.


(** ** stake/remove.py: the hotkeys to unstake from *)

Module Hotkeys.

(** A wallet as [_get_hotkeys_to_unstake] reads it: [hotkey_str] and
    [hotkey.ss58_address], which raises when the key file cannot be
    read. *)
Record HotkeyWallet : Type := {
  hotkey_str : string;
  hotkey_ss58_address : result string
}.

Section Choice.

(** The hotkey of [wallet], the answer of
    [get_hotkey_wallets_for_wallet(wallet)], the wallet that
    [Wallet(name=wallet.name, path=wallet.path, hotkey=h)] constructs, and
    [is_valid_ss58_address], all from modules that are not among the
    sources. [print_verbose] writes only at a verbosity that the command
    line sets and is not recorded. *)
Variables (wallet : HotkeyWallet)
          (get_hotkey_wallets_for_wallet : result (list HotkeyWallet))
          (Wallet_ : string -> HotkeyWallet)
          (is_valid_ss58_address : string -> bool).

(** [name in exclude_hotkeys] *)
Definition excluded (exclude_hotkeys : list string) (name : string) : bool :=
  existsb (String.eqb name) exclude_hotkeys.

(** Lines 1006-1010: the comprehension over [all_hotkeys_]. *)
Fixpoint all_but_excluded (exclude_hotkeys : list string)
    (all_hotkeys_ : list HotkeyWallet)
  : result (list (option string * string)) :=
  match all_hotkeys_ with
  | [] => Ok []
  | wallet :: rest =>
      if excluded exclude_hotkeys (hotkey_str wallet)
      then all_but_excluded exclude_hotkeys rest
      else
        match hotkey_ss58_address wallet with
        | Py.Raise e => Raise e
        | Py.Ok ss58 =>
            match all_but_excluded exclude_hotkeys rest with
            | Py.Raise e => Raise e
            | Py.Ok result => Ok ((Some (hotkey_str wallet), ss58) :: result)
            end
        end
  end.

(** Lines 1014-1025: the loop over [include_hotkeys]. *)
Fixpoint included (include_hotkeys : list string)
  : result (list (option string * string)) :=
  match include_hotkeys with
  | [] => Ok []
  | hotkey_identifier :: rest =>
      let entry :=
        if is_valid_ss58_address hotkey_identifier
        then Ok (None, hotkey_identifier)
        else
          let wallet_ := Wallet_ hotkey_identifier in
          match hotkey_ss58_address wallet_ with
          | Py.Raise e => Raise e
          | Py.Ok ss58 => Ok (Some (hotkey_str wallet_), ss58)
          end in
      match entry with
      | Py.Raise e => Raise e
      | Py.Ok entry =>
          match included rest with
          | Py.Raise e => Raise e
          | Py.Ok result => Ok (entry :: result)
          end
      end
  end.

(** [_get_hotkeys_to_unstake]: the (name, ss58) pairs to unstake from. *)
Definition _get_hotkeys_to_unstake (hotkey_ss58_address_ : option string)
    (all_hotkeys : bool) (include_hotkeys exclude_hotkeys : list string)
  : result (list (option string * string)) :=
  match hotkey_ss58_address_ with
  | Some (String a s) => Ok [(None, String a s)]
  | _ =>
      if all_hotkeys then
        match get_hotkey_wallets_for_wallet with
        | Py.Raise e => Raise e
        | Py.Ok all_hotkeys_ => all_but_excluded exclude_hotkeys all_hotkeys_
        end
      else
        match include_hotkeys with
        | _ :: _ => included include_hotkeys
        | [] =>
            match hotkey_ss58_address wallet with
            | Py.Raise e => Raise e
            | Py.Ok ss58 => Ok [(Some (hotkey_str wallet), ss58)]
            end
        end
  end.

(** The hotkeys of the wallet that are not excluded. *)
Definition kept (exclude_hotkeys : list string)
    (all_hotkeys_ : list HotkeyWallet) : list HotkeyWallet :=
  List.filter (fun wallet => negb (excluded exclude_hotkeys (hotkey_str wallet)))
    all_hotkeys_.

(** The pair that stands for a hotkey of the wallet. *)
Definition pair_of (wallet : HotkeyWallet) (pair : option string * string)
  : Prop :=
  fst pair = Some (hotkey_str wallet)
  /\ hotkey_ss58_address wallet = Ok (snd pair).

(** The entry of [hotkeys_to_unstake_from] for a pair. Outside the
    interactive mode no netuid comes with it. *)
Definition to_Hotkey (pair : option string * string) : Remove.Hotkey :=
  {| Remove.staking_address_name := fst pair;
     Remove.staking_address_ss58 := snd pair;
     Remove.selected_netuid := 0 |}.

End Choice.

End Hotkeys.


(** ** stake/remove.py: names of hotkeys and [unstake_all] *)

Module Identities.

(** An entry of [ck_hk_identities["hotkeys"]], a dict, by the keys that
    the chain client stores and the code reads: the [identity] dict, the
    [display] name and the [coldkey]. *)
Record HkIdentity : Type := {
  identity : option (gmap string string);
  display : option string;
  coldkey_of : option string
}.

(** Truth value of the dict: it has a key. *)
Definition truthy (hk_identity : HkIdentity) : bool :=
  match identity hk_identity, display hk_identity, coldkey_of hk_identity
  with
  | None, None, None => false
  | _, _, _ => true
  end.

(** [hk_identity.get("identity", {}).get("name", <empty>)
     or hk_identity.get("display", "~")] *)
Definition name_of (hk_identity : HkIdentity) : string :=
  match default ∅ (identity hk_identity) !! "name" with
  | Some (String a s) => String a s
  | _ => default "~" (display hk_identity)
  end.

(** Lines 407-416 of [unstake_all] and 774-781 of [_unstake_selection]:
    the name shown for a hotkey, [fallback] when nothing is known about
    it. [old_identities] maps an address to the [display] of its
    delegate identity. *)
Definition hotkey_name_of
    (ck_hk_identities : gmap string (gmap string HkIdentity))
    (old_identities : gmap string string) (fallback hotkey_ss58 : string)
  : result string :=
  match ck_hk_identities !! "hotkeys" with
  | None => Raise (Py.KeyError "hotkeys")
  | Some hotkeys =>
      match hotkeys !! hotkey_ss58 with
      | Some hk_identity =>
          if truthy hk_identity then Ok (name_of hk_identity)
          else Ok (default fallback (old_identities !! hotkey_ss58))
      | None => Ok (default fallback (old_identities !! hotkey_ss58))
      end
  end.

End Identities.

Module UnstakeAll.
Import Proc.
Local Open Scope proc_scope.

Section Command.
Context `{Externals}.
Variables (wallet : Wallet) (subtensor : SubtensorInterface) (user : User).

(** The two identity queries of the chain client, and its
    [sign_and_send_extrinsic], which signs, submits and waits inside the
    client: it may do anything to the world and returns
    [(success, error_message)]. *)
Variables
  (fetch_coldkey_hotkey_identities :
     result (gmap string (gmap string Identities.HkIdentity)))
  (get_delegate_identities : result (gmap string string))
  (sign_and_send_extrinsic : Call -> M (bool * string)).

(** Lines 337-344: the hotkey to unstake from and its stakes. *)
Definition hotkey_or_default (hotkey_ss58_address : option string)
  : string :=
  match hotkey_ss58_address with
  | Some (String a s) => String a s
  | _ => Proc.hotkey_ss58_address wallet
  end.

Definition stakes_to_unstake (hotkey_ss58_address : string)
    (unstake_all_alpha : bool) (stake_info : list StakeInfo)
  : list StakeInfo :=
  let stake_info :=
    List.filter
      (fun stake =>
         String.eqb (StakeInfo.hotkey_ss58 stake) hotkey_ss58_address)
      stake_info in
  if unstake_all_alpha
  then List.filter (fun stake => negb (StakeInfo.netuid stake =? 0)%Z)
         stake_info
  else stake_info.

(** Lines 400-434: the loop over the stakes, which adds up the received
    amounts and keeps the largest slippage. The rows of the table are
    display only and are left out; the name of the hotkey is looked up
    for each row. *)
Fixpoint summarize
    (ck_hk_identities : gmap string (gmap string Identities.HkIdentity))
    (old_identities : gmap string string)
    (all_sn_dynamic_info : gmap Z DynamicInfo)
    (stake_info : list StakeInfo) (max_slippage total_received_value : Q)
  : result (Q * Q) :=
  match stake_info with
  | [] => Ok (max_slippage, total_received_value)
  | stake :: rest =>
      if (Balance.rao (StakeInfo.stake stake) =? 0)%Z
      then summarize ck_hk_identities old_identities all_sn_dynamic_info
             rest max_slippage total_received_value
      else
        match Identities.hotkey_name_of ck_hk_identities old_identities
                (StakeInfo.hotkey_ss58 stake) (StakeInfo.hotkey_ss58 stake)
        with
        | Py.Raise e => Raise e
        | Py.Ok hotkey_display =>
            match all_sn_dynamic_info !! StakeInfo.netuid stake with
            | None =>
                Raise (Py.Other "AttributeError"
                         "'NoneType' object has no attribute 'alpha_to_tao_with_slippage'")
            | Some subnet_info =>
                let '(received_amount, slippage_pct, slippage_pct_float) :=
                  Remove._calculate_slippage subnet_info
                    (StakeInfo.stake stake) in
                summarize ck_hk_identities old_identities
                  all_sn_dynamic_info rest
                  (Py.max max_slippage slippage_pct_float)
                  (total_received_value + received_amount)%Q
            end
        end
  end.

(** The call of lines 469-474. *)
Definition unstake_all_call (hotkey_ss58_address : string)
    (unstake_all_alpha : bool) : Call :=
  {| call_module := "SubtensorModule";
     call_function :=
       if unstake_all_alpha then "unstake_all_alpha" else "unstake_all";
     call_params := {["hotkey" := PStr hotkey_ss58_address]} |}.

Definition proceed_question : string :=
  String "010" "Do you want to proceed with unstaking everything?".

(** [unstake_all]. The rule lines around the slippage warning are display
    only and are cut. *)
Definition unstake_all (hotkey_ss58_address : option string)
    (unstake_all_alpha prompt : bool) : M bool :=
  stake_info <-
    lift (get_stake_for_coldkey subtensor (coldkeypub_ss58_address wallet)) ;;
  ck_hk_identities <- lift fetch_coldkey_hotkey_identities ;;
  old_identities <- lift get_delegate_identities ;;
  all_sn_dynamic_info_ <- lift (all_subnets subtensor) ;;
  h <- history ;;
  current_wallet_balance <-
    lift (get_balance subtensor h (coldkeypub_ss58_address wallet)) ;;
  let hotkey_ss58_address := hotkey_or_default hotkey_ss58_address in
  let stake_info :=
    stakes_to_unstake hotkey_ss58_address unstake_all_alpha stake_info in
  match stake_info with
  | [] =>
      emit (console_print "[red]No stakes found to unstake[/red]") ;;;
      ret false
  | _ :: _ =>
      let all_sn_dynamic_info := Remove.by_netuid all_sn_dynamic_info_ in
      summary <-
        lift (summarize ck_hk_identities old_identities all_sn_dynamic_info
                stake_info 0 0) ;;
      let '(max_slippage, total_received_value) := summary in
      emit (console_print_table EmptyString) ;;;
      (if Py.gt max_slippage 5
       then emit (console_print
                    ("[bold]WARNING:[/bold] The slippage on one of your operations is high: ["
                     +:+ STAKE_SLIPPAGE_PERCENT +:+ "]"
                     +:+ Py.format_f 4 max_slippage +:+ "%[/"
                     +:+ STAKE_SLIPPAGE_PERCENT
                     +:+ "], this may result in a loss of funds."))
       else ret tt) ;;;
      emit (console_print
              ("Expected return after slippage: [" +:+ STAKE_STAKE_AMOUNT
               +:+ "]" +:+ str_float total_received_value)) ;;;
      if (prompt && negb (Confirm_ask user proceed_question))%bool
      then ret false
      else
        unlocked <-
          try_except
            (lift (unlock_coldkey wallet) ;;; ret true)
            (fun e => match e with Py.KeyFileError => true | _ => false end)
            (fun _ => emit decrypt_error ;;; ret false) ;;
        if negb unlocked then ret false
        else
          h <- history ;;
          previous_root_stake <-
            lift (get_stake subtensor h hotkey_ss58_address
                    (coldkeypub_ss58_address wallet) 0) ;;
          call <- compose subtensor
                    (unstake_all_call hotkey_ss58_address
                       unstake_all_alpha) ;;
          sent <- sign_and_send_extrinsic call ;;
          let '(success, error_message) := sent in
          if success then
            emit (console_print
                    (if negb unstake_all_alpha
                     then ":white_heavy_check_mark: [green]Successfully unstaked all stakes[/green]"
                     else ":white_heavy_check_mark: [green]Successfully unstaked all Alpha stakes[/green]")) ;;;
            h <- history ;;
            new_balance <-
              lift (get_balance subtensor h
                      (coldkeypub_ss58_address wallet)) ;;
            emit (console_print
                    ("Balance:" +:+ String "010" " [blue]"
                     +:+ str_balances current_wallet_balance
                     +:+ "[/blue] :arrow_right: [" +:+ STAKE_STAKE_AMOUNT
                     +:+ "]" +:+ str_balances new_balance)) ;;;
            (if unstake_all_alpha then
               root_stake <-
                 lift (get_stake subtensor h hotkey_ss58_address
                         (coldkeypub_ss58_address wallet) 0) ;;
               emit (console_print
                       ("Root Stake:" +:+ String "010" " [blue]"
                        +:+ str_Balance previous_root_stake
                        +:+ "[/blue] :arrow_right: ["
                        +:+ STAKE_STAKE_AMOUNT +:+ "]"
                        +:+ str_Balance root_stake))
             else ret tt) ;;;
            ret true
          else
            emit (err_console_print
                    (":cross_mark: [red]Failed to unstake[/red]: "
                     +:+ error_message)) ;;;
            ret false
  end.

(** The stakes that the summary counts: those with a non-zero amount. *)
Definition counted (stake_info : list StakeInfo) : list StakeInfo :=
  List.filter (fun stake => negb (Balance.rao (StakeInfo.stake stake) =? 0)%Z)
    stake_info.

(** The received amount of a stake, when its subnet is known. *)
Definition received_for (all_sn_dynamic_info : gmap Z DynamicInfo)
    (stake : StakeInfo) : Q :=
  match all_sn_dynamic_info !! StakeInfo.netuid stake with
  | Some subnet_info =>
      fst (fst (Remove._calculate_slippage subnet_info
                  (StakeInfo.stake stake)))
  | None => 0%Q
  end.

(** The sum of the received amounts of the counted stakes. *)
Definition expected_return (all_sn_dynamic_info : gmap Z DynamicInfo)
    (stake_info : list StakeInfo) : Q :=
  foldr (fun stake total =>
           (received_for all_sn_dynamic_info stake + total)%Q)
    0%Q (counted stake_info).

End Command.

End UnstakeAll.


(** ** A [dict] whose order matters

    A Python [dict] keeps its keys in the order in which they were first
    set. Where the code goes over [items()] or [keys()], the dict is an
    association list in that order. *)

Module ODict.

Section Dict.
Context {K V : Type} (eqb : K -> K -> bool).

(** [d.get(k)] *)
Fixpoint get (d : list (K * V)) (k : K) : option V :=
  match d with
  | [] => None
  | (k', v) :: d' => if eqb k' k then Some v else get d' k
  end.

(** [d[k] = v]: in place when [k] is a key, at the end otherwise. *)
Fixpoint set (k : K) (v : V) (d : list (K * V)) : list (K * V) :=
  match d with
  | [] => [(k, v)]
  | (k', v') :: d' =>
      if eqb k' k then (k', v) :: d' else (k', v') :: set k v d'
  end.

(** [list(d.keys())] *)
Definition keys (d : list (K * V)) : list K := map fst d.

End Dict.

End ODict.

(** ** stake/remove.py: the interactive selection *)

Module Selection.
Import Proc.
Local Open Scope proc_scope.

(** [s.split(",")] *)
Fixpoint split_comma (s : string) : list string :=
  match s with
  | EmptyString => [EmptyString]
  | String c s' =>
      if Ascii.eqb c ","
      then EmptyString :: split_comma s'
      else
        match split_comma s' with
        | [] => [String c EmptyString]
        | word :: words => String c word :: words
        end
  end.

(** [', '.join(words)] *)
Fixpoint join_comma (words : list string) : string :=
  match words with
  | [] => EmptyString
  | [word] => word
  | word :: words => word +:+ ", " +:+ join_comma words
  end.

(** [l[i]] for an int [i], which counts from the end when negative. *)
Definition getitem {A} (l : list A) (i : Z) : result A :=
  let n := Z.of_nat (length l) in
  let j := if (i <? 0)%Z then (i + n)%Z else i in
  if (j <? 0)%Z then Raise Py.IndexError
  else
    match nth_error l (Z.to_nat j) with
    | Some x => Ok x
    | None => Raise Py.IndexError
    end.

(** An entry of [hotkeys_info]. *)
Record HotkeyInfo : Type := {
  index : nat;
  identity : string;
  netuids : list Z;
  hotkey_ss58 : string
}.

Definition ValueError : Py.exn :=
  Py.Other "ValueError" "invalid literal for int()".

Section Select.
Variables (wallet : Wallet) (subtensor : SubtensorInterface).

(** [str.lower], [str.strip] and [int] on what the user typed, [None]
    standing for [ValueError]. Nothing is assumed about them. *)
Variables (lower strip : string -> string) (int_ : string -> option Z).

(** Lines 755-763: the stakes above zero by hotkey and then by netuid,
    only those on [netuid] when one is given. *)
Definition hotkey_stakes_of (netuid : option Z)
    (stake_infos : list StakeInfo) : list (string * list (Z * Balance)) :=
  foldl
    (fun hotkey_stakes stake_info =>
       let skipped :=
         match netuid with
         | Some netuid => negb (StakeInfo.netuid stake_info =? netuid)%Z
         | None => false
         end in
       if skipped then hotkey_stakes
       else if Py.gt (Balance.tao (StakeInfo.stake stake_info)) 0 then
         let hotkey_ss58 := StakeInfo.hotkey_ss58 stake_info in
         ODict.set String.eqb hotkey_ss58
           (ODict.set Z.eqb (StakeInfo.netuid stake_info)
              (StakeInfo.stake stake_info)
              (default [] (ODict.get String.eqb hotkey_stakes hotkey_ss58)))
           hotkey_stakes
       else hotkey_stakes)
    [] stake_infos.

(** Lines 772-791: [hotkeys_info], numbered from [idx]. *)
Fixpoint hotkeys_info_of
    (identities : gmap string (gmap string Identities.HkIdentity))
    (old_identities : gmap string string) (idx : nat)
    (hotkey_stakes : list (string * list (Z * Balance)))
  : result (list HotkeyInfo) :=
  match hotkey_stakes with
  | [] => Ok []
  | (hotkey_ss58, netuid_stakes) :: rest =>
      match Identities.hotkey_name_of identities old_identities "~"
              hotkey_ss58
      with
      | Py.Raise e => Raise e
      | Py.Ok hotkey_name =>
          match hotkeys_info_of identities old_identities (S idx) rest with
          | Py.Raise e => Raise e
          | Py.Ok infos =>
              Ok ({| index := idx;
                     identity := hotkey_name;
                     netuids := ODict.keys netuid_stakes;
                     hotkey_ss58 := hotkey_ss58 |} :: infos)
          end
      end
  end.

(** Lines 852-855: the rows of the table of the selected hotkey need the
    symbol and the price of every subnet it has a stake on. *)
Fixpoint stake_rows (dynamic_info : gmap Z DynamicInfo)
    (netuid_stakes : list (Z * Balance)) : result unit :=
  match netuid_stakes with
  | [] => Ok tt
  | (netuid_, stake_amount) :: rest =>
      match dynamic_info !! netuid_ with
      | None => Raise (Py.KeyError (Py.str netuid_))
      | Some _ => stake_rows dynamic_info rest
      end
  end.

(** [[int(n.strip()) for n in words]] *)
Fixpoint netuid_list_of (words : list string) : option (list Z) :=
  match words with
  | [] => Some []
  | n :: words =>
      match int_ (strip n) with
      | None => None
      | Some n =>
          match netuid_list_of words with
          | None => None
          | Some netuid_list => Some (n :: netuid_list)
          end
      end
  end.

(** [[n for n in netuid_list if n not in netuid_stakes]] *)
Definition invalid_netuids_of (netuid_stakes : list (Z * Balance))
    (netuid_list : list Z) : list Z :=
  List.filter
    (fun n =>
       match ODict.get Z.eqb netuid_stakes n with
       | None => true
       | Some _ => false
       end)
    netuid_list.

(** Lines 863-887: the loop that asks for the netuids; the netuids and
    whether all were asked for, and the lines not read. *)
Fixpoint ask_netuids (netuid_stakes : list (Z * Balance))
    (answers : list string) : M (list Z * bool * list string) :=
  match answers with
  | [] => raise Prompts.EOFError
  | netuid_input :: answers =>
      if String.eqb (lower netuid_input) "all"
      then ret (ODict.keys netuid_stakes, true, answers)
      else
        match netuid_list_of (split_comma netuid_input) with
        | None =>
            emit (print_error
                    "Please enter valid netuids (numbers), separated by commas, or 'all'.") ;;;
            ask_netuids netuid_stakes answers
        | Some netuid_list =>
            match invalid_netuids_of netuid_stakes netuid_list with
            | (_ :: _) as invalid_netuids =>
                emit (print_error
                        ("The following netuids are invalid or not available: "
                         +:+ join_comma (map Py.str invalid_netuids)
                         +:+ ". Please try again.")) ;;;
                ask_netuids netuid_stakes answers
            | [] => ret (netuid_list, false, answers)
            end
        end
  end.

(** [_unstake_selection]: the (name, ss58, netuid) triples to unstake
    from, whether everything of the hotkey was asked for, and the lines
    of the user that were not read. The two tables and the texts of the
    prompts are display only. *)
Definition _unstake_selection (dynamic_info : gmap Z DynamicInfo)
    (identities : gmap string (gmap string Identities.HkIdentity))
    (old_identities : gmap string string) (netuid : option Z)
    (answers : list string)
  : M (list (string * string * Z) * bool * list string) :=
  stake_infos <-
    lift (get_stake_for_coldkey subtensor (coldkeypub_ss58_address wallet)) ;;
  match stake_infos with
  | [] =>
      emit (print_error "You have no stakes to unstake.") ;;;
      raise Py.TyperExit
  | _ :: _ =>
      let hotkey_stakes := hotkey_stakes_of netuid stake_infos in
      match hotkey_stakes with
      | [] =>
          emit (print_error
                  match netuid with
                  | Some netuid =>
                      "You have no stakes to unstake in subnet "
                      +:+ Py.str netuid +:+ "."
                  | None => "You have no stakes to unstake."
                  end) ;;;
          raise Py.TyperExit
      | _ :: _ =>
          hotkeys_info <-
            lift (hotkeys_info_of identities old_identities 0
                    hotkey_stakes) ;;
          emit (console_print_table EmptyString) ;;;
          match answers with
          | [] => raise Prompts.EOFError
          | hotkey_idx :: answers =>
              match int_ hotkey_idx with
              | None => raise ValueError
              | Some hotkey_idx =>
                  selected_hotkey_info <-
                    lift (getitem hotkeys_info hotkey_idx) ;;
                  let selected_hotkey_ss58 :=
                    hotkey_ss58 selected_hotkey_info in
                  let selected_hotkey_name :=
                    identity selected_hotkey_info in
                  match ODict.get String.eqb hotkey_stakes
                          selected_hotkey_ss58
                  with
                  | None => raise (Py.KeyError selected_hotkey_ss58)
                  | Some netuid_stakes =>
                      lift (stake_rows dynamic_info netuid_stakes) ;;;
                      emit (console_print_table EmptyString) ;;;
                      chosen <-
                        match netuid with
                        | Some netuid => ret ([netuid], false, answers)
                        | None => ask_netuids netuid_stakes answers
                        end ;;
                      let '(selected_netuids, unstake_all, answers) :=
                        chosen in
                      ret (map (fun netuid_ =>
                                  (selected_hotkey_name,
                                   selected_hotkey_ss58, netuid_))
                             selected_netuids,
                           unstake_all, answers)
                  end
              end
          end
      end
  end.

(** The chain reported a stake above zero of [hotkey] on [netuid]. *)
Definition has_stake (stake_infos : list StakeInfo) (hotkey : string)
    (netuid : Z) : Prop :=
  exists stake_info,
    In stake_info stake_infos
    /\ StakeInfo.hotkey_ss58 stake_info = hotkey
    /\ StakeInfo.netuid stake_info = netuid
    /\ Py.gt (Balance.tao (StakeInfo.stake stake_info)) 0 = true.

(** What [hotkey_stakes] holds: no hotkey without a netuid, and under a
    hotkey only netuids on which the chain reported a stake above zero,
    on the netuid asked for when there is one. *)
Definition backed (netuid : option Z) (stake_infos : list StakeInfo)
    (hotkey_stakes : list (string * list (Z * Balance))) : Prop :=
  forall hotkey netuid_stakes,
    ODict.get String.eqb hotkey_stakes hotkey = Some netuid_stakes ->
    netuid_stakes <> []
    /\ forall n, is_Some (ODict.get Z.eqb netuid_stakes n) ->
                 has_stake stake_infos hotkey n
                 /\ match netuid with
                    | Some netuid => n = netuid
                    | None => True
                    end.

End Select.

End Selection.


(** ** subnets.py: what a registration prints and sends *)

Module Registration.
Import Proc.

Section Lines.
Context `{Externals}.

(** The lines of [lock_cost] and [register_subnetwork_extrinsic]. *)
Definition lock_cost_line (burn_cost : Balance) : output :=
  console_print
    ("Subnet lock cost: [green]" +:+ str_Balance burn_cost +:+ "[/green]").

Definition not_enough_line (your_balance burn_cost : Balance) : output :=
  err_console_print
    ("Your balance of: [green]" +:+ str_Balance your_balance
     +:+ "[/green] is not enough to pay the subnet lock cost of: [green]"
     +:+ str_Balance burn_cost +:+ "[/green]").

Definition balance_line (your_balance : Balance) : output :=
  console_print
    ("Your balance is: [green]" +:+ str_Balance your_balance +:+ "[/green]").

Definition question (burn_cost : Balance) : string :=
  "Do you want to register a subnet for [green]" +:+ str_Balance burn_cost
  +:+ "[/green]?".

Definition registered_line (netuid : Z) : output :=
  console_print
    (":white_heavy_check_mark: [green]Registered subnetwork with netuid: "
     +:+ Py.str netuid +:+ "[/green]").

Definition failed_line (msg : string) : output :=
  err_console_print
    (":cross_mark: [red]Failed[/red]: " +:+ format_error_message (inl msg)).

(** The call of lines 113-120. *)
Definition register_network_call (wallet : Wallet) : Call :=
  {| call_module := "SubtensorModule";
     call_function := "register_network";
     call_params :=
       <["hotkey" := PStr (hotkey_ss58_address wallet)]>
         (<["mechid" := PInt 1]> ∅) |}.

(** What was printed before the coldkey is unlocked. *)
Definition preamble (prompt : bool) (your_balance burn_cost : Balance)
  : list output :=
  lock_cost_line burn_cost
  :: (if prompt then [balance_line your_balance] else []).

(** The world once the extrinsic [x] was submitted. *)
Definition submitted_in (wallet : Wallet) (prompt : bool)
    (your_balance burn_cost : Balance) (x : Extrinsic) (w : World) : World :=
  {| printed := printed w ++ preamble prompt your_balance burn_cost;
     composed := composed w ++ [register_network_call wallet];
     submitted := submitted w ++ [x] |}.

(** The first event with the id [event_name]. *)
Definition first_event (events : list (string * list Z))
    (event_name : string) : option (string * list Z) :=
  List.find (fun event => String.eqb (fst event) event_name) events.

End Lines.

End Registration.


(** ** subnets.py: [metagraph_cmd] with [--html] *)

Module MetagraphHtml.

(** The texts of [metadata_info] other than [table_data], lines
    805-822. *)
Record Summary : Type := {
  total_global_stake : Json.str;
  total_local_stake : Json.str;
  rank : Json.str;
  validator_trust : Json.str;
  trust : Json.str;
  consensus : Json.str;
  incentive : Json.str;
  dividends : Json.str;
  emission : Json.str;
  net : Json.str;
  block : Json.str;
  N : Json.str;
  N0 : Json.str;
  N1 : Json.str;
  issuance : Json.str;
  difficulty : Json.str;
  total_neurons : Json.str
}.

(** Lines 804-824: the dict [metadata_info] of a fresh fetch. *)
Definition metadata_info_of (s : Summary)
    (table_data : list (list Json.str)) : gmap string Json.str :=
  <["total_global_stake" := total_global_stake s]>
  (<["total_local_stake" := total_local_stake s]>
  (<["rank" := rank s]>
  (<["validator_trust" := validator_trust s]>
  (<["trust" := trust s]>
  (<["consensus" := consensus s]>
  (<["incentive" := incentive s]>
  (<["dividends" := dividends s]>
  (<["emission" := emission s]>
  (<["net" := net s]>
  (<["block" := block s]>
  (<["N" := N s]>
  (<["N0" := N0 s]>
  (<["N1" := N1 s]>
  (<["issuance" := issuance s]>
  (<["difficulty" := difficulty s]>
  (<["total_neurons" := total_neurons s]>
  (<["table_data" := Json.dumps (Json.of_rows table_data)]>
     ∅))))))))))))))))).

(** [metadata_info[key]] *)
Definition getitem (metadata_info : gmap string Json.str) (key : string)
  : result Json.str :=
  match metadata_info !! key with
  | Some value => Ok value
  | None => Raise (Py.KeyError key)
  end.

(** Lines 867-873: the f-string handed to [render_table] as
    [table_info], its fields read from left to right. *)
Definition table_info_of (metadata_info : gmap string Json.str)
  : result Json.str :=
  match getitem metadata_info "net" with
  | Py.Raise e => Raise e
  | Py.Ok net_ =>
  match getitem metadata_info "block" with
  | Py.Raise e => Raise e
  | Py.Ok block_ =>
  match getitem metadata_info "N" with
  | Py.Raise e => Raise e
  | Py.Ok N_ =>
  match getitem metadata_info "stake" with
  | Py.Raise e => Raise e
  | Py.Ok stake_ =>
  match getitem metadata_info "issuance" with
  | Py.Raise e => Raise e
  | Py.Ok issuance_ =>
  match getitem metadata_info "difficulty" with
  | Py.Raise e => Raise e
  | Py.Ok difficulty_ =>
      Ok (Json.of_string "Metagraph | net: " ++ net_
          ++ Json.of_string ", block: " ++ block_
          ++ Json.of_string ", N: " ++ N_
          ++ Json.of_string ", stake: " ++ stake_
          ++ Json.of_string ", issuance: " ++ issuance_
          ++ Json.of_string ", difficulty: " ++ difficulty_)
  end end end end end end.

(** [isinstance(e, sqlite3.OperationalError)] *)
Definition is_OperationalError (e : Py.exn) : bool :=
  match e with
  | Py.OperationalError => true
  | _ => false
  end.

(** [metagraph_cmd] with [html_output]: [fetched] is what the chain
    queries and the loop over [metagraph.uids] produce, [render_table]
    the outcome of the function of that name for a [table_info]. The
    value is the page shown, [None] when the command gives up with a
    message, and the cache afterwards. *)
Definition metagraph_cmd (reuse_last no_cache : bool)
    (fetched : result (list (list Json.str) * Summary))
    (render_table : Json.str -> result unit) (db : Metagraph.DB)
  : result (option Json.str) * Metagraph.DB :=
  let loaded :=
    if negb reuse_last then
      match fetched with
      | Py.Raise e => (Raise e, db)
      | Py.Ok (table_data, summary) =>
          let metadata_info := metadata_info_of summary table_data in
          (Ok (Some metadata_info),
           if negb no_cache
           then Metagraph.update_metadata_table "metagraph" metadata_info db
           else db)
      end
    else
      match Metagraph.get_metadata_table "metagraph" db with
      | Py.Raise Py.OperationalError => (Ok None, db)
      | Py.Raise e => (Raise e, db)
      | Py.Ok metadata_info =>
          match metadata_info !! "table_data" with
          | None => (Raise (Py.KeyError "table_data"), db)
          | Some text =>
              match Json.loads text with
              | Py.Raise e => (Raise e, db)
              | Py.Ok _ => (Ok (Some metadata_info), db)
              end
          end
      end in
  match loaded with
  | (Py.Raise e, db') => (Raise e, db')
  | (Py.Ok None, db') => (Ok None, db')
  | (Py.Ok (Some metadata_info), db') =>
      match table_info_of metadata_info with
      | Py.Raise e =>
          if is_OperationalError e then (Ok None, db') else (Raise e, db')
      | Py.Ok table_info =>
          match render_table table_info with
          | Py.Ok _ => (Ok (Some table_info), db')
          | Py.Raise e =>
              if is_OperationalError e then (Ok None, db')
              else (Raise e, db')
          end
      end
  end.

End MetagraphHtml.

(** ** subnets.py: the columns of the metagraph table *)

Module Columns.

(** The number of columns with [display_cols[k] is True]. *)
Definition shown (display_cols : list bool) : nat :=
  length (List.filter (fun x => x) display_cols).

(** [new_row] holds the cells of [row] at the indices of the shown
    columns, in their order. *)
Definition selected (display_cols : list bool)
    (row new_row : list Json.str) : Prop :=
  Forall2 (fun idx cell => nth_error row idx = Some cell)
    (Metagraph.shown_indices display_cols 0) new_row.

End Columns.


(** ** subnets.py: the rows and the footers of [show_subnet] *)

Module ShowSubnet.

(** The decoded [SubnetState] as [show_subnet] reads it: parallel lists
    indexed by UID. *)
Record SubnetState : Type := {
  hotkeys : list string;
  coldkeys : list string;
  emission : list Balance;
  global_stake : list Balance;
  local_stake : list Balance;
  stake_weight : list Q;
  incentives : list Q
}.

(** [l[idx]] for an index that is not negative. *)
Definition getitem {A} (l : list A) (idx : nat) : result A :=
  match l !! idx with
  | Some x => Ok x
  | None => Raise Py.IndexError
  end.

Definition and_then {A B} (r : result A) (k : A -> result B) : result B :=
  match r with
  | Py.Ok a => k a
  | Py.Raise e => Raise e
  end.

(** Lines 410-415: [sum([emission[idx].tao for idx in ...])] *)
Definition emission_sum_of (subnet_state : SubnetState) : Q :=
  foldl (fun total e => (total + Balance.tao e)%Q) 0%Q
    (emission subnet_state).

(** Lines 419-423: the share of one hotkey in the emission. *)
Definition hotkey_block_emission_of (subnet_state : SubnetState)
    (emission_sum : Q) (idx : nat) : result Q :=
  if Py.nonzero emission_sum then
    and_then (getitem (emission subnet_state) idx) (fun e =>
    Py.truediv (Balance.tao e) emission_sum)
  else Ok 0%Q.

(** The values that a row of the table formats. *)
Record Row : Type := {
  UID : nat;
  TAO : Balance;
  Stake : Balance;
  Weight : Q;
  Dividends : Balance;
  Incentive : Q;
  Emissions : Balance;
  Hotkey : string;
  Coldkey : string
}.

(** The rows and the sums behind the footers. *)
Record Sums : Type := {
  rows : list Row;
  tao_sum : Balance;
  stake_sum : Balance;
  relative_emissions_sum : Q
}.

Definition Sums_init : Sums :=
  {| rows := [];
     tao_sum := Balance.from_rao 0;
     stake_sum := Balance.from_rao 0;
     relative_emissions_sum := 0 |}.

(** Lines 418-441: [for idx, hk in enumerate(subnet_state.hotkeys)],
    from the index [idx] on. *)
Fixpoint rows_loop (subnet_state : SubnetState) (netuid_ : Z)
    (emission_sum : Q) (rest : list string) (idx : nat) (sums : Sums)
  : result Sums :=
  match rest with
  | [] => Ok sums
  | hk :: rest' =>
      and_then (hotkey_block_emission_of subnet_state emission_sum idx)
        (fun hotkey_block_emission =>
      and_then (getitem (global_stake subnet_state) idx) (fun tao_ =>
      and_then (getitem (local_stake subnet_state) idx) (fun stake_ =>
      and_then (getitem (stake_weight subnet_state) idx) (fun weight =>
      and_then (getitem (incentives subnet_state) idx) (fun incentive =>
      and_then (getitem (emission subnet_state) idx) (fun emission_ =>
      and_then (getitem (hotkeys subnet_state) idx) (fun hotkey =>
      and_then (getitem (coldkeys subnet_state) idx) (fun coldkey =>
      rows_loop subnet_state netuid_ emission_sum rest' (S idx)
        {| rows :=
             rows sums
             ++ [{| UID := idx;
                    TAO := tao_;
                    Stake := stake_;
                    Weight := weight;
                    Dividends :=
                      Balance.set_unit netuid_
                        (Balance.from_tao hotkey_block_emission);
                    Incentive := incentive;
                    Emissions :=
                      Balance.set_unit netuid_
                        (Balance.from_tao (Balance.tao emission_));
                    Hotkey := hotkey;
                    Coldkey := coldkey |}];
           tao_sum := Balance.add (tao_sum sums) tao_;
           stake_sum := Balance.add (stake_sum sums) stake_;
           relative_emissions_sum :=
             (relative_emissions_sum sums + hotkey_block_emission)%Q |}
      ))))))))
  end.

(** Lines 410-441 of [show_subnet]. *)
Definition table_of (subnet_state : SubnetState) (netuid_ : Z)
  : result Sums :=
  rows_loop subnet_state netuid_ (emission_sum_of subnet_state)
    (hotkeys subnet_state) 0 Sums_init.

(** The sum of the amounts of the first [n] balances, in rao. *)
Definition rao_of_first (n : nat) (l : list Balance) : Z :=
  foldr (fun b total => (Balance.rao b + total)%Z) 0%Z (take n l).

End ShowSubnet.


(** ** subnets.py: [register], registration of a neuron by recycling *)

Module RegisterNeuron.
Import Proc.
Local Open Scope proc_scope.

Section Register.
Context `{Externals}.
Variables (wallet : Wallet) (subtensor : SubtensorInterface) (user : User).

(** The calls on the chain client that [register] makes besides those of
    [SubtensorInterface], and [burned_register_extrinsic] with
    [prompt=False]: the netuid and [old_balance] are its arguments. *)
Variables
  (subnet_exists : Z -> string -> result bool)
  (get_hyperparameter : string -> Z -> string -> result (option Z))
  (burned_register_extrinsic : Z -> Balance -> M bool).

Definition no_subnet_line (netuid : Z) : output :=
  err_console_print
    ("[red]Subnet " +:+ Py.str netuid +:+ " does not exist[/red]").

Definition insufficient_line (balance current_recycle : Balance) : output :=
  err_console_print
    ("[red]Insufficient balance " +:+ str_Balance balance
     +:+ " to register neuron. Current recycle is "
     +:+ str_Balance current_recycle +:+ " TAO[/red]").

Definition question (balance current_recycle : Balance) : string :=
  "Your balance is: [bold green]" +:+ str_Balance balance
  +:+ "[/bold green]" +:+ String "010" EmptyString
  +:+ "The cost to register by recycle is [bold red]"
  +:+ str_Balance current_recycle +:+ "[/bold red]"
  +:+ String "010" EmptyString +:+ "Do you want to continue?".

(** Lines 608-610: the recycle cost, zero when the chain has none. *)
Definition current_recycle_of (current_recycle_ : option Z) : Balance :=
  match current_recycle_ with
  | Some n => if (n =? 0)%Z then Balance.from_rao 0 else Balance.from_rao n
  | None => Balance.from_rao 0
  end.

(** [register]; the table is recorded by its cost cell. *)
Definition register (netuid : Z) (prompt : bool) : M unit :=
  h <- history ;;
  block_hash <- lift (get_chain_head subtensor h) ;;
  exists_ <- lift (subnet_exists netuid block_hash) ;;
  if negb exists_ then emit (no_subnet_line netuid)
  else
    current_recycle_ <-
      lift (get_hyperparameter "Burn" netuid block_hash) ;;
    balance_ <-
      lift (get_balance subtensor h (coldkeypub_ss58_address wallet)) ;;
    let current_recycle := current_recycle_of current_recycle_ in
    match balance_ !! coldkeypub_ss58_address wallet with
    | None => raise (Py.KeyError (coldkeypub_ss58_address wallet))
    | Some balance =>
        if Balance.gtb current_recycle balance then
          emit (insufficient_line balance current_recycle)
        else
          confirmed <-
            (if prompt then
               emit (console_print_table
                       (Subnets.tau +:+ " "
                        +:+ Py.format_f 4 (Balance.tao current_recycle))) ;;;
               ret (Confirm_ask user (question balance current_recycle))
             else ret true) ;;
          if negb confirmed then ret tt
          else
            burned_register_extrinsic netuid balance ;;; ret tt
    end.

End Register.

End RegisterNeuron.


(** ** stake/list.py: grouping, order and totals of the stake tables *)

Module StakeTables.

(** Lines 445-453 of [stake_list]: the stakes above zero by hotkey, the
    hotkeys in the order of their first stake. *)
Definition hotkeys_to_substakes_of (sub_stakes : list StakeInfo)
  : list (string * list StakeInfo) :=
  foldl
    (fun hotkeys_to_substakes substake =>
       let hotkey := StakeInfo.hotkey_ss58 substake in
       if (Balance.rao (StakeInfo.stake substake) =? 0)%Z
       then hotkeys_to_substakes
       else
         ODict.set String.eqb hotkey
           (default [] (ODict.get String.eqb hotkeys_to_substakes hotkey)
            ++ [substake])
           hotkeys_to_substakes)
    [] sub_stakes.

(** The stakes above zero of one hotkey, in the order of the answer of
    the chain. *)
Definition stakes_of (sub_stakes : list StakeInfo) (hotkey : string)
  : list StakeInfo :=
  List.filter
    (fun substake =>
       (negb (Balance.rao (StakeInfo.stake substake) =? 0)%Z
        && String.eqb (StakeInfo.hotkey_ss58 substake) hotkey)%bool)
    sub_stakes.

(** The key of the sort in lines 146-152 and 301-307:
    [dynamic_info[x.netuid].alpha_to_tao(...).tao] *)
Definition value_key (dynamic_info : gmap Z DynamicInfo) (x : StakeInfo)
  : result Q :=
  match dynamic_info !! StakeInfo.netuid x with
  | None => Raise (Py.KeyError (Py.str (StakeInfo.netuid x)))
  | Some pool => Ok (Pool.alpha_to_tao pool (StakeList.alpha_value_of x))
  end.

(** The keys of all the elements, computed before anything is moved. *)
Fixpoint keyed (dynamic_info : gmap Z DynamicInfo) (l : list StakeInfo)
  : result (list (Q * StakeInfo)) :=
  match l with
  | [] => Ok []
  | x :: l' =>
      match value_key dynamic_info x with
      | Py.Raise e => Raise e
      | Py.Ok k =>
          match keyed dynamic_info l' with
          | Py.Raise e => Raise e
          | Py.Ok ks => Ok ((k, x) :: ks)
          end
      end
  end.

(** [sorted(l, key=..., reverse=True)] for float keys: a stable sort,
    largest key first. *)
Fixpoint insert_by_value (x : Q * StakeInfo) (l : list (Q * StakeInfo))
  : list (Q * StakeInfo) :=
  match l with
  | [] => [x]
  | y :: l' =>
      if Py.lt (fst x) (fst y)
      then y :: insert_by_value x l'
      else x :: y :: l'
  end.

Definition sorted_by_value (l : list (Q * StakeInfo))
  : list (Q * StakeInfo) :=
  foldr insert_by_value [] l.

Definition is_root (s : StakeInfo) : bool := (StakeInfo.netuid s =? 0)%Z.

(** Lines 145-153 and 300-308: [sorted_substakes]. *)
Definition sorted_substakes_of (dynamic_info : gmap Z DynamicInfo)
    (substakes : list StakeInfo) : result (list StakeInfo) :=
  let root_stakes := List.filter is_root substakes in
  match keyed dynamic_info
          (List.filter (fun s => negb (is_root s)) substakes)
  with
  | Py.Raise e => Raise e
  | Py.Ok other_stakes =>
      Ok (root_stakes ++ map snd (sorted_by_value other_stakes))
  end.

(** What the loop of a table keeps: the positions that got a row, and
    the three totals of the footers. *)
Record Totals : Type := {
  rows : list StakeInfo;
  total_tao_ownership : Balance;
  total_tao_value : Q;
  total_swapped_tao_value : Q
}.

Definition Totals_init : Totals :=
  {| rows := [];
     total_tao_ownership := Balance.from_rao 0;
     total_tao_value := 0%Q;
     total_swapped_tao_value := 0%Q |}.

(** The swapped value of a position. *)
Definition swapped_of (pool : DynamicInfo) (substake_ : StakeInfo) : Q :=
  fst (fst (Pool.alpha_to_tao_with_slippage pool
              (StakeInfo.stake substake_))).

(** Lines 154-247 of [create_table]: the loop over [sorted_substakes].
    The cells of a row are display only; a row is kept as the position it
    shows. *)
Fixpoint create_table_loop (dynamic_info : gmap Z DynamicInfo)
    (sorted_substakes : list StakeInfo) (st : Totals) : result Totals :=
  match sorted_substakes with
  | [] => Ok st
  | substake_ :: rest =>
      match dynamic_info !! StakeInfo.netuid substake_ with
      | None => Raise (Py.KeyError (Py.str (StakeInfo.netuid substake_)))
      | Some pool =>
          let tao_value :=
            Pool.alpha_to_tao pool (StakeList.alpha_value_of substake_) in
          let swapped_tao_value := swapped_of pool substake_ in
          match StakeList.create_table_ownership pool substake_
                  (total_tao_ownership st)
          with
          | Py.Raise e => Raise e
          | Py.Ok owned =>
              create_table_loop dynamic_info rest
                {| rows :=
                     match StakeList.tao_ownership owned with
                     | Some _ => rows st ++ [substake_]
                     | None => rows st
                     end;
                   total_tao_ownership :=
                     StakeList.total_tao_ownership owned;
                   total_tao_value := (total_tao_value st + tao_value)%Q;
                   total_swapped_tao_value :=
                     (total_swapped_tao_value st + swapped_tao_value)%Q |}
          end
      end
  end.

(** [create_table(hotkey_, substakes)]: the rows and the totals of the
    table of one hotkey. *)
Definition create_table (dynamic_info : gmap Z DynamicInfo)
    (substakes : list StakeInfo) : result Totals :=
  match sorted_substakes_of dynamic_info substakes with
  | Py.Raise e => Raise e
  | Py.Ok sorted_substakes =>
      create_table_loop dynamic_info sorted_substakes Totals_init
  end.

(** Lines 311-420 of [create_live_table]: the loop over
    [sorted_substakes]. *)
Fixpoint create_live_table_loop (dynamic_info : gmap Z DynamicInfo)
    (sorted_substakes : list StakeInfo) (st : Totals) : result Totals :=
  match sorted_substakes with
  | [] => Ok st
  | substake :: rest =>
      let pool := dynamic_info !! StakeInfo.netuid substake in
      match pool with
      | None => create_live_table_loop dynamic_info rest st
      | Some pool_ =>
          if (Balance.rao (StakeInfo.stake substake) =? 0)%Z
          then create_live_table_loop dynamic_info rest st
          else
            let tao_value :=
              Pool.alpha_to_tao pool_ (StakeList.alpha_value_of substake) in
            let swapped_tao_value := swapped_of pool_ substake in
            match StakeList.create_live_table_ownership pool substake
                    (total_tao_ownership st)
            with
            | Py.Raise e => Raise e
            | Py.Ok owned =>
                create_live_table_loop dynamic_info rest
                  {| rows := rows st ++ [substake];
                     total_tao_ownership :=
                       StakeList.total_tao_ownership owned;
                     total_tao_value := (total_tao_value st + tao_value)%Q;
                     total_swapped_tao_value :=
                       (total_swapped_tao_value st + swapped_tao_value)%Q |}
            end
      end
  end.

(** [create_live_table]: the rows and the totals of the live table. *)
Definition create_live_table (dynamic_info : gmap Z DynamicInfo)
    (substakes : list StakeInfo) : result Totals :=
  match sorted_substakes_of dynamic_info substakes with
  | Py.Raise e => Raise e
  | Py.Ok sorted_substakes =>
      create_live_table_loop dynamic_info sorted_substakes Totals_init
  end.

(** The sum of the no-slippage values of positions on known subnets. *)
Definition value_of (dynamic_info : gmap Z DynamicInfo) (s : StakeInfo)
  : Q :=
  match dynamic_info !! StakeInfo.netuid s with
  | Some pool => Pool.alpha_to_tao pool (StakeList.alpha_value_of s)
  | None => 0%Q
  end.

Definition sum_values (dynamic_info : gmap Z DynamicInfo)
    (l : list StakeInfo) : Q :=
  foldr (fun s total => (value_of dynamic_info s + total)%Q) 0%Q l.

(** The positions large enough for a row of [create_table]. *)
Definition shown (s : StakeInfo) : bool :=
  Py.gt (Balance.tao (StakeList.alpha_value_of s))
    StakeList.ownership_threshold.

(** The positions that the loop of [create_live_table] does not skip. *)
Definition live_shown (dynamic_info : gmap Z DynamicInfo) (s : StakeInfo)
  : bool :=
  match dynamic_info !! StakeInfo.netuid s with
  | Some _ => negb (Balance.rao (StakeInfo.stake s) =? 0)%Z
  | None => false
  end.

(** [a] may stand before [b] in a list ordered by descending key. *)
Definition key_desc (a b : Q * StakeInfo) : Prop := (fst b <= fst a)%Q.

(** [a] may stand before [b] in a list ordered by descending value. *)
Definition value_desc (dynamic_info : gmap Z DynamicInfo)
    (a b : StakeInfo) : Prop :=
  (value_of dynamic_info b <= value_of dynamic_info a)%Q.

(** Lines 562-585 of [stake_list]: the tables of all hotkeys and the two
    grand totals. *)
Fixpoint all_tables (dynamic_info : gmap Z DynamicInfo)
    (hotkeys_to_substakes : list (string * list StakeInfo))
    (all_hotkeys_total_global_tao : Balance)
    (all_hotkeys_total_tao_value : Q) : result (Balance * Q) :=
  match hotkeys_to_substakes with
  | [] => Ok (all_hotkeys_total_global_tao, all_hotkeys_total_tao_value)
  | (hotkey, substakes) :: rest =>
      match create_table dynamic_info substakes with
      | Py.Raise e => Raise e
      | Py.Ok table =>
          all_tables dynamic_info rest
            (Balance.add all_hotkeys_total_global_tao
               (total_tao_ownership table))
            (all_hotkeys_total_tao_value + total_tao_value table)%Q
      end
  end.

(** [stake_list] without [--live], from the answer of the chain to the
    grand totals; [typer.Exit] when there is no stake above zero. *)
Definition stake_list (dynamic_info : gmap Z DynamicInfo)
    (sub_stakes : list StakeInfo) : result (Balance * Q) :=
  match hotkeys_to_substakes_of sub_stakes with
  | [] => Raise Py.TyperExit
  | (_ :: _) as hotkeys_to_substakes =>
      all_tables dynamic_info hotkeys_to_substakes (Balance.from_rao 0) 0
  end.

End StakeTables.


(** ** More concrete data for the examples *)

Module Sample.
Import Proc.

(** The demo chain for a coldkey that has no stake. *)
Definition chain_without_stake : SubtensorInterface :=
  {| network := "test";
     all_subnets := Ok [Demo.root_pool; Demo.pool_1; Demo.pool_2];
     get_stake_for_coldkey := fun _ => Ok [];
     get_balance := fun _ addr => Ok {[addr := Demo.tao_ 100]};
     get_stake := fun _ _ _ _ => Ok (Demo.tao_ 0);
     get_chain_head := fun _ => Ok "0xhead";
     get_account_next_index := fun _ _ => Ok 3%Z;
     query_runtime_api := fun _ _ => Ok (Some 1000000000%Z);
     compose_call := fun c => Ok c;
     create_signed_extrinsic :=
       fun c kp nonce =>
         Ok {| ext_call := c; ext_keypair := kp; ext_nonce := nonce |};
     submit_extrinsic := fun _ _ => Ok Demo.response_ok |}.

(** [unstake] without [--amount]: the amount is asked for. *)
Definition args_prompt : Remove.Args :=
  {| Remove.amount := 0;
     Remove.prompt := true;
     Remove.interactive := false;
     Remove.safe_staking := false;
     Remove.rate_tolerance := 5 # 100;
     Remove.allow_partial_stake := false |}.

(** A reading of numbers that knows the two texts of the examples. *)
Definition float (s : string) : option Q :=
  if String.eqb s "10" then Some 10%Q
  else if String.eqb s "100" then Some 100%Q
  else None.

(** Three hotkeys of a wallet; the key file of the second cannot be
    read. *)
Definition hotkey_wallets : list Hotkeys.HotkeyWallet :=
  [ {| Hotkeys.hotkey_str := "miner";
       Hotkeys.hotkey_ss58_address := Ok "5Miner" |};
    {| Hotkeys.hotkey_str := "broken";
       Hotkeys.hotkey_ss58_address := Raise Py.KeyFileError |};
    {| Hotkeys.hotkey_str := "validator";
       Hotkeys.hotkey_ss58_address := Ok "5Hot" |} ].

(** A chain client whose [sign_and_send_extrinsic] succeeds. *)
Definition sign_and_send_extrinsic (call : Call) : M (bool * string) :=
  ret (true, EmptyString).

(** What is known about the hotkeys: a name on the chain for one, a
    delegate identity for another. *)
Definition ck_hk_identities
  : gmap string (gmap string Identities.HkIdentity) :=
  {[ "hotkeys" :=
       {[ "5Hot" :=
            {| Identities.identity := Some {[ "name" := "validator" ]};
               Identities.display := None;
               Identities.coldkey_of := Some "5Cold" |} ]} ]}.

Definition old_identities : gmap string string :=
  {[ "5Miner" := "old miner" ]}.

(** The stakes of a coldkey: three on the demo hotkey, one of them of
    zero on a subnet that the chain does not know, and one on another
    hotkey. *)
Definition stakes_of_coldkey : list StakeInfo :=
  [ Demo.stake_on 0 5; Demo.stake_on 1 30; Demo.stake_on 7 0;
    StakeInfo.mk "5Miner" 2 (Demo.tao_ 1) (Demo.tao_ 0) true ].

(** The largest slippage and the expected return of unstaking all alpha
    of the demo hotkey: those of the one stake on subnet 1. *)
Definition summary_of_5Hot : Q * Q :=
  let '(received_amount, _, slippage_pct_float) :=
    Remove._calculate_slippage Demo.pool_1 (Demo.tao_ 30) in
  (Py.max 0 slippage_pct_float, (0 + received_amount)%Q).

(** A reading of integers that knows the netuids of the examples. *)
Definition int_ (s : string) : option Z :=
  if String.eqb s "0" then Some 0%Z
  else if String.eqb s "1" then Some 1%Z
  else if String.eqb s "2" then Some 2%Z
  else if String.eqb s "9" then Some 9%Z
  else None.

(** The demo chain with a lock cost of 200 TAO, twice the balance. *)
Definition expensive_chain : SubtensorInterface :=
  {| network := "test";
     all_subnets := Ok [Demo.root_pool; Demo.pool_1; Demo.pool_2];
     get_stake_for_coldkey := fun _ => Ok [];
     get_balance := fun _ addr => Ok {[addr := Demo.tao_ 100]};
     get_stake := fun _ _ _ _ => Ok (Demo.tao_ 0);
     get_chain_head := fun _ => Ok "0xhead";
     get_account_next_index := fun _ _ => Ok 3%Z;
     query_runtime_api := fun _ _ => Ok (Some 200000000000%Z);
     compose_call := fun c => Ok c;
     create_signed_extrinsic :=
       fun c kp nonce =>
         Ok {| ext_call := c; ext_keypair := kp; ext_nonce := nonce |};
     submit_extrinsic := fun _ _ => Ok Demo.response_ok |}.

(** A successful receipt that carries no [NetworkAdded] event. *)
Definition response_without_event : Response :=
  {| process_events := Ok tt;
     is_success := Ok true;
     error_message := Ok EmptyString;
     triggered_events := Ok [("ExtrinsicSuccess", [])] |}.

(** The extrinsic that the demo chain signs for a registration. *)
Definition registration : Extrinsic :=
  {| ext_call := Registration.register_network_call Demo.wallet;
     ext_keypair := "coldkey";
     ext_nonce := None |}.

(** A subnet with two hotkeys that share its emission one to three. *)
Definition subnet_state : ShowSubnet.SubnetState :=
  {| ShowSubnet.hotkeys := ["5Hot"; "5Miner"];
     ShowSubnet.coldkeys := ["5Cold"; "5Cold"];
     ShowSubnet.emission := [Demo.tao_ 1; Demo.tao_ 3];
     ShowSubnet.global_stake := [Demo.tao_ 50; Demo.tao_ 20];
     ShowSubnet.local_stake := [Demo.tao_ 30; Demo.tao_ 20];
     ShowSubnet.stake_weight := [(3 # 5)%Q; (2 # 5)%Q];
     ShowSubnet.incentives := [0%Q; 1%Q] |}.

End Sample.


(** * Properties *)

Example format_f_samples :
  Py.format_f 4 (9 # 1) = "9.0000"
  /\ Py.format_f 4 (10 # 1) = "10.0000"
  /\ Py.format_f 4 (1 # 3) = "0.3333"
  /\ Py.format_f 3 (-5 # 2) = "-2.500"
  /\ Py.format_f 4 (123456789 # 10000000) = "12.3457"
  /\ Py.format_f 0 (5 # 2) = "2".
Proof. repeat split; vm_compute; reflexivity. Qed.

(** ** Balances and the pool model *)

Section PoolFacts.

Lemma tao_pos (b : Balance) : (0 < Balance.rao b)%Z -> (0 < Balance.tao b)%Q.
Proof.
  intros Hb. unfold Balance.tao, Balance.RAO_PER_TAO.
  apply Qlt_shift_div_l; [reflexivity|].
  rewrite Qmult_0_l. replace 0%Q with (inject_Z 0) by reflexivity.
  rewrite <- Zlt_Qlt. exact Hb.
Qed.

Lemma tao_zero (b : Balance) :
  Balance.rao b = 0%Z -> Qeq_bool (Balance.tao b) 0 = true.
Proof. intros Hb. unfold Balance.tao. rewrite Hb. reflexivity. Qed.

(** A constant-product swap pays less than the linear price. *)
Lemma swap_lt_linear (T A a : Q) :
  (0 < T -> 0 < A -> 0 < a -> T - T * A / (A + a) < a * (T / A))%Q.
Proof.
  intros HT HA Ha.
  assert (HAa : (0 < A + a)%Q) by lra.
  assert (E1 : (T - T * A / (A + a) == T * a / (A + a))%Q) by (field; lra).
  assert (E2 : (a * (T / A) == T * a / A)%Q) by (field; lra).
  rewrite E1, E2.
  apply Qlt_shift_div_l; [exact HA|].
  assert (E3 : (T * a / (A + a) * A == T * a * A / (A + a))%Q)
    by (field; lra).
  rewrite E3.
  apply Qlt_shift_div_r; [exact HAa|].
  assert (Hp : (0 < T * a * a)%Q).
  { apply Qmult_lt_0_compat; [apply Qmult_lt_0_compat|]; lra. }
  lra.
Qed.

Lemma linear_pos (T A a : Q) : (0 < T -> 0 < A -> 0 < a -> 0 < a * (T / A))%Q.
Proof.
  intros HT HA Ha. apply Qmult_lt_0_compat; [exact Ha|].
  apply Qlt_shift_div_l; [exact HA|]. lra.
Qed.

Variables (pool : DynamicInfo) (alpha : Balance).
Hypothesis Hdyn : DynamicInfo.is_dynamic pool = true.
Hypothesis Htao : (0 < Balance.rao (DynamicInfo.tao_in pool))%Z.
Hypothesis Halpha : (0 < Balance.rao (DynamicInfo.alpha_in pool))%Z.
Hypothesis Hamount : (0 < Balance.rao alpha)%Z.

(** With positive reserves and a positive amount the swap is strictly
    below the linear value, so slippage is strictly positive. *)
Lemma dynamic_swap_below_linear :
  let '(received, slippage, pct) :=
    Pool.alpha_to_tao_with_slippage pool alpha in
  (received < Pool.alpha_to_tao pool alpha)%Q
  /\ (0 < slippage)%Q /\ (0 < pct)%Q.
Proof.
  unfold Pool.alpha_to_tao_with_slippage, Pool.alpha_to_tao,
    Pool.reserve_ratio.
  rewrite Hdyn.
  pose proof (tao_pos _ Htao) as HT.
  pose proof (tao_pos _ Halpha) as HA.
  pose proof (tao_pos _ Hamount) as Ha.
  set (T := Balance.tao (DynamicInfo.tao_in pool)) in *.
  set (A := Balance.tao (DynamicInfo.alpha_in pool)) in *.
  set (a := Balance.tao alpha) in *.
  pose proof (swap_lt_linear T A a HT HA Ha) as Hlt.
  pose proof (linear_pos T A a HT HA Ha) as Hpos.
  assert (Hs : (0 < a * (T / A) - (T - T * A / (A + a)))%Q) by lra.
  destruct (Qeq_bool (a * (T / A)) 0) eqn:E.
  { apply Qeq_bool_eq in E. lra. }
  repeat split; try assumption.
  apply Qlt_shift_div_l; [exact Hpos|].
  rewrite Qmult_0_l.
  apply Qmult_lt_0_compat; [reflexivity | exact Hs].
Qed.

End PoolFacts.

Section SlippageClaims.
Context `{Externals}.

(** C1. On a non-dynamic (fixed-rate) subnet the slippage computation of
    the unstake planner returns the input amount as the received amount
    and a slippage of exactly zero, and the stake table shows the input
    amount as the swapped value with the fixed text 0.000%. *)
Theorem fixed_rate_conversion_is_one_to_one
    (pool : DynamicInfo) (amount : Balance) (substake_ : StakeInfo) :
  DynamicInfo.is_dynamic pool = false ->
  Remove._calculate_slippage pool amount
  = (Balance.tao amount, "[red]N/A[/red]", 0%Q)
  /\ StakeList.swap_cells pool substake_
     = (Balance.tao (StakeInfo.stake substake_),
        "[" +:+ STAKE_SLIPPAGE_PERCENT +:+ "]0.000%[/"
        +:+ STAKE_SLIPPAGE_PERCENT +:+ "]")
  /\ Pool.alpha_to_tao_with_slippage pool amount
     = (Balance.tao amount, 0%Q, 0%Q).
Proof.
  intros Hfixed.
  unfold Remove._calculate_slippage, StakeList.swap_cells,
    Pool.alpha_to_tao_with_slippage.
  rewrite Hfixed. repeat split.
Qed.


End SlippageClaims.

Lemma fixed_rate_conversion_is_one_to_one_witness :
  DynamicInfo.is_dynamic Demo.root_pool = false
  /\ Remove._calculate_slippage Demo.root_pool (Demo.tao_ 5)
     = (Balance.tao (Demo.tao_ 5), "[red]N/A[/red]", 0%Q).
Proof.
  split; [reflexivity|].
  apply (fixed_rate_conversion_is_one_to_one (H := Demo.externals)
           Demo.root_pool (Demo.tao_ 5) (Demo.stake_on 0 5)).
  reflexivity.
Defined.


(** ** Ownership share *)

Lemma tempo_or_1_nonzero (tempo : Z) :
  Qeq_bool (inject_Z (Py.or_int tempo 1)) 0 = false.
Proof.
  unfold Py.or_int.
  destruct (Z.eqb_spec tempo 0) as [->|Hne]; [reflexivity|].
  unfold Qeq_bool, inject_Z. cbn.
  apply Z.eqb_neq. lia.
Qed.

(** The per-block emission never divides by zero. *)
Lemma per_block_emission_defined (pool : DynamicInfo) (substake_ : StakeInfo) :
  exists e, StakeList.per_block_emission_of pool substake_ = Ok e.
Proof.
  unfold StakeList.per_block_emission_of, Py.truediv.
  rewrite tempo_or_1_nonzero. eauto.
Qed.

(** C5. For a position on a subnet whose issuance is zero (alpha_out on a
    dynamic subnet, tao_in otherwise), neither the static nor the live
    table divides by zero: the iteration completes, the TAO ownership it
    computes is the zero balance, and the running total is unchanged. *)
Theorem zero_issuance_ownership_is_zero
    (pool : DynamicInfo) (substake_ : StakeInfo) (total : Balance) :
  Balance.rao (StakeList.issuance_of pool) = 0%Z ->
  StakeList.create_table_ownership pool substake_ total
  = Ok {| StakeList.tao_ownership :=
            if Py.gt (Balance.tao (StakeList.alpha_value_of substake_))
                 StakeList.ownership_threshold
            then Some (Balance.from_rao 0) else None;
          StakeList.total_tao_ownership := total |}
  /\ StakeList.create_live_table_ownership (Some pool) substake_ total
     = Ok {| StakeList.tao_ownership :=
               if (Balance.rao (StakeInfo.stake substake_) =? 0)%Z
               then None else Some (Balance.from_rao 0);
             StakeList.total_tao_ownership := total |}.
Proof.
  intros Hzero.
  pose proof (tao_zero _ Hzero) as Hq.
  destruct (per_block_emission_defined pool substake_) as [e He].
  unfold StakeList.create_table_ownership, StakeList.create_live_table_ownership.
  rewrite He. unfold Py.nonzero. rewrite Hq. cbn [negb].
  split.
  - destruct (Py.gt _ _); reflexivity.
  - destruct (Balance.rao (StakeInfo.stake substake_) =? 0)%Z; [reflexivity|].
    rewrite andb_false_r. reflexivity.
Qed.

Lemma zero_issuance_ownership_is_zero_witness :
  Balance.rao (StakeList.issuance_of Demo.pool_2) = 0%Z
  /\ StakeList.create_table_ownership Demo.pool_2 (Demo.stake_on 2 1)
       (Balance.from_rao 7)
     = Ok {| StakeList.tao_ownership := Some (Balance.from_rao 0);
             StakeList.total_tao_ownership := Balance.from_rao 7 |}.
Proof.
  split; [reflexivity|].
  apply (zero_issuance_ownership_is_zero Demo.pool_2 (Demo.stake_on 2 1)
           (Balance.from_rao 7)).
  reflexivity.
Defined.


(** ** The collection loops of [unstake] *)

Section Collection.
Import Proc Remove.
Context `{Externals}.
Variables (user : User) (args : Args).
Variables (all_sn_dynamic_info : gmap Z DynamicInfo)
          (stake_in_netuids : gmap string (gmap Z Balance)).

Lemma collect_netuid_rejects hotkey netuid stakes current a st w :
  stake_in_netuids !! staking_address_ss58 hotkey = Some stakes ->
  stakes !! netuid = Some current ->
  Qeq_bool (Balance.tao current) 0 = false ->
  requested_amount user args hotkey netuid current = Some a ->
  Balance.gtb (Balance.set_unit netuid a) current = true ->
  collect_netuid user args all_sn_dynamic_info stake_in_netuids hotkey
    netuid st w
  = (Ok st,
     printing (err_console_print
                 (not_enough_stake_message current
                    (Balance.set_unit netuid a) netuid)) w).
Proof.
  intros Hhk Hnet Hnz Hreq Hgt.
  unfold collect_netuid.
  rewrite Hhk, Hnet, Hnz, Hreq, Hgt.
  reflexivity.
Qed.

(** What one iteration may do to the collected operations: nothing, or
    append one operation that passed the balance check and carries the
    price limit of its subnet. *)
Lemma collect_netuid_appends hotkey netuid st w st' w' :
  collect_netuid user args all_sn_dynamic_info stake_in_netuids hotkey
    netuid st w = (Ok st', w') ->
  unstake_operations st' = unstake_operations st
  \/ exists op,
       unstake_operations st' = unstake_operations st ++ [op]
       /\ Balance.gtb (amount_to_unstake op) (current_stake_balance op)
          = false
       /\ price_with_tolerance op
          = safe_price_with_tolerance args (dynamic_info op)
       /\ all_sn_dynamic_info !! op_netuid op = Some (dynamic_info op).
Proof.
  unfold collect_netuid, bind, emit, ret, raise.
  intros Hrun.
  destruct (stake_in_netuids !! staking_address_ss58 hotkey) as [stakes|];
    [|injection Hrun as <- _; left; reflexivity].
  destruct (stakes !! netuid) as [current|];
    [|injection Hrun as <- _; left; reflexivity].
  destruct (Qeq_bool (Balance.tao current) 0);
    [injection Hrun as <- _; left; reflexivity|].
  destruct (requested_amount user args hotkey netuid current) as [a|];
    [|injection Hrun as <- _; left; reflexivity].
  destruct (Balance.gtb (Balance.set_unit netuid a) current) eqn:Hgt;
    [injection Hrun as <- _; left; reflexivity|].
  destruct (all_sn_dynamic_info !! netuid) as [info|] eqn:Hinfo;
    [|discriminate].
  destruct (_calculate_slippage info (Balance.set_unit netuid a))
    as [[received pct] pctf].
  injection Hrun as <- _. right. eexists. cbn.
  split; [reflexivity|]. cbn. auto.
Qed.

(** An invariant of the operations that holds of each appended one holds
    of all that the loops collect. *)
Section Invariant.
Variable good : UnstakeOp -> Prop.
Hypothesis good_appended :
  forall hotkey netuid st w st' w' op,
    collect_netuid user args all_sn_dynamic_info stake_in_netuids hotkey
      netuid st w = (Ok st', w') ->
    unstake_operations st' = unstake_operations st ++ [op] ->
    good op.

Lemma collect_netuid_invariant hotkey netuid st w st' w' :
  Forall good (unstake_operations st) ->
  collect_netuid user args all_sn_dynamic_info stake_in_netuids hotkey
    netuid st w = (Ok st', w') ->
  Forall good (unstake_operations st').
Proof.
  intros Hst Hrun.
  destruct (collect_netuid_appends _ _ _ _ _ _ Hrun)
    as [->|(op & Hop & _)]; [exact Hst|].
  rewrite Hop. apply Forall_app. split; [exact Hst|].
  constructor; [|constructor]. eapply good_appended; eassumption.
Qed.

Lemma collect_netuids_invariant hotkey netuids :
  forall st w st' w',
    Forall good (unstake_operations st) ->
    collect_netuids user args all_sn_dynamic_info stake_in_netuids hotkey
      netuids st w = (Ok st', w') ->
    Forall good (unstake_operations st').
Proof.
  induction netuids as [|netuid rest IH]; intros st w st' w' Hst Hrun.
  - injection Hrun as <- _. exact Hst.
  - cbn [collect_netuids] in Hrun.
    destruct (skip_remaining_subnets st).
    + injection Hrun as <- _. exact Hst.
    + unfold bind in Hrun.
      destruct (collect_netuid _ _ _ _ hotkey netuid st w)
        as [[st1|e] w1] eqn:E; [|discriminate].
      eapply IH; [|exact Hrun].
      eapply collect_netuid_invariant; eassumption.
Qed.

Lemma collect_hotkeys_invariant netuids hotkeys :
  forall st w st' w',
    Forall good (unstake_operations st) ->
    collect_hotkeys user args all_sn_dynamic_info stake_in_netuids
      netuids hotkeys st w = (Ok st', w') ->
    Forall good (unstake_operations st').
Proof.
  induction hotkeys as [|hotkey rest IH]; intros st w st' w' Hst Hrun.
  - injection Hrun as <- _. exact Hst.
  - cbn [collect_hotkeys] in Hrun.
    destruct (skip_remaining_subnets st).
    + injection Hrun as <- _. exact Hst.
    + unfold bind in Hrun.
      destruct (collect_netuids _ _ _ _ hotkey _ st w)
        as [[st1|e] w1] eqn:E; [|discriminate].
      eapply IH; [|exact Hrun].
      eapply collect_netuids_invariant; eassumption.
Qed.

End Invariant.

Lemma collect_hotkeys_within netuids hotkeys w st' w' :
  collect_hotkeys user args all_sn_dynamic_info stake_in_netuids netuids
    hotkeys Collected_init w = (Ok st', w') ->
  within_balance st'.
Proof.
  intros Hrun. unfold within_balance.
  eapply collect_hotkeys_invariant with (st := Collected_init);
    [|constructor|exact Hrun].
  intros hotkey netuid st w1 st1 w2 op Hstep Happ.
  destruct (collect_netuid_appends _ _ _ _ _ _ Hstep)
    as [Hsame|(op' & Hop & Hok & _)].
  - rewrite Hsame in Happ.
    apply (f_equal (@length _)) in Happ.
    rewrite length_app in Happ. cbn in Happ. lia.
  - rewrite Hop in Happ. apply app_inj_tail in Happ as [_ <-]. exact Hok.
Qed.

Lemma collect_hotkeys_priced netuids hotkeys w st' w' :
  collect_hotkeys user args all_sn_dynamic_info stake_in_netuids netuids
    hotkeys Collected_init w = (Ok st', w') ->
  priced args st'.
Proof.
  intros Hrun. unfold priced.
  eapply collect_hotkeys_invariant with (st := Collected_init);
    [|constructor|exact Hrun].
  intros hotkey netuid st w1 st1 w2 op Hstep Happ.
  destruct (collect_netuid_appends _ _ _ _ _ _ Hstep)
    as [Hsame|(op' & Hop & _ & Hok & _)].
  - rewrite Hsame in Happ.
    apply (f_equal (@length _)) in Happ.
    rewrite length_app in Happ. cbn in Happ. lia.
  - rewrite Hop in Happ. apply app_inj_tail in Happ as [_ <-]. exact Hok.
Qed.

(** C3. When the amount requested for a (hotkey, netuid) pair exceeds the
    pair's stake balance, the error is printed, the collected operations
    are unchanged, and the loops go on with the remaining netuids of the
    hotkey and then with the remaining hotkeys; and no operation that
    exceeds its balance is ever collected. *)
Theorem excess_amount_skips_only_that_pair
    (hotkey : Hotkey) (more_hotkeys : list Hotkey)
    (netuids : list Z) (netuid : Z) (rest : list Z)
    (stakes : gmap Z Balance) (current a : Balance)
    (st : Collected) (w : World) :
  skip_remaining_subnets st = false ->
  (if interactive args then [selected_netuid hotkey] else netuids)
  = netuid :: rest ->
  stake_in_netuids !! staking_address_ss58 hotkey = Some stakes ->
  stakes !! netuid = Some current ->
  Qeq_bool (Balance.tao current) 0 = false ->
  requested_amount user args hotkey netuid current = Some a ->
  Balance.gtb (Balance.set_unit netuid a) current = true ->
  let reported :=
    printing (err_console_print
                (not_enough_stake_message current
                   (Balance.set_unit netuid a) netuid)) w in
  collect_netuid user args all_sn_dynamic_info stake_in_netuids hotkey
    netuid st w = (Ok st, reported)
  /\ collect_hotkeys user args all_sn_dynamic_info stake_in_netuids netuids
       (hotkey :: more_hotkeys) st w
     = bind (collect_netuids user args all_sn_dynamic_info stake_in_netuids
               hotkey rest st)
         (fun st' =>
            collect_hotkeys user args all_sn_dynamic_info stake_in_netuids
              netuids more_hotkeys st')
         reported
  /\ (forall hotkeys w0 st' w',
        collect_hotkeys user args all_sn_dynamic_info stake_in_netuids
          netuids hotkeys Collected_init w0 = (Ok st', w') ->
        within_balance st').
Proof.
  intros Hskip Hnetuids Hhk Hnet Hnz Hreq Hgt reported.
  pose proof (collect_netuid_rejects hotkey netuid stakes current a st w
                Hhk Hnet Hnz Hreq Hgt) as Hstep.
  split; [exact Hstep|]. split.
  - cbn [collect_hotkeys]. rewrite Hskip, Hnetuids.
    cbn [collect_netuids]. rewrite Hskip.
    unfold bind at 1 2. rewrite Hstep. reflexivity.
  - intros hotkeys w0 st' w' Hrun.
    eapply collect_hotkeys_within. exact Hrun.
Qed.

End Collection.

(** [unstake --amount 10] over the netuids 0 to 3 with stakes of 5, 30 and 1:
    subnets 0 and 2 are refused, subnet 3 has no stake, subnet 1 is
    collected. *)
Example collection_of_a_batch :
  let run :=
    Remove.collect_hotkeys (H := Demo.externals) Demo.user Demo.args
      Demo.infos Demo.stake_in_netuids [0; 1; 2; 3]%Z [Demo.hotkey]
      Remove.Collected_init Demo.world0 in
  fst run = Ok Demo.collected
  /\ Proc.printed (snd run)
     = [Proc.err_console_print
          (Remove.not_enough_stake_message (H := Demo.externals)
             (Demo.tao_ 5) (Balance.set_unit 0 (Balance.from_tao 10)) 0);
        Proc.err_console_print
          (Remove.not_enough_stake_message (H := Demo.externals)
             (Demo.tao_ 1) (Balance.set_unit 2 (Balance.from_tao 10)) 2);
        Proc.print_error "No stake to unstake from 5Hot on netuid: 3"].
Proof. vm_compute. split; reflexivity. Qed.

Lemma excess_amount_skips_only_that_pair_witness :
  Remove.collect_netuid (H := Demo.externals) Demo.user Demo.args Demo.infos
    Demo.stake_in_netuids Demo.hotkey 0 Remove.Collected_init Demo.world0
  = (Ok Remove.Collected_init,
     Proc.printing
       (Proc.err_console_print
          (Remove.not_enough_stake_message (H := Demo.externals)
             (Demo.tao_ 5) (Balance.set_unit 0 (Balance.from_tao 10)) 0))
       Demo.world0).
Proof.
  apply (excess_amount_skips_only_that_pair (H := Demo.externals)
           Demo.user Demo.args Demo.infos Demo.stake_in_netuids
           Demo.hotkey [] [0; 1; 2; 3]%Z 0%Z [1; 2; 3]%Z
           Demo.stakes_of_5Hot (Demo.tao_ 5) (Balance.from_tao 10)
           Remove.Collected_init Demo.world0);
    vm_compute; reflexivity.
Defined.


(** ** Framing: what a computation leaves untouched *)

Module Frame.
Import Proc.

Section Rules.
Context {A B C : Type} (obs : World -> C).

Lemma preserves_ret (a : A) : preserves obs (ret a).
Proof. intros w. reflexivity. Qed.

Lemma preserves_raise (e : Py.exn) : preserves obs (@raise A e).
Proof. intros w. reflexivity. Qed.

Lemma preserves_lift (r : result A) : preserves obs (lift r).
Proof. intros w. reflexivity. Qed.

Lemma preserves_bind (m : M A) (k : A -> M B) :
  preserves obs m -> (forall a, preserves obs (k a)) ->
  preserves obs (bind m k).
Proof.
  intros Hm Hk w. unfold bind.
  specialize (Hm w). destruct (m w) as [[a|e] w']; cbn in *.
  - rewrite Hk. exact Hm.
  - exact Hm.
Qed.

Lemma preserves_try_except (body : M A) matches handler :
  preserves obs body -> (forall e, preserves obs (handler e)) ->
  preserves obs (try_except body matches handler).
Proof.
  intros Hb Hh w. unfold try_except.
  specialize (Hb w). destruct (body w) as [[a|e] w']; cbn in *.
  - exact Hb.
  - destruct (matches e); cbn; [rewrite Hh|]; exact Hb.
Qed.

End Rules.

Lemma preserves_history {C} (obs : World -> C) : preserves obs history.
Proof. intros w. reflexivity. Qed.

Lemma emit_keeps_composed o : preserves composed (emit o).
Proof. intros w. reflexivity. Qed.

Lemma emit_keeps_submitted o : preserves submitted (emit o).
Proof. intros w. reflexivity. Qed.

Lemma submit_keeps_composed s x : preserves composed (submit s x).
Proof. intros w. reflexivity. Qed.

Lemma compose_keeps_submitted s c : preserves submitted (compose s c).
Proof. intros w. reflexivity. Qed.

Lemma composes_only_compose {A} s c (k : Call -> M A) :
  (forall x, preserves composed (k x)) ->
  composes_only c (bind (compose s c) k).
Proof.
  intros Hk w. right. unfold bind, compose.
  destruct (compose_call s c) as [x|e]; cbn; [rewrite Hk|]; reflexivity.
Qed.

Lemma composes_only_bind {A B} c (m : M A) (k : A -> M B) :
  preserves composed m -> (forall a, composes_only c (k a)) ->
  composes_only c (bind m k).
Proof.
  intros Hm Hk w. unfold bind.
  specialize (Hm w). destruct (m w) as [[a|e] w']; cbn in *.
  - rewrite <- Hm. apply Hk.
  - left. eauto.
Qed.

End Frame.

Create HintDb frame discriminated.
#[export] Hint Resolve Frame.preserves_ret Frame.preserves_raise
  Frame.preserves_lift Frame.preserves_history Frame.emit_keeps_composed
  Frame.emit_keeps_submitted Frame.submit_keeps_composed
  Frame.compose_keeps_submitted : frame.

(** Decompose a framing goal along the structure of the computation. *)
Ltac frame :=
  repeat first
    [ progress intros
    | apply Frame.preserves_bind
    | apply Frame.preserves_try_except
    | solve [auto with frame]
    | match goal with
      | |- Proc.preserves _ (if ?b then _ else _) => destruct b
      | |- Proc.preserves _ (match ?x with _ => _ end) => destruct x
      end ].

(** ** The extrinsic helpers and the execution phase of [unstake] *)

Section Extrinsics.
Import Proc Remove.
Context `{Externals}.
Variables (wallet : Wallet) (subtensor : SubtensorInterface).

(** The standard helper composes [remove_stake] or stops with an
    exception before composing anything. *)
Lemma _unstake_extrinsic_composes netuid amount current hk :
  composes_only (remove_stake_call hk netuid amount)
    (_unstake_extrinsic wallet subtensor netuid amount current hk).
Proof.
  unfold _unstake_extrinsic.
  do 3 (apply Frame.composes_only_bind; [solve [frame] | intros]).
  apply Frame.composes_only_compose.
  unfold report_finalized. frame.
Qed.

Lemma _safe_unstake_extrinsic_composes netuid amount current hk p partial :
  composes_only (remove_stake_limit_call hk netuid amount p partial)
    (_safe_unstake_extrinsic wallet subtensor netuid amount current hk p
       partial).
Proof.
  unfold _safe_unstake_extrinsic.
  do 6 (apply Frame.composes_only_bind; [solve [frame] | intros]).
  apply Frame.composes_only_compose.
  unfold report_finalized. frame.
Qed.

(** Whatever is raised inside the [try] of the standard helper and is an
    [Exception] is caught: once the extrinsic is signed, the helper
    returns. *)
Lemma _unstake_extrinsic_returns netuid amount current hk w bal call x :
  get_balance subtensor (submitted w) (coldkeypub_ss58_address wallet)
  = Ok bal ->
  compose_call subtensor (remove_stake_call hk netuid amount) = Ok call ->
  create_signed_extrinsic subtensor call (coldkey wallet) None = Ok x ->
  match fst (_unstake_extrinsic wallet subtensor netuid amount current hk w)
  with
  | Py.Ok _ => True
  | Py.Raise e => Py.is_Exception e = false
  end.
Proof.
  intros Hbal Hcall Hsign.
  unfold _unstake_extrinsic.
  unfold bind at 1. cbn [emit].
  unfold bind at 1. cbn [history submitted].
  unfold bind at 1, lift at 1. rewrite Hbal.
  unfold bind at 1, compose at 1. rewrite Hcall.
  unfold bind at 1, lift at 1. rewrite Hsign.
  unfold try_except.
  match goal with
  | |- context [match ?body ?w0 with _ => _ end] =>
      destruct (body w0) as [[[]|e] w1]
  end.
  - exact I.
  - destruct (Py.is_Exception e) eqn:He; [exact I | exact He].
Qed.

(** The safe helper on a rejection with "Custom error: 8": the tailored
    message is the only failure message, and the helper returns. *)
Lemma _safe_unstake_extrinsic_price_rejection
    netuid amount current hk p partial w hd bal nonce stk call x msg :
  get_chain_head subtensor (submitted w) = Ok hd ->
  get_balance subtensor (submitted w) (coldkeypub_ss58_address wallet)
  = Ok bal ->
  get_account_next_index subtensor (submitted w)
    (coldkeypub_ss58_address wallet) = Ok nonce ->
  get_stake subtensor (submitted w) hk (coldkeypub_ss58_address wallet)
    netuid = Ok stk ->
  compose_call subtensor
    (remove_stake_limit_call hk netuid amount p partial) = Ok call ->
  create_signed_extrinsic subtensor call (coldkey wallet) (Some nonce)
  = Ok x ->
  submit_extrinsic subtensor (submitted w) x
  = Raise (Py.SubstrateRequestException msg) ->
  Py.contains "Custom error: 8" msg = true ->
  _safe_unstake_extrinsic wallet subtensor netuid amount current hk p
    partial w
  = (Ok tt,
     {| printed :=
          printed w
          ++ [unstaking_status amount hk netuid;
              print_error (price_tolerance_message amount netuid)];
        composed :=
          composed w ++ [remove_stake_limit_call hk netuid amount p partial];
        submitted := submitted w ++ [x] |}).
Proof.
  intros Hhd Hbal Hnonce Hstk Hcall Hsign Hsubmit Hmsg.
  unfold _safe_unstake_extrinsic.
  unfold bind at 1. cbn [emit].
  unfold bind at 1. cbn [history submitted].
  unfold bind at 1, lift at 1. rewrite Hhd.
  unfold bind at 1, lift at 1. rewrite Hbal.
  unfold bind at 1, lift at 1. rewrite Hnonce.
  unfold bind at 1, lift at 1. rewrite Hstk.
  unfold bind at 1, compose at 1. rewrite Hcall.
  unfold bind at 1, lift at 1. rewrite Hsign.
  unfold bind at 1, try_except, bind at 1, submit.
  cbn [submitted]. rewrite Hsubmit.
  cbn [Py.is_SubstrateRequestException Py.str_exn]. rewrite Hmsg.
  unfold bind, emit, ret. cbn.
  rewrite <- app_assoc. reflexivity.
Qed.

Variables (user : User) (args : Args).

Lemma perform_safe_composes op :
  match expected_safe_call args op with
  | Some c => composes_only c (perform_safe wallet subtensor args op)
  | None =>
      forall w,
        perform_safe wallet subtensor args op w
        = (Raise (Py.KeyError "price_with_tolerance"), w)
  end.
Proof.
  unfold expected_safe_call, perform_safe.
  destruct (op_netuid op =? 0)%Z.
  - apply _unstake_extrinsic_composes.
  - destruct (price_with_tolerance op) as [p|].
    + apply _safe_unstake_extrinsic_composes.
    + reflexivity.
Qed.

(** The calls composed by the safe-staking loop are the expected calls of
    the operations it got to, in order. *)
Lemma for_each_perform_safe_composes ops :
  forall w,
    exists (n : nat) (calls : list Call),
      composed (snd (for_each (perform_safe wallet subtensor args) ops w))
      = composed w ++ calls
      /\ map Some calls = map (expected_safe_call args) (firstn n ops).
Proof.
  induction ops as [|op rest IH]; intros w.
  - exists 0%nat, []. cbn. rewrite app_nil_r. split; reflexivity.
  - cbn [for_each]. unfold bind.
    pose proof (perform_safe_composes op) as Hop.
    destruct (expected_safe_call args op) as [c|] eqn:Ec.
    + destruct (Hop w) as [[Hsame [e He]]|Hone].
      * exists 0%nat, [].
        destruct (perform_safe wallet subtensor args op w) as [r w1].
        cbn in He, Hsame. subst r. cbn. rewrite app_nil_r.
        split; [exact Hsame | reflexivity].
      * destruct (perform_safe wallet subtensor args op w) as [[[]|e] w1];
          cbn in Hone.
        -- destruct (IH w1) as (n & calls & Hc & Hn).
           exists (S n), (c :: calls). split.
           ++ rewrite Hc, Hone, <- app_assoc. reflexivity.
           ++ cbn. rewrite Ec, Hn. reflexivity.
        -- exists 1%nat, [c]. cbn. rewrite Ec.
           split; [exact Hone | reflexivity].
    + rewrite Hop. exists 0%nat, []. cbn. rewrite app_nil_r.
      split; reflexivity.
Qed.


End Extrinsics.



Section SafeUnstake.
Import Proc Remove.
Context `{Externals}.
Variables (wallet : Wallet) (subtensor : SubtensorInterface)
          (user : User) (args : Args).
Variables (all_sn_dynamic_info : gmap Z DynamicInfo)
          (stake_in_netuids : gmap string (gmap Z Balance)).

(** C4. In safe-staking mode, an operation collected on a dynamic subnet
    (netuid other than 0) is executed through [remove_stake_limit] with
    [limit_price] equal to the subnet price in rao times
    (1 - rate_tolerance) and with [allow_partial] equal to the flag; and
    when the chain rejects the submission with a
    [SubstrateRequestException] whose text contains "Custom error: 8", the
    helper prints the price-tolerance message, not the generic one, and
    returns. *)
Theorem safe_unstake_passes_price_limit
    (netuids : list Z) (hotkeys : list Hotkey) (w0 w' : World)
    (st' : Collected) (op : UnstakeOp) :
  safe_staking args = true ->
  collect_hotkeys user args all_sn_dynamic_info stake_in_netuids netuids
    hotkeys Collected_init w0 = (Ok st', w') ->
  In op (unstake_operations st') ->
  DynamicInfo.is_dynamic (dynamic_info op) = true ->
  op_netuid op <> 0%Z ->
  let limit_price :=
    PFloat (inject_Z (Balance.rao (DynamicInfo.price (dynamic_info op)))
            * (1 - rate_tolerance args))%Q in
  let call :=
    remove_stake_limit_call (hotkey_ss58 op) (op_netuid op)
      (amount_to_unstake op) limit_price (allow_partial_stake args) in
  (composes_only call (perform_safe wallet subtensor args op)
   /\ call_function call = "remove_stake_limit"
   /\ call_params call !! "limit_price" = Some limit_price
   /\ call_params call !! "allow_partial"
      = Some (PBool (allow_partial_stake args)))
  /\ (forall w hd bal nonce stk signed x msg,
        get_chain_head subtensor (submitted w) = Ok hd ->
        get_balance subtensor (submitted w)
          (coldkeypub_ss58_address wallet) = Ok bal ->
        get_account_next_index subtensor (submitted w)
          (coldkeypub_ss58_address wallet) = Ok nonce ->
        get_stake subtensor (submitted w) (hotkey_ss58 op)
          (coldkeypub_ss58_address wallet) (op_netuid op) = Ok stk ->
        compose_call subtensor call = Ok signed ->
        create_signed_extrinsic subtensor signed (coldkey wallet)
          (Some nonce) = Ok x ->
        submit_extrinsic subtensor (submitted w) x
        = Raise (Py.SubstrateRequestException msg) ->
        Py.contains "Custom error: 8" msg = true ->
        perform_safe wallet subtensor args op w
        = (Ok tt,
           {| printed :=
                printed w
                ++ [unstaking_status (amount_to_unstake op)
                      (hotkey_ss58 op) (op_netuid op);
                    print_error
                      (price_tolerance_message (amount_to_unstake op)
                         (op_netuid op))];
              composed := composed w ++ [call];
              submitted := submitted w ++ [x] |})).
Proof.
  intros Hsafe Hrun Hin Hdyn Hnz limit_price call.
  pose proof (collect_hotkeys_priced _ _ _ _ _ _ _ _ _ Hrun) as Hpriced.
  unfold priced in Hpriced.
  pose proof (proj1 (List.Forall_forall _ _) Hpriced op Hin) as Hprice.
  clear Hpriced. rename Hprice into Hpriced.
  unfold safe_price_with_tolerance in Hpriced.
  rewrite Hsafe, Hdyn in Hpriced. fold limit_price in Hpriced.
  assert (Hperform :
            perform_safe wallet subtensor args op
            = _safe_unstake_extrinsic wallet subtensor (op_netuid op)
                (amount_to_unstake op) (current_stake_balance op)
                (hotkey_ss58 op) limit_price (allow_partial_stake args)).
  { unfold perform_safe. rewrite Hpriced.
    destruct (Z.eqb_spec (op_netuid op) 0); [contradiction | reflexivity]. }
  split.
  - split; [|repeat split].
    rewrite Hperform. apply _safe_unstake_extrinsic_composes.
  - intros w hd bal nonce stk signed x msg
      Hhd Hbal Hnonce Hstk Hcall Hsign Hsubmit Hmsg.
    rewrite Hperform.
    eapply _safe_unstake_extrinsic_price_rejection; eassumption.
Qed.

(** The collection loops neither compose nor submit. *)
Lemma collect_netuid_preserves {C} (obs : World -> C) hotkey netuid st :
  (forall o, preserves obs (emit o)) ->
  preserves obs
    (collect_netuid user args all_sn_dynamic_info stake_in_netuids hotkey
       netuid st).
Proof.
  intros Hemit. unfold collect_netuid.
  repeat first
    [ progress intros
    | apply Frame.preserves_bind
    | apply Hemit
    | solve [auto with frame]
    | match goal with
      | |- preserves _ (if ?b then _ else _) => destruct b
      | |- preserves _ (match ?x with _ => _ end) => destruct x
      end ].
Qed.

Lemma collect_netuids_preserves {C} (obs : World -> C) hotkey netuids :
  (forall o, preserves obs (emit o)) ->
  forall st,
    preserves obs
      (collect_netuids user args all_sn_dynamic_info stake_in_netuids
         hotkey netuids st).
Proof.
  intros Hemit.
  induction netuids as [|netuid rest IH]; intros st; cbn [collect_netuids].
  - auto with frame.
  - destruct (skip_remaining_subnets st); [auto with frame|].
    apply Frame.preserves_bind; [|exact IH].
    apply collect_netuid_preserves. exact Hemit.
Qed.

Lemma collect_hotkeys_preserves {C} (obs : World -> C) netuids hotkeys :
  (forall o, preserves obs (emit o)) ->
  forall st,
    preserves obs
      (collect_hotkeys user args all_sn_dynamic_info stake_in_netuids
         netuids hotkeys st).
Proof.
  intros Hemit.
  induction hotkeys as [|hotkey rest IH]; intros st; cbn [collect_hotkeys].
  - auto with frame.
  - destruct (skip_remaining_subnets st); [auto with frame|].
    apply Frame.preserves_bind; [|exact IH].
    apply collect_netuids_preserves. exact Hemit.
Qed.

End SafeUnstake.


Lemma safe_unstake_passes_price_limit_witness :
  (Remove.safe_staking Demo.args = true
   /\ In Demo.op_1 (Remove.unstake_operations Demo.collected)
   /\ DynamicInfo.is_dynamic (Remove.dynamic_info Demo.op_1) = true
   /\ Remove.op_netuid Demo.op_1 <> 0%Z)
  /\ Proc.composes_only
       (Remove.remove_stake_limit_call "5Hot" 1
          (Balance.set_unit 1 (Balance.from_tao 10))
          (Proc.PFloat (inject_Z 2000000000 * (1 - (5 # 100)))%Q) false)
       (Remove.perform_safe (H := Demo.externals) Demo.wallet
          (Demo.chain (Raise Demo.price_rejection)) Demo.args Demo.op_1).
Proof.
  split; [repeat split; [left; reflexivity | discriminate]|].
  apply (safe_unstake_passes_price_limit (H := Demo.externals)
           Demo.wallet (Demo.chain (Raise Demo.price_rejection)) Demo.user
           Demo.args Demo.infos Demo.stake_in_netuids [0; 1; 2; 3]%Z
           [Demo.hotkey] Demo.world0
           (snd (Remove.collect_hotkeys (H := Demo.externals) Demo.user
                   Demo.args Demo.infos Demo.stake_in_netuids
                   [0; 1; 2; 3]%Z [Demo.hotkey] Remove.Collected_init
                   Demo.world0))
           Demo.collected Demo.op_1).
  - reflexivity.
  - vm_compute. reflexivity.
  - left. reflexivity.
  - reflexivity.
  - discriminate.
Defined.

(** On the demo chain that rejects for the price limit, the safe helper
    prints the tailored message and returns. *)
Example price_rejection_is_reported :
  Remove.perform_safe (H := Demo.externals) Demo.wallet
    (Demo.chain (Raise Demo.price_rejection)) Demo.args Demo.op_1 Demo.world0
  = (Ok tt,
     {| Proc.printed :=
          [Remove.unstaking_status (H := Demo.externals)
             (Remove.amount_to_unstake Demo.op_1) "5Hot" 1;
           Proc.print_error
             (Remove.price_tolerance_message (H := Demo.externals)
                (Remove.amount_to_unstake Demo.op_1) 1)];
        Proc.composed :=
          [Remove.remove_stake_limit_call "5Hot" 1
             (Remove.amount_to_unstake Demo.op_1)
             (Proc.PFloat (inject_Z 2000000000 * (1 - (5 # 100)))%Q) false];
        Proc.submitted :=
          [{| Proc.ext_call :=
                Remove.remove_stake_limit_call "5Hot" 1
                  (Remove.amount_to_unstake Demo.op_1)
                  (Proc.PFloat (inject_Z 2000000000 * (1 - (5 # 100)))%Q)
                  false;
              Proc.ext_keypair := "coldkey";
              Proc.ext_nonce := Some 3%Z |}] |}).
Proof. vm_compute. reflexivity. Qed.

(** C6. The standard helper catches every [Exception] raised while the
    extrinsic is submitted; the safe helper catches only
    [SubstrateRequestException]: on a chain client whose
    [submit_extrinsic] raises a [TimeoutError], the standard helper prints
    the failure and returns, while the safe helper lets the exception
    escape, and the execution loop never reaches the next operation. *)
Theorem safe_helper_lets_generic_exception_escape :
  Py.is_Exception Demo.timeout = true
  /\ fst (Remove._unstake_extrinsic (H := Demo.externals) Demo.wallet
            (Demo.chain (Raise Demo.timeout)) 1
            (Remove.amount_to_unstake Demo.op_1)
            (Remove.current_stake_balance Demo.op_1) "5Hot" Demo.world0)
     = Ok tt
  /\ fst (Remove._safe_unstake_extrinsic (H := Demo.externals) Demo.wallet
            (Demo.chain (Raise Demo.timeout)) 1
            (Remove.amount_to_unstake Demo.op_1)
            (Remove.current_stake_balance Demo.op_1) "5Hot"
            (Proc.PFloat (inject_Z 2000000000 * (1 - (5 # 100)))%Q) false
            Demo.world0)
     = Raise Demo.timeout
  /\ (let run :=
        Remove.unstake_execute (H := Demo.externals) Demo.wallet
          (Demo.chain (Raise Demo.timeout)) Demo.user Demo.args
          [Demo.op_1; Demo.op_0] Demo.world0 in
      fst run = Raise Demo.timeout
      /\ length (Proc.composed (snd run)) = 1%nat).
Proof. vm_compute. repeat split; reflexivity. Qed.

Section Unlock.
Import Proc Remove.
Context `{Externals}.
Variables (wallet : Wallet) (subtensor : SubtensorInterface)
          (user : User) (args : Args).
Hypothesis Hlocked : unlock_coldkey wallet = Raise Py.KeyFileError.

Lemma unstake_execute_locked ops w :
  unstake_execute wallet subtensor user args ops w
  = if (prompt args && negb (Confirm_ask user "Would you like to continue?"))%bool
    then (Raise Py.TyperExit, w)
    else (Ok (Some false), printing decrypt_error w).
Proof.
  unfold unstake_execute, bind, try_except, lift, raise, ret.
  rewrite Hlocked.
  destruct (prompt args); [destruct (Confirm_ask user _)|]; reflexivity.
Qed.

Lemma unstake_execute_locked_preserves {C} (obs : World -> C) ops :
  (forall o, preserves obs (emit o)) ->
  preserves obs (unstake_execute wallet subtensor user args ops).
Proof.
  intros Hemit w. rewrite unstake_execute_locked.
  destruct (_ && _)%bool; [reflexivity|]. apply Hemit.
Qed.

Lemma unstake_locked_preserves {C} (obs : World -> C) hotkeys netuids :
  (forall o, preserves obs (emit o)) ->
  preserves obs (unstake wallet subtensor user args hotkeys netuids).
Proof.
  intros Hemit. unfold unstake, _print_table_and_slippage.
  repeat first
    [ progress intros
    | apply unstake_execute_locked_preserves; exact Hemit
    | apply collect_hotkeys_preserves; exact Hemit
    | apply Frame.preserves_bind
    | apply Hemit
    | solve [auto with frame]
    | match goal with
      | |- preserves _ (if ?b then _ else _) => destruct b
      | |- preserves _ (match ?x with _ => _ end) => destruct x
      end ].
Qed.

Lemma lock_cost_preserves {C} (obs : World -> C) :
  (forall o, preserves obs (emit o)) ->
  preserves obs (Subnets.lock_cost subtensor).
Proof.
  intros Hemit. unfold Subnets.lock_cost.
  repeat first
    [ progress intros
    | apply Frame.preserves_bind
    | apply Hemit
    | solve [auto with frame]
    | match goal with
      | |- preserves _ (match ?x with _ => _ end) => destruct x
      end ].
Qed.

(** With a locked coldkey, [register_subnetwork_extrinsic] ends before it
    composes a call, and it does not return [True]. *)
Lemma register_locked wfi wff prompt_ w :
  let '(r, w') :=
    Subnets.register_subnetwork_extrinsic subtensor wallet user wfi wff
      prompt_ w in
  composed w' = composed w /\ submitted w' = submitted w /\ r <> Ok true.
Proof.
  unfold Subnets.register_subnetwork_extrinsic.
  unfold bind at 1. cbn [history].
  unfold bind at 1, lift at 1.
  destruct (get_balance subtensor _ _) as [bals|e];
    [|repeat split; discriminate].
  destruct (bals !! coldkeypub_ss58_address wallet) as [bal|];
    [|repeat split; discriminate].
  unfold bind at 1.
  pose proof (lock_cost_preserves composed Frame.emit_keeps_composed w)
    as Hc.
  pose proof (lock_cost_preserves submitted Frame.emit_keeps_submitted w)
    as Hs.
  destruct (Subnets.lock_cost subtensor w) as [[[cost|]|e] w1];
    cbn in Hc, Hs; [| repeat split; auto; discriminate
                     | repeat split; auto; discriminate].
  destruct (Balance.gtb cost bal).
  { cbn. repeat split; auto; discriminate. }
  unfold bind at 1.
  destruct prompt_.
  - unfold bind at 1. cbn [emit ret].
    destruct (Confirm_ask user _); cbn [negb].
    + unfold bind, try_except, lift, ret, emit. rewrite Hlocked. cbn.
      repeat split; auto; discriminate.
    + cbn. repeat split; auto; discriminate.
  - cbn [ret negb].
    unfold bind, try_except, lift, ret, emit. rewrite Hlocked. cbn.
    repeat split; auto; discriminate.
Qed.

(** With a locked coldkey, a registration that reaches the unlocking
    step prints the decryption error last and returns [False]. *)
Lemma register_locked_returns_false wfi wff prompt_ w bals bal lc :
  get_balance subtensor (submitted w) (coldkeypub_ss58_address wallet)
  = Ok bals ->
  bals !! coldkeypub_ss58_address wallet = Some bal ->
  query_runtime_api subtensor "SubnetRegistrationRuntimeApi"
    "get_network_registration_cost" = Ok (Some lc) ->
  lc <> 0%Z ->
  Balance.gtb (Balance.from_rao lc) bal = false ->
  (prompt_ = false
   \/ Confirm_ask user
        ("Do you want to register a subnet for [green]"
         +:+ str_Balance (Balance.from_rao lc) +:+ "[/green]?") = true) ->
  let '(r, w') :=
    Subnets.register_subnetwork_extrinsic subtensor wallet user wfi wff
      prompt_ w in
  r = Ok false /\ last (printed w') = Some decrypt_error.
Proof.
  intros Hbals Hbal Hcost Hlc Hpay Hgo.
  unfold Subnets.register_subnetwork_extrinsic.
  unfold bind at 1. cbn [history].
  unfold bind at 1, lift at 1. rewrite Hbals, Hbal.
  unfold bind at 1, Subnets.lock_cost, bind at 1, lift at 1.
  rewrite Hcost.
  destruct lc as [|p|p]; [contradiction| |].
  all: unfold bind at 1; cbn [emit ret]; rewrite Hpay; unfold bind at 1.
  all: destruct prompt_;
    [ unfold bind at 1; cbn [emit ret];
      destruct Hgo as [Hno|Hyes]; [discriminate|];
      rewrite Hyes; cbn [negb]
    | cbn [ret negb] ].
  all: unfold bind, try_except, lift, ret, emit; rewrite Hlocked.
  all: cbn [Py.is_Exception printed fst snd negb].
  all: split; [reflexivity | apply last_snoc].
Qed.

(** C7. When unlocking the coldkey raises [KeyFileError], [unstake]
    prints the decryption error and returns [False] at the point where
    it would start executing, and neither [unstake] as a whole nor
    [register_subnetwork_extrinsic] composes a call or submits an
    extrinsic; a registration that reaches the unlocking step prints the
    same error and returns [False]. *)
Theorem locked_coldkey_aborts_command
    (ops : list UnstakeOp) (hotkeys : list Hotkey) (netuids : list Z)
    (wait_for_inclusion wait_for_finalization prompt_ : bool)
    (w : World) :
  (prompt args = false
   \/ Confirm_ask user "Would you like to continue?" = true ->
   unstake_execute wallet subtensor user args ops w
   = (Ok (Some false), printing decrypt_error w))
  /\ (let run := unstake wallet subtensor user args hotkeys netuids w in
      composed (snd run) = composed w /\ submitted (snd run) = submitted w)
  /\ (let run :=
        Subnets.register_subnetwork_extrinsic subtensor wallet user
          wait_for_inclusion wait_for_finalization prompt_ w in
      composed (snd run) = composed w
      /\ submitted (snd run) = submitted w
      /\ fst run <> Ok true)
  /\ (forall bals bal lc,
        get_balance subtensor (submitted w)
          (coldkeypub_ss58_address wallet) = Ok bals ->
        bals !! coldkeypub_ss58_address wallet = Some bal ->
        query_runtime_api subtensor "SubnetRegistrationRuntimeApi"
          "get_network_registration_cost" = Ok (Some lc) ->
        lc <> 0%Z ->
        Balance.gtb (Balance.from_rao lc) bal = false ->
        (prompt_ = false
         \/ Confirm_ask user
              ("Do you want to register a subnet for [green]"
               +:+ str_Balance (Balance.from_rao lc) +:+ "[/green]?")
            = true) ->
        let run :=
          Subnets.register_subnetwork_extrinsic subtensor wallet user
            wait_for_inclusion wait_for_finalization prompt_ w in
        fst run = Ok false
        /\ last (printed (snd run)) = Some decrypt_error).
Proof.
  split; [|split; [|split]].
  - intros Hgo. rewrite unstake_execute_locked.
    destruct Hgo as [-> | ->]; [reflexivity|].
    rewrite andb_false_r. reflexivity.
  - split.
    + apply (unstake_locked_preserves composed). auto with frame.
    + apply (unstake_locked_preserves submitted). auto with frame.
  - pose proof (register_locked wait_for_inclusion wait_for_finalization
                  prompt_ w) as Hreg.
    destruct (Subnets.register_subnetwork_extrinsic _ _ _ _ _ _ w)
      as [r w1].
    exact Hreg.
  - intros bals bal lc Hbals Hbal Hcost Hlc Hpay Hgo.
    pose proof (register_locked_returns_false wait_for_inclusion
                  wait_for_finalization prompt_ w bals bal lc
                  Hbals Hbal Hcost Hlc Hpay Hgo) as Hreg.
    destruct (Subnets.register_subnetwork_extrinsic _ _ _ _ _ _ w)
      as [r w1].
    exact Hreg.
Qed.

End Unlock.

Lemma locked_coldkey_aborts_command_witness :
  Proc.unlock_coldkey Demo.locked_wallet = Raise Py.KeyFileError
  /\ Remove.unstake_execute (H := Demo.externals) Demo.locked_wallet
       (Demo.chain (Ok Demo.response_ok)) Demo.user Demo.args
       [Demo.op_0; Demo.op_1] Demo.world0
     = (Ok (Some false), Proc.printing Proc.decrypt_error Demo.world0)
  /\ fst (Subnets.register_subnetwork_extrinsic (H := Demo.externals)
            (Demo.chain (Ok Demo.response_ok)) Demo.locked_wallet Demo.user
            true true true Demo.world0)
     = Ok false.
Proof.
  split; [reflexivity|]. split.
  - apply (locked_coldkey_aborts_command (H := Demo.externals)
             Demo.locked_wallet (Demo.chain (Ok Demo.response_ok)) Demo.user
             Demo.args eq_refl [Demo.op_0; Demo.op_1] [Demo.hotkey]
             [0; 1]%Z true true true Demo.world0).
    right. reflexivity.
  - apply (locked_coldkey_aborts_command (H := Demo.externals)
             Demo.locked_wallet (Demo.chain (Ok Demo.response_ok)) Demo.user
             Demo.args eq_refl [Demo.op_0; Demo.op_1] [Demo.hotkey]
             [0; 1]%Z true true true Demo.world0)
      with (bals := {["5Cold" := Demo.tao_ 100]}) (bal := Demo.tao_ 100)
           (lc := 1000000000%Z).
    + reflexivity.
    + reflexivity.
    + reflexivity.
    + discriminate.
    + reflexivity.
    + right. reflexivity.
Defined.


(** ** The order of the subnets table *)

Section SortedReverse.
Import Subnets.
Context {A : Type} (key : A -> string).

Lemma not_ltb_leb (s1 s2 : string) :
  String.ltb s1 s2 = false -> String.leb s2 s1 = true.
Proof.
  unfold String.ltb, String.leb.
  rewrite (String.compare_antisym s1 s2).
  destruct (String.compare s2 s1); cbn; congruence.
Qed.

Lemma ltb_leb (s1 s2 : string) :
  String.ltb s1 s2 = true -> String.leb s1 s2 = true.
Proof.
  unfold String.ltb, String.leb.
  destruct (String.compare s1 s2); congruence.
Qed.

Lemma insert_reverse_perm (x : A) (l : list A) :
  Permutation (x :: l) (insert_reverse key x l).
Proof.
  induction l as [|y l IH]; cbn.
  - reflexivity.
  - destruct (String.ltb (key x) (key y)).
    + rewrite perm_swap. apply perm_skip. exact IH.
    + reflexivity.
Qed.

Lemma insert_reverse_hd (x y : A) (l : list A) :
  key_desc key y x -> HdRel (key_desc key) y l ->
  HdRel (key_desc key) y (insert_reverse key x l).
Proof.
  intros Hyx Hl. destruct l as [|z l]; cbn.
  - constructor. exact Hyx.
  - destruct (String.ltb (key x) (key z)); constructor.
    + inversion Hl; assumption.
    + exact Hyx.
Qed.

Lemma insert_reverse_sorted (x : A) (l : list A) :
  Sorted (key_desc key) l -> Sorted (key_desc key) (insert_reverse key x l).
Proof.
  induction l as [|y l IH]; intros Hl; cbn.
  - repeat constructor.
  - inversion Hl as [|? ? Hsorted Hhd]; subst.
    destruct (String.ltb (key x) (key y)) eqn:E.
    + constructor; [apply IH; exact Hsorted|].
      apply insert_reverse_hd; [|exact Hhd].
      apply ltb_leb. exact E.
    + constructor; [exact Hl|].
      constructor. apply not_ltb_leb. exact E.
Qed.

Lemma sorted_reverse_perm (l : list A) :
  Permutation l (sorted_reverse key l).
Proof.
  induction l as [|x l IH]; cbn; [reflexivity|].
  rewrite <- insert_reverse_perm. apply perm_skip. exact IH.
Qed.

Lemma sorted_reverse_sorted (l : list A) :
  Sorted (key_desc key) (sorted_reverse key l).
Proof.
  induction l as [|x l IH]; cbn; [constructor|].
  apply insert_reverse_sorted. exact IH.
Qed.

End SortedReverse.

(** Without any subnet, [rows[0]] raises. *)
Example subnets_list_of_nothing :
  Subnets.subnets_list [] ∅ = Raise Py.IndexError.
Proof. reflexivity. Qed.

(** Equal keys keep their order, as with Python's stable sort. *)
Example sorted_reverse_is_stable :
  Subnets.sorted_reverse snd [(1, "b"); (2, "a"); (3, "b"); (4, "c")]
  = [(4, "c"); (1, "b"); (3, "b"); (2, "a")].
Proof. reflexivity. Qed.

(** C10. [subnets_list] keeps the row of the first fetched subnet first
    and puts the remaining rows in descending order of their emission
    strings, compared character by character and not as numbers: emissions
    of 9, 10 and 2.5 TAO are shown in the order 9, 2.5, 10. *)
Theorem first_row_fixed_rest_by_emission_text
    (global_weights : gmap Z Q) (first : DynamicInfo)
    (others : list DynamicInfo) :
  (exists tail : list Subnets.Row,
     Subnets.subnets_list (first :: others) global_weights
     = Ok (Subnets.row_of global_weights first :: tail)
     /\ Permutation (map (Subnets.row_of global_weights) others) tail
     /\ Sorted (Subnets.key_desc Subnets.emission_cell) tail)
  /\ (match Subnets.subnets_list Subnets.demo_subnets ∅ with
      | Py.Ok rows =>
          map (fun row => (Subnets.netuid_cell row, Subnets.emission_cell row))
            rows
      | Py.Raise _ => []
      end
      = [("0", Subnets.tau +:+ " 0.0000"); ("1", Subnets.tau +:+ " 9.0000");
         ("3", Subnets.tau +:+ " 2.5000"); ("2", Subnets.tau +:+ " 10.0000")]).
Proof.
  split.
  - exists (Subnets.sorted_reverse Subnets.emission_cell
              (map (Subnets.row_of global_weights) others)).
    split; [reflexivity|]. split.
    + apply sorted_reverse_perm.
    + apply sorted_reverse_sorted.
  - vm_compute. reflexivity.
Qed.


(** ** The JSON round trip *)

Module JsonFacts.
Import Json.
Local Open Scope N_scope.

(** *** Hexadecimal escapes *)

Lemma hex_value_digit (d : N) : d < 16 -> hex_value (hex_digit d) = Some d.
Proof.
  intros Hd.
  assert (Hcases : In d [0; 1; 2; 3; 4; 5; 6; 7; 8; 9; 10; 11; 12; 13; 14; 15]).
  { cbn. lia. }
  cbn in Hcases.
  repeat (destruct Hcases as [<- | Hcases]; [reflexivity|]).
  contradiction.
Qed.

Lemma nibbles (n : N) :
  n < 65536 ->
  (n / 16 / 16 / 16) mod 16 * 4096 + (n / 16 / 16) mod 16 * 256
  + (n / 16) mod 16 * 16 + n mod 16 = n.
Proof.
  intros Hn.
  pose proof (N.div_mod n 16 ltac:(lia)) as E0.
  pose proof (N.div_mod (n / 16) 16 ltac:(lia)) as E1.
  pose proof (N.div_mod (n / 16 / 16) 16 ltac:(lia)) as E2.
  pose proof (N.div_mod (n / 16 / 16 / 16) 16 ltac:(lia)) as E3.
  pose proof (N.mod_lt n 16 ltac:(lia)).
  pose proof (N.mod_lt (n / 16) 16 ltac:(lia)).
  pose proof (N.mod_lt (n / 16 / 16) 16 ltac:(lia)).
  pose proof (N.mod_lt (n / 16 / 16 / 16) 16 ltac:(lia)).
  set (q0 := n / 16) in *. set (m0 := n mod 16) in *.
  set (q1 := q0 / 16) in *. set (m1 := q0 mod 16) in *.
  set (q2 := q1 / 16) in *. set (m2 := q1 mod 16) in *.
  set (q3 := q2 / 16) in *. set (m3 := q2 mod 16) in *.
  clearbody q0 m0 q1 m1 q2 m2 q3 m3.
  lia.
Qed.

Lemma shiftr_4 (n : N) : N.shiftr n 4 = n / 16.
Proof. apply (N.shiftr_div_pow2 n 4). Qed.

Lemma shiftr_8 (n : N) : N.shiftr n 8 = n / 16 / 16.
Proof.
  rewrite (N.shiftr_div_pow2 n 8), N.Div0.div_div. reflexivity.
Qed.

Lemma shiftr_12 (n : N) : N.shiftr n 12 = n / 16 / 16 / 16.
Proof.
  rewrite (N.shiftr_div_pow2 n 12), !N.Div0.div_div. reflexivity.
Qed.

Lemma land_15 (n : N) : N.land n 15 = n mod 16.
Proof. apply (N.land_ones n 4). Qed.

(** The four digits that [u_escape] writes read back as the number. *)
Lemma decode_u_escape (n : N) :
  n < 65536 ->
  decode_uXXXX (hex_digit (N.land (N.shiftr n 12) 15))
    (hex_digit (N.land (N.shiftr n 8) 15))
    (hex_digit (N.land (N.shiftr n 4) 15))
    (hex_digit (N.land n 15))
  = Some n.
Proof.
  intros Hn. unfold decode_uXXXX.
  rewrite !land_15, shiftr_4, shiftr_8, shiftr_12.
  rewrite !hex_value_digit by (apply N.mod_lt; lia).
  f_equal. apply nibbles. exact Hn.
Qed.

(** *** Surrogate pairs *)

Lemma land_shiftl_low (a b k : N) : b < 2 ^ k -> N.land (N.shiftl a k) b = 0.
Proof.
  intros Hb. apply N.bits_inj. intros m.
  rewrite N.land_spec, N.bits_0.
  destruct (N.lt_ge_cases m k) as [Hlt|Hge].
  - rewrite N.shiftl_spec_low by exact Hlt. reflexivity.
  - rewrite <- (N.mod_small b (2 ^ k)) by exact Hb.
    rewrite N.mod_pow2_bits_high by exact Hge.
    apply andb_false_r.
Qed.

Lemma lor_shiftl_low (a b k : N) :
  b < 2 ^ k -> N.lor (N.shiftl a k) b = a * 2 ^ k + b.
Proof.
  intros Hb.
  rewrite <- N.lxor_lor, <- N.add_nocarry_lxor
    by (apply land_shiftl_low; exact Hb).
  rewrite N.shiftl_mul_pow2. reflexivity.
Qed.

Lemma surrogates (c : N) :
  65536 <= c < 1114112 ->
  let n := c - 65536 in
  let s1 := N.lor 55296 (N.land (N.shiftr n 10) 1023) in
  let s2 := N.lor 56320 (N.land n 1023) in
  (55296 <= s1 <= 56319)
  /\ (56320 <= s2 <= 57343)
  /\ 65536 + N.lor (N.shiftl (s1 - 55296) 10) (s2 - 56320) = c.
Proof.
  intros Hc n s1 s2.
  assert (Hn : n < 1048576) by (unfold n; lia).
  pose proof (N.div_mod n 1024 ltac:(lia)) as E.
  pose proof (N.mod_lt n 1024 ltac:(lia)) as Hlo.
  assert (Hhi : n / 1024 < 1024).
  { apply N.Div0.div_lt_upper_bound. exact Hn. }
  assert (Es1 : s1 = 55296 + n / 1024).
  { unfold s1.
    rewrite (N.land_ones _ 10), (N.shiftr_div_pow2 n 10).
    change (2 ^ 10) with 1024.
    rewrite (N.mod_small (n / 1024) 1024) by exact Hhi.
    change 55296 with (N.shiftl 54 10) at 1.
    rewrite lor_shiftl_low by exact Hhi. reflexivity. }
  assert (Es2 : s2 = 56320 + n mod 1024).
  { unfold s2.
    rewrite (N.land_ones _ 10). change (2 ^ 10) with 1024.
    change 56320 with (N.shiftl 55 10) at 1.
    rewrite lor_shiftl_low by exact Hlo. reflexivity. }
  rewrite Es1, Es2. clear Es1 Es2 s1 s2.
  set (q := n / 1024) in *. set (r := n mod 1024) in *.
  clearbody q r.
  replace (55296 + q - 55296) with q by lia.
  replace (56320 + r - 56320) with r by lia.
  rewrite lor_shiftl_low by exact Hlo.
  change (2 ^ 10) with 1024.
  unfold n in *. lia.
Qed.

(** *** Strings *)

Lemma scanstring_plain (c : N) (rest : str) :
  c <> 34 -> c <> 92 -> 32 <= c ->
  scanstring (c :: rest) = push c (scanstring rest).
Proof.
  intros H34 H92 H32. cbn [scanstring].
  rewrite (proj2 (N.eqb_neq c 34) H34), (proj2 (N.eqb_neq c 92) H92).
  rewrite (proj2 (N.ltb_ge c 32) H32). reflexivity.
Qed.

Lemma scanstring_u (a b c d uni : N) (rest : str) :
  decode_uXXXX a b c d = Some uni ->
  (55296 <=? uni) && (uni <=? 56319) = false ->
  scanstring (92 :: 117 :: a :: b :: c :: d :: rest)
  = push uni (scanstring rest).
Proof.
  intros Hdec Hhigh.
  cbn -[decode_uXXXX N.leb]. rewrite Hdec, Hhigh. reflexivity.
Qed.

Lemma scanstring_pair (a b c d e f g h hi lo : N) (rest : str) :
  decode_uXXXX a b c d = Some hi ->
  (55296 <=? hi) && (hi <=? 56319) = true ->
  decode_uXXXX e f g h = Some lo ->
  (56320 <=? lo) && (lo <=? 57343) = true ->
  scanstring (92 :: 117 :: a :: b :: c :: d
              :: 92 :: 117 :: e :: f :: g :: h :: rest)
  = push (65536 + N.lor (N.shiftl (hi - 55296) 10) (lo - 56320))
      (scanstring rest).
Proof.
  intros Hhi Hhigh Hlo Hlow.
  cbn -[decode_uXXXX N.leb N.lor N.shiftl N.add N.sub].
  rewrite Hhi, Hhigh, Hlo, Hlow. reflexivity.
Qed.

Lemma leb_and_true (lo x hi : N) :
  lo <= x <= hi -> (lo <=? x) && (x <=? hi) = true.
Proof.
  intros [H1 H2].
  rewrite (proj2 (N.leb_le lo x) H1), (proj2 (N.leb_le x hi) H2).
  reflexivity.
Qed.

Lemma leb_and_false (lo x hi : N) :
  x < lo \/ hi < x -> (lo <=? x) && (x <=? hi) = false.
Proof.
  intros [H1|H2].
  - rewrite (proj2 (N.leb_gt lo x) H1). reflexivity.
  - rewrite (proj2 (N.leb_gt x hi) H2). apply andb_false_r.
Qed.

(** The text written for one code point of a text reads back as that
    code point. *)
Lemma scanstring_escape_char (c : N) (rest : str) :
  scalar c ->
  scanstring (escape_char c ++ rest) = push c (scanstring rest).
Proof.
  intros Hc. unfold escape_char.
  destruct (N.eqb_spec c 34) as [->|H34]; [reflexivity|].
  destruct (N.eqb_spec c 92) as [->|H92]; [reflexivity|].
  destruct ((32 <=? c) && (c <=? 126)) eqn:Hprint.
  { apply andb_prop in Hprint as [H32 _]. apply N.leb_le in H32.
    apply scanstring_plain; assumption. }
  destruct (N.eqb_spec c 8) as [->|H8]; [reflexivity|].
  destruct (N.eqb_spec c 12) as [->|H12]; [reflexivity|].
  destruct (N.eqb_spec c 10) as [->|H10]; [reflexivity|].
  destruct (N.eqb_spec c 13) as [->|H13]; [reflexivity|].
  destruct (N.eqb_spec c 9) as [->|H9]; [reflexivity|].
  destruct (N.ltb_spec c 65536) as [Hbmp|Hastral].
  - unfold u_escape. cbn [app].
    apply scanstring_u.
    + apply decode_u_escape. exact Hbmp.
    + apply leb_and_false. unfold scalar in Hc. lia.
  - assert (Hrange : 65536 <= c < 1114112) by (unfold scalar in Hc; lia).
    destruct (surrogates c Hrange) as (Hs1 & Hs2 & Hback).
    cbv zeta in Hs1, Hs2, Hback.
    set (s1 := N.lor 55296 (N.land (N.shiftr (c - 65536) 10) 1023)) in *.
    set (s2 := N.lor 56320 (N.land (c - 65536) 1023)) in *.
    unfold u_escape. cbn [app].
    rewrite (scanstring_pair _ _ _ _ _ _ _ _ s1 s2).
    + rewrite Hback. reflexivity.
    + apply decode_u_escape. lia.
    + apply leb_and_true. exact Hs1.
    + apply decode_u_escape. lia.
    + apply leb_and_true. exact Hs2.
Qed.

Lemma scanstring_flat_map (s rest : str) :
  Forall scalar s ->
  scanstring (flat_map escape_char s ++ 34 :: rest) = Ok (s, rest).
Proof.
  induction 1 as [|c s Hc Hs IH]; [reflexivity|].
  cbn [flat_map]. rewrite <- app_assoc.
  rewrite scanstring_escape_char by exact Hc.
  rewrite IH. reflexivity.
Qed.

(** *** Values *)

Local Close Scope N_scope.

Lemma value_ind' (P : value -> Prop) :
  (forall s, P (Str s)) ->
  (forall items, Forall P items -> P (Arr items)) ->
  forall v, P v.
Proof.
  intros HStr HArr. fix IH 1. intros [s|items].
  - apply HStr.
  - apply HArr. induction items as [|x items IHitems]; constructor.
    + apply IH.
    + exact IHitems.
Qed.

Lemma scan_once_str (fuel : nat) (s : str) :
  scan_once (S fuel) (34%N :: s)
  = match scanstring s with
    | Py.Ok (content, rest) => Ok (Str content, rest)
    | Py.Raise e => Raise e
    end.
Proof. reflexivity. Qed.

Lemma scan_once_arr (fuel : nat) (s : str) :
  scan_once (S fuel) (91%N :: s)
  = match skip_ws s with
    | [] => Raise Py.JSONDecodeError
    | c :: rest =>
        if (c =? 93)%N then Ok (Arr [], rest)
        else
          match array_items fuel (c :: rest) with
          | Py.Ok (items, rest') => Ok (Arr items, rest')
          | Py.Raise e => Raise e
          end
    end.
Proof. reflexivity. Qed.

Lemma array_items_S (fuel : nat) (s : str) :
  array_items (S fuel) s
  = match scan_once fuel s with
    | Py.Raise e => Raise e
    | Py.Ok (item, rest) =>
        match skip_ws rest with
        | [] => Raise Py.JSONDecodeError
        | c :: rest' =>
            if (c =? 93)%N then Ok ([item], rest')
            else if (c =? 44)%N then
              match array_items fuel (skip_ws rest') with
              | Py.Ok (items, rest'') => Ok (item :: items, rest'')
              | Py.Raise e => Raise e
              end
            else Raise Py.JSONDecodeError
        end
    end.
Proof. reflexivity. Qed.

(** [dumps] starts with a quote or an opening bracket. *)
Lemma dumps_head (v : value) :
  exists c tl, dumps v = c :: tl /\ (c = 34%N \/ c = 91%N).
Proof. destruct v; cbn; eauto. Qed.

Lemma skip_ws_head (c : N) (tl : str) :
  c = 34%N \/ c = 91%N \/ c = 93%N \/ c = 44%N ->
  skip_ws (c :: tl) = c :: tl.
Proof. intros [-> | [-> | [-> | ->]]]; reflexivity. Qed.

Lemma skip_ws_dumps (v : value) (rest : str) :
  skip_ws (dumps v ++ rest) = dumps v ++ rest.
Proof.
  destruct (dumps_head v) as (c & tl & -> & Hc). cbn [app].
  apply skip_ws_head. tauto.
Qed.

Lemma join_cons2 (a b : str) (l : list str) :
  join (a :: b :: l) = a ++ [44%N; 32%N] ++ join (b :: l).
Proof. reflexivity. Qed.

Lemma join_head (v : value) (items : list value) :
  exists c tl,
    join (map dumps (v :: items)) = c :: tl /\ (c = 34%N \/ c = 91%N).
Proof.
  destruct (dumps_head v) as (c & tl & Hv & Hc).
  destruct items as [|y items].
  - cbn. eauto.
  - cbn [map]. rewrite join_cons2, Hv. cbn [app]. eauto.
Qed.

Lemma array_items_reads_back (items : list value) :
  Forall reads_back items -> items <> [] ->
  forall fuel rest,
    list_sum (map nodes items) + length items <= fuel ->
    array_items fuel (join (map dumps items) ++ 93%N :: rest)
    = Ok (items, rest).
Proof.
  induction 1 as [|x items Hx Hitems IH]; [congruence|].
  intros _ fuel rest Hfuel.
  destruct fuel as [|fuel]; [cbn in Hfuel; lia|].
  cbn in Hfuel.
  rewrite array_items_S.
  destruct items as [|y items].
  - cbn [map join].
    rewrite Hx by lia.
    reflexivity.
  - cbn [map]. rewrite join_cons2, <- !app_assoc.
    rewrite Hx by lia.
    cbn [app]. rewrite skip_ws_head by tauto.
    cbn [N.eqb Pos.eqb].
    assert (Hskip : forall tl, skip_ws (32%N :: tl) = skip_ws tl)
      by reflexivity.
    rewrite Hskip.
    destruct (join_head y items) as (c & tl & Hj & Hc).
    cbn [map] in IH, Hj.
    rewrite Hj. cbn [app]. rewrite skip_ws_head by tauto.
    change (c :: tl ++ 93%N :: rest) with ((c :: tl) ++ 93%N :: rest).
    rewrite <- Hj.
    rewrite IH; [reflexivity | congruence |].
    destruct x; cbn in Hfuel |- *; lia.
Qed.

Lemma text_reads_back (v : value) : text v -> reads_back v.
Proof.
  induction v as [s|items IH] using value_ind'; intros Htext.
  - inversion Htext as [? Hs|]; subst.
    intros fuel rest Hfuel.
    destruct fuel as [|fuel]; [cbn in Hfuel; lia|].
    cbn [dumps]. unfold encode_basestring_ascii.
    cbn [app]. rewrite scan_once_str, <- app_assoc.
    cbn [app]. rewrite scanstring_flat_map by exact Hs. reflexivity.
  - inversion Htext as [|? Hitems]; subst.
    assert (Hread : Forall reads_back items).
    { clear Htext. induction IH as [|x items Hx _ IHitems].
      - constructor.
      - inversion Hitems; subst. constructor; auto. }
    intros fuel rest Hfuel.
    destruct fuel as [|fuel]; [cbn in Hfuel; lia|].
    cbn [dumps nodes] in *. cbn [app].
    rewrite scan_once_arr, <- app_assoc. cbn [app].
    destruct items as [|x items].
    + reflexivity.
    + destruct (join_head x items) as (c & tl & Hj & Hc).
      rewrite Hj. cbn [app]. rewrite skip_ws_head by tauto.
      replace (c =? 93)%N with false by (destruct Hc; subst; reflexivity).
      change (c :: tl ++ 93%N :: rest) with ((c :: tl) ++ 93%N :: rest).
      rewrite <- Hj.
      rewrite array_items_reads_back;
        [reflexivity | exact Hread | congruence | lia].
Qed.

Lemma length_join (x : value) (items : list value) :
  length (join (map dumps (x :: items)))
  = length (dumps x)
    + match items with
      | [] => 0
      | y :: items' => 2 + length (join (map dumps (y :: items')))
      end.
Proof.
  destruct items as [|y items].
  - cbn. lia.
  - cbn [map]. rewrite join_cons2, !length_app. reflexivity.
Qed.

(** The text of a value is longer than the fuel it needs. *)
Lemma nodes_le_length (v : value) : nodes v < length (dumps v).
Proof.
  induction v as [s|items IH] using value_ind'.
  - cbn. rewrite length_app. cbn. lia.
  - cbn [dumps nodes]. cbn [length]. rewrite length_app. cbn [length].
    assert (Hsum :
              list_sum (map nodes items) + length items
              <= length (join (map dumps items))).
    { induction IH as [|x items Hx _ IHitems]; [cbn; lia|].
      rewrite length_join.
      change (list_sum (map nodes (x :: items)))
        with (nodes x + list_sum (map nodes items)).
      change (length (x :: items)) with (S (length items)).
      destruct items as [|y items]; [cbn; lia|].
      lia. }
    lia.
Qed.

(** [json.loads(json.dumps(v))] is [v] for a value made of text. *)
Lemma loads_dumps (v : value) : text v -> loads (dumps v) = Ok v.
Proof.
  intros Htext. unfold loads.
  rewrite <- (app_nil_r (dumps v)) at 2.
  rewrite skip_ws_dumps.
  rewrite (text_reads_back v Htext).
  - reflexivity.
  - pose proof (nodes_le_length v). lia.
Qed.

Lemma text_of_rows (rows : list (list str)) :
  text_rows rows -> text (of_rows rows).
Proof.
  intros Hrows. unfold of_rows. constructor.
  induction Hrows as [|row rows Hrow _ IH]; cbn; constructor; [|exact IH].
  constructor.
  induction Hrow as [|cell row Hcell _ IHrow]; cbn; constructor; auto.
  constructor. exact Hcell.
Qed.

Lemma to_rows_of_rows (rows : list (list str)) :
  to_rows (of_rows rows) = Some rows.
Proof.
  unfold of_rows, to_rows.
  induction rows as [|row rows IH]; [reflexivity|].
  cbn [map all_some]. 
  assert (Hrow : row_of (Arr (map Str row)) = Some row).
  { unfold row_of. induction row as [|cell row IHrow]; [reflexivity|].
    cbn [map all_some cell_of]. rewrite IHrow. reflexivity. }
  rewrite Hrow, IH. reflexivity.
Qed.

End JsonFacts.

(** The letter e with an acute accent is written as a [\u00e9] escape
    between quotes; an emoji as a surrogate pair. *)
Example dumps_of_non_ascii :
  Json.dumps (Json.Str [233%N])
  = [34; 92; 117; 48; 48; 101; 57; 34]%N
  /\ Json.dumps (Json.Str [128512%N])
     = [34; 92; 117; 100; 56; 51; 100; 92; 117; 100; 101; 48; 48; 34]%N.
Proof. split; reflexivity. Qed.

(** Two adjacent surrogates are one code point after the round trip, which
    is why the rows are required to be text. *)
Example surrogate_pair_is_merged :
  Json.loads (Json.dumps (Json.Str [55296; 56320]%N))
  = Ok (Json.Str [65536%N]).
Proof. vm_compute. reflexivity. Qed.




(** * Further properties *)

(** ** The stake table and the totals of [unstake] *)

Section StakeLookup.
Import Proc Remove.

Lemma foldl_snoc {A B} (f : A -> B -> A) (a : A) (l : list B) (x : B) :
  foldl f a (l ++ [x]) = f (foldl f a l) x.
Proof. revert a. induction l; intros; cbn; auto. Qed.

Lemma build_stake_in_netuids_snoc l x :
  build_stake_in_netuids (l ++ [x])
  = <[StakeInfo.hotkey_ss58 x :=
        <[StakeInfo.netuid x := StakeInfo.stake x]>
          (default ∅ (build_stake_in_netuids l !! StakeInfo.hotkey_ss58 x))]>
      (build_stake_in_netuids l).
Proof. unfold build_stake_in_netuids. rewrite foldl_snoc. reflexivity. Qed.

Lemma stake_of_build l hotkey netuid :
  Ledger.stake_of (build_stake_in_netuids l) hotkey netuid
  = StakeInfo.stake <$> last (List.filter (Ledger.entry_for hotkey netuid) l).
Proof.
  induction l as [|x l IH] using rev_ind; [reflexivity|].
  rewrite build_stake_in_netuids_snoc, List.filter_app.
  cbn [List.filter]. unfold Ledger.stake_of in *.
  unfold Ledger.entry_for at 2.
  destruct (String.eqb_spec (StakeInfo.hotkey_ss58 x) hotkey) as [Hh|Hh].
  - subst hotkey. rewrite lookup_insert_eq.
    destruct (Z.eqb_spec (StakeInfo.netuid x) netuid) as [Hn|Hn]; cbn [andb].
    + subst netuid. rewrite lookup_insert_eq, last_snoc. reflexivity.
    + rewrite lookup_insert_ne by exact Hn. rewrite app_nil_r, <- IH.
      destruct (build_stake_in_netuids l !! StakeInfo.hotkey_ss58 x);
        reflexivity.
  - rewrite lookup_insert_ne by exact Hh. cbn [andb].
    rewrite app_nil_r. exact IH.
Qed.

Lemma hotkey_of_build l hotkey :
  build_stake_in_netuids l !! hotkey = None
  <-> Forall (fun s => StakeInfo.hotkey_ss58 s <> hotkey) l.
Proof.
  induction l as [|x l IH] using rev_ind.
  - split; [constructor | reflexivity].
  - rewrite build_stake_in_netuids_snoc, Forall_app.
    destruct (String.eqb_spec (StakeInfo.hotkey_ss58 x) hotkey) as [Hh|Hh].
    + subst. rewrite lookup_insert_eq. split; [discriminate|].
      intros [_ Hx]. inversion Hx; subst. contradiction.
    + rewrite lookup_insert_ne by exact Hh. rewrite IH.
      split; [intros; split; auto | intros [? _]; auto].
Qed.

End StakeLookup.

(** X1. The table [stake_in_netuids] that [unstake] builds from the
    answer of the chain holds, for a hotkey and a netuid, the stake of the
    last entry of the answer for that pair, and nothing when there is no
    such entry; a hotkey is missing from the table exactly when the answer
    has no entry for it. *)
Theorem stake_table_holds_last_entry
    (stake_info_list : list StakeInfo) (hotkey : string) (netuid : Z) :
  Ledger.stake_of (Remove.build_stake_in_netuids stake_info_list)
    hotkey netuid
  = StakeInfo.stake
    <$> last (List.filter (Ledger.entry_for hotkey netuid) stake_info_list)
  /\ (Remove.build_stake_in_netuids stake_info_list !! hotkey = None
      <-> Forall (fun s => StakeInfo.hotkey_ss58 s <> hotkey)
            stake_info_list).
Proof. split; [apply stake_of_build | apply hotkey_of_build]. Qed.

Section Totals.
Import Proc Remove.
Context `{Externals}.
Variables (user : User) (args : Args).
Variables (all_sn_dynamic_info : gmap Z DynamicInfo)
          (stake_in_netuids : gmap string (gmap Z Balance)).

(** The three ways in which one iteration ends without an exception:
    [continue], [break], or an appended operation. *)
Lemma collect_netuid_cases hotkey netuid st w st' w' :
  collect_netuid user args all_sn_dynamic_info stake_in_netuids hotkey
    netuid st w = (Ok st', w') ->
  st' = st \/ st' = set_skip st
  \/ exists op, st' = Ledger.appended st op /\ Ledger.calculated op.
Proof.
  unfold collect_netuid, bind, emit, ret, raise.
  intros Hrun.
  destruct (stake_in_netuids !! staking_address_ss58 hotkey) as [stakes|];
    [|injection Hrun as <- _; left; reflexivity].
  destruct (stakes !! netuid) as [current|];
    [|injection Hrun as <- _; left; reflexivity].
  destruct (Qeq_bool (Balance.tao current) 0);
    [injection Hrun as <- _; left; reflexivity|].
  destruct (requested_amount user args hotkey netuid current) as [a|];
    [|injection Hrun as <- _; right; left; reflexivity].
  destruct (Balance.gtb (Balance.set_unit netuid a) current) eqn:Hgt;
    [injection Hrun as <- _; left; reflexivity|].
  destruct (all_sn_dynamic_info !! netuid) as [info|] eqn:Hinfo;
    [|discriminate].
  destruct (_calculate_slippage info (Balance.set_unit netuid a))
    as [[received pct] pctf] eqn:Hcalc.
  injection Hrun as <- _. right. right.
  eexists (Build_UnstakeOp _ _ _ _ _ _ _ _ _ _). split.
  - reflexivity.
  - exact Hcalc.
Qed.

Section StateInvariant.
Variable good : Collected -> Prop.
Hypothesis good_skip : forall st, good st -> good (set_skip st).
Hypothesis good_appended :
  forall st op, good st -> Ledger.calculated op ->
                good (Ledger.appended st op).

Lemma collect_netuid_keeps hotkey netuid st w st' w' :
  good st ->
  collect_netuid user args all_sn_dynamic_info stake_in_netuids hotkey
    netuid st w = (Ok st', w') ->
  good st'.
Proof.
  intros Hst Hrun.
  destruct (collect_netuid_cases _ _ _ _ _ _ Hrun)
    as [-> | [-> | (op & -> & Hop)]]; auto.
Qed.

Lemma collect_netuids_keeps hotkey netuids :
  forall st w st' w',
    good st ->
    collect_netuids user args all_sn_dynamic_info stake_in_netuids hotkey
      netuids st w = (Ok st', w') ->
    good st'.
Proof.
  induction netuids as [|netuid rest IH]; intros st w st' w' Hst Hrun.
  - injection Hrun as <- _. exact Hst.
  - cbn [collect_netuids] in Hrun.
    destruct (skip_remaining_subnets st).
    + injection Hrun as <- _. exact Hst.
    + unfold bind in Hrun.
      destruct (collect_netuid _ _ _ _ hotkey netuid st w)
        as [[st1|e] w1] eqn:E; [|discriminate].
      eapply IH; [|exact Hrun].
      eapply collect_netuid_keeps; eassumption.
Qed.

Lemma collect_hotkeys_keeps netuids hotkeys :
  forall st w st' w',
    good st ->
    collect_hotkeys user args all_sn_dynamic_info stake_in_netuids
      netuids hotkeys st w = (Ok st', w') ->
    good st'.
Proof.
  induction hotkeys as [|hotkey rest IH]; intros st w st' w' Hst Hrun.
  - injection Hrun as <- _. exact Hst.
  - cbn [collect_hotkeys] in Hrun.
    destruct (skip_remaining_subnets st).
    + injection Hrun as <- _. exact Hst.
    + unfold bind in Hrun.
      destruct (collect_netuids _ _ _ _ hotkey _ st w)
        as [[st1|e] w1] eqn:E; [|discriminate].
      eapply IH; [|exact Hrun].
      eapply collect_netuids_keeps; eassumption.
Qed.

End StateInvariant.

Lemma sum_received_snoc ops op :
  (Ledger.sum_received (ops ++ [op])
   == Ledger.sum_received ops + received_amount op)%Q.
Proof.
  induction ops as [|o ops IH]; cbn.
  - ring.
  - unfold Ledger.sum_received in IH. rewrite IH. ring.
Qed.

Lemma max_left (x y : Q) : (x <= Py.max x y)%Q.
Proof.
  unfold Py.max, Py.gt.
  destruct (Qle_bool y x) eqn:E; cbn.
  - apply Qle_refl.
  - apply Qlt_le_weak, Qnot_le_lt. intros Hle.
    apply Qle_bool_iff in Hle. congruence.
Qed.

Lemma max_right (x y : Q) : (y <= Py.max x y)%Q.
Proof.
  unfold Py.max, Py.gt.
  destruct (Qle_bool y x) eqn:E; cbn.
  - apply Qle_bool_iff. exact E.
  - apply Qle_refl.
Qed.

Lemma balanced_appended st op :
  Ledger.balanced st -> Ledger.calculated op ->
  Ledger.balanced (Ledger.appended st op).
Proof.
  intros (Htotal & Hpos & Hmax & Hcalc) Hop.
  unfold Ledger.balanced, Ledger.appended. cbn.
  split; [|split; [|split]].
  - rewrite sum_received_snoc, Htotal. reflexivity.
  - eapply Qle_trans; [exact Hpos | apply max_left].
  - apply Forall_app. split.
    + eapply List.Forall_impl; [|exact Hmax].
      intros o Ho. eapply Qle_trans; [exact Ho | apply max_left].
    + constructor; [apply max_right | constructor].
  - apply Forall_app. split; [exact Hcalc|]. constructor; [exact Hop|constructor].
Qed.

(** X2. The totals that [unstake] shows with its table agree with the
    operations it queued, whatever was skipped on the way: the total
    received amount is the sum of the received amounts of the queued
    operations, the maximal slippage is non-negative and no queued
    operation has a larger one, and every operation carries the amounts
    that [_calculate_slippage] gave for its subnet and amount. *)
Theorem collected_totals_match_operations
    (netuids : list Z) (hotkeys : list Hotkey) (w w' : World)
    (st' : Collected) :
  collect_hotkeys user args all_sn_dynamic_info stake_in_netuids netuids
    hotkeys Collected_init w = (Ok st', w') ->
  Ledger.balanced st'.
Proof.
  intros Hrun.
  eapply (collect_hotkeys_keeps Ledger.balanced) with (st := Collected_init);
    [ | | | exact Hrun].
  - intros st Hst. exact Hst.
  - apply balanced_appended.
  - unfold Ledger.balanced. cbn.
    split; [reflexivity|]. split; [apply Qle_refl|]. split; constructor.
Qed.

End Totals.

Lemma collected_totals_match_operations_witness :
  Ledger.balanced Demo.collected.
Proof.
  apply (collected_totals_match_operations (H := Demo.externals) Demo.user
           Demo.args Demo.infos Demo.stake_in_netuids [0; 1; 2; 3]%Z
           [Demo.hotkey] Demo.world0
           (snd (Remove.collect_hotkeys (H := Demo.externals) Demo.user
                   Demo.args Demo.infos Demo.stake_in_netuids
                   [0; 1; 2; 3]%Z [Demo.hotkey] Remove.Collected_init
                   Demo.world0))).
  vm_compute. reflexivity.
Defined.


(** ** The execution phase: one attempt per operation *)

Module Growth.
Import Proc.

Lemma grows_weaken {A} (c s c' s' : nat) (m : M A) :
  Ledger.grows_by c s m -> (c <= c')%nat -> (s <= s')%nat ->
  Ledger.grows_by c' s' m.
Proof.
  intros Hm Hc Hs w. destruct (Hm w) as (cs & xs & H1 & H2 & H3 & H4).
  exists cs, xs. repeat split; auto; lia.
Qed.

Lemma grows_ret {A} (a : A) : Ledger.grows_by 0 0 (ret a).
Proof. intros w. exists [], []. cbn. rewrite !app_nil_r. auto. Qed.

Lemma grows_raise {A} (e : Py.exn) : Ledger.grows_by 0 0 (@raise A e).
Proof. intros w. exists [], []. cbn. rewrite !app_nil_r. auto. Qed.

Lemma grows_lift {A} (r : result A) : Ledger.grows_by 0 0 (lift r).
Proof. intros w. exists [], []. cbn. rewrite !app_nil_r. auto. Qed.

Lemma grows_history : Ledger.grows_by 0 0 history.
Proof. intros w. exists [], []. cbn. rewrite !app_nil_r. auto. Qed.

Lemma grows_emit (o : output) : Ledger.grows_by 0 0 (emit o).
Proof. intros w. exists [], []. cbn. rewrite !app_nil_r. auto. Qed.

Lemma grows_compose s c : Ledger.grows_by 1 0 (compose s c).
Proof. intros w. exists [c], []. cbn. rewrite !app_nil_r. auto. Qed.

Lemma grows_submit s x : Ledger.grows_by 0 1 (submit s x).
Proof. intros w. exists [], [x]. cbn. rewrite !app_nil_r. auto. Qed.

Lemma grows_bind {A B} (c1 s1 c2 s2 : nat) (m : M A) (k : A -> M B) :
  Ledger.grows_by c1 s1 m -> (forall a, Ledger.grows_by c2 s2 (k a)) ->
  Ledger.grows_by (c1 + c2) (s1 + s2) (bind m k).
Proof.
  intros Hm Hk w. unfold bind.
  destruct (Hm w) as (cs & xs & H1 & H2 & H3 & H4).
  destruct (m w) as [[a|e] w1]; cbn in *.
  - destruct (Hk a w1) as (cs' & xs' & H1' & H2' & H3' & H4').
    exists (cs ++ cs'), (xs ++ xs').
    rewrite H1', H2', H1, H2, <- !app_assoc, !length_app.
    repeat split; auto; lia.
  - exists cs, xs. repeat split; auto; lia.
Qed.

Lemma grows_try_except {A} (c s : nat) (body : M A) matches handler :
  Ledger.grows_by c s body ->
  (forall e, Ledger.grows_by 0 0 (handler e)) ->
  Ledger.grows_by c s (try_except body matches handler).
Proof.
  intros Hb Hh w. unfold try_except.
  destruct (Hb w) as (cs & xs & H1 & H2 & H3 & H4).
  destruct (body w) as [[a|e] w1]; cbn in *.
  - exists cs, xs. auto.
  - destruct (matches e); cbn.
    + destruct (Hh e w1) as (cs' & xs' & H1' & H2' & H3' & H4').
      destruct cs'; [|cbn in H3'; lia]. destruct xs'; [|cbn in H4'; lia].
      rewrite app_nil_r in H1', H2'.
      exists cs, xs. rewrite H1', H2'. auto.
    + exists cs, xs. auto.
Qed.

Lemma grows_bind_0 {A B} (m : M A) (k : A -> M B) :
  Ledger.grows_by 0 0 m -> (forall a, Ledger.grows_by 0 0 (k a)) ->
  Ledger.grows_by 0 0 (bind m k).
Proof. apply (grows_bind 0 0 0 0). Qed.

Lemma grows_bind_after {A B} (c s : nat) (m : M A) (k : A -> M B) :
  Ledger.grows_by 0 0 m -> (forall a, Ledger.grows_by c s (k a)) ->
  Ledger.grows_by c s (bind m k).
Proof. apply (grows_bind 0 0 c s). Qed.

Lemma grows_bind_before {A B} (c s : nat) (m : M A) (k : A -> M B) :
  Ledger.grows_by c s m -> (forall a, Ledger.grows_by 0 0 (k a)) ->
  Ledger.grows_by c s (bind m k).
Proof.
  intros Hm Hk. eapply grows_weaken; [apply (grows_bind c s 0 0)|..]; auto; lia.
Qed.

End Growth.

Create HintDb grows discriminated.
#[export] Hint Resolve Growth.grows_ret Growth.grows_raise Growth.grows_lift
  Growth.grows_history Growth.grows_emit : grows.

(** Settle a goal about a computation that neither composes nor
    submits. *)
Ltac still :=
  repeat first
    [ match goal with |- forall _, _ => intro end
    | apply Growth.grows_bind_0
    | apply Growth.grows_try_except
    | solve [auto with grows]
    | match goal with
      | |- Ledger.grows_by 0 0 (if ?b then _ else _) => destruct b
      | |- Ledger.grows_by 0 0 (match ?x with _ => _ end) => destruct x
      end ].

Section OneAttempt.
Import Proc Remove.
Context `{Externals}.
Variables (wallet : Wallet) (subtensor : SubtensorInterface).

Lemma report_finalized_still netuid hk :
  Ledger.grows_by 0 0 (report_finalized wallet subtensor netuid hk).
Proof. unfold report_finalized. still. Qed.

Lemma _unstake_extrinsic_grows netuid amount current hk :
  Ledger.grows_by 1 1
    (_unstake_extrinsic wallet subtensor netuid amount current hk).
Proof.
  unfold _unstake_extrinsic.
  do 3 (apply Growth.grows_bind_after; [solve [still] | intros]).
  apply (Growth.grows_bind 1 0 0 1); [apply Growth.grows_compose | intros].
  apply Growth.grows_bind_after; [solve [still] | intros].
  apply Growth.grows_try_except; [|still].
  apply Growth.grows_bind_before; [apply Growth.grows_submit | intros].
  pose proof report_finalized_still. still.
Qed.

Lemma _safe_unstake_extrinsic_grows netuid amount current hk p partial :
  Ledger.grows_by 1 1
    (_safe_unstake_extrinsic wallet subtensor netuid amount current hk p
       partial).
Proof.
  unfold _safe_unstake_extrinsic.
  do 6 (apply Growth.grows_bind_after; [solve [still] | intros]).
  apply (Growth.grows_bind 1 0 0 1); [apply Growth.grows_compose | intros].
  apply Growth.grows_bind_after; [solve [still] | intros].
  apply Growth.grows_bind_before.
  - apply Growth.grows_try_except; [|still].
    apply Growth.grows_bind_before; [apply Growth.grows_submit | still].
  - pose proof report_finalized_still. still.
Qed.

Lemma for_each_grows (f : UnstakeOp -> M unit) ops :
  (forall op, Ledger.grows_by 1 1 (f op)) ->
  Ledger.grows_by (length ops) (length ops) (for_each f ops).
Proof.
  intros Hf. induction ops as [|op rest IH]; cbn [for_each length].
  - apply Growth.grows_ret.
  - apply (Growth.grows_bind 1 1 (length rest) (length rest)); auto.
Qed.

Variables (user : User) (args : Args).

(** X3. The execution phase of [unstake] never retries and never sends
    anything besides the queued operations: whatever the chain answers
    and wherever the run ends, it hands at most one call to
    [compose_call] and at most one extrinsic to [submit_extrinsic] per
    queued operation, in plain and in safe-staking mode. *)
Theorem execution_attempts_each_operation_once
    (unstake_operations : list UnstakeOp) :
  Ledger.grows_by (length unstake_operations) (length unstake_operations)
    (unstake_execute wallet subtensor user args unstake_operations).
Proof.
  unfold unstake_execute.
  do 2 (apply Growth.grows_bind_after; [solve [still] | intros]).
  destruct (negb _);
    [eapply Growth.grows_weaken; [apply Growth.grows_ret | lia | lia]|].
  apply Growth.grows_bind_after; [solve [still] | intros].
  apply Growth.grows_bind_before; [|still].
  destruct (safe_staking args); apply for_each_grows; intros op.
  - unfold perform_safe. destruct (op_netuid op =? 0)%Z.
    + apply _unstake_extrinsic_grows.
    + destruct (price_with_tolerance op).
      * apply _safe_unstake_extrinsic_grows.
      * eapply Growth.grows_weaken; [apply Growth.grows_raise|lia|lia].
  - apply _unstake_extrinsic_grows.
Qed.

End OneAttempt.


Section PlainMode.
Import Proc Remove.
Context `{Externals}.
Variables (wallet : Wallet) (subtensor : SubtensorInterface).
Hypothesis Hsigns : Ledger.signs subtensor.
Hypothesis Hcatch : Ledger.no_interrupt subtensor.

(** The run ended here, with one call, the extrinsic [x] and a last
    line that is a report. *)
Ltac ended x :=
  cbn; eexists _, x, _;
  split; [reflexivity|]; cbn;
  split; [reflexivity|]; split; [reflexivity|];
  split; [apply last_snoc | reflexivity].

(** The standard helper, when the chain client signs and nothing but an
    [Exception] is raised: one call, one extrinsic, a report as the last
    line, and a normal return. *)
Lemma _unstake_extrinsic_run netuid amount current hk w :
  exists w' x o,
    _unstake_extrinsic wallet subtensor netuid amount current hk w
    = (Ok tt, w')
    /\ composed w' = composed w ++ [remove_stake_call hk netuid amount]
    /\ submitted w' = submitted w ++ [x]
    /\ last (printed w') = Some o /\ Ledger.is_report o = true.
Proof.
  destruct Hsigns as (Hbal & Hcall & Hsign).
  destruct Hcatch as (Cbal & Cstake & Chead & Csubmit).
  destruct (Hbal (submitted w) (coldkeypub_ss58_address wallet)) as [bal Ebal].
  destruct (Hcall (remove_stake_call hk netuid amount)) as [call Ecall].
  destruct (Hsign call (coldkey wallet) None) as [x Ex].
  unfold _unstake_extrinsic.
  unfold bind at 1. cbn [emit].
  unfold bind at 1. cbn [history submitted].
  unfold bind at 1, lift at 1. rewrite Ebal.
  unfold bind at 1, compose at 1. rewrite Ecall.
  unfold bind at 1, lift at 1. rewrite Ex.
  unfold try_except, bind at 1, submit at 1. cbn [submitted printed composed].
  specialize (Csubmit (submitted w) x).
  destruct (submit_extrinsic subtensor (submitted w) x) as [response|e].
  2:{ rewrite Csubmit. ended x. }
  destruct Csubmit as (Cp & Cs & Ce).
  unfold bind at 1, lift at 1.
  destruct (process_events response) as [[]|e].
  2:{ cbn in Cp. rewrite Cp. ended x. }
  unfold bind at 1, lift at 1.
  destruct (is_success response) as [ok|e].
  2:{ cbn in Cs. rewrite Cs. ended x. }
  destruct ok; cbn [negb].
  - unfold report_finalized.
    unfold bind at 1. unfold bind at 1. cbn [history submitted].
    specialize (Chead (submitted w ++ [x])).
    specialize (Cbal (submitted w ++ [x]) (coldkeypub_ss58_address wallet)).
    specialize (Cstake (submitted w ++ [x]) hk
                  (coldkeypub_ss58_address wallet) netuid).
    unfold bind at 1, lift at 1.
    destruct (get_chain_head subtensor (submitted w ++ [x])) as [hd|e].
    2:{ cbn in Chead. rewrite Chead. ended x. }
    unfold bind at 1, lift at 1.
    destruct (get_balance subtensor (submitted w ++ [x]) _) as [nb|e].
    2:{ cbn in Cbal. rewrite Cbal. ended x. }
    unfold bind at 1, lift at 1.
    destruct (get_stake subtensor (submitted w ++ [x]) _ _ _) as [ns|e].
    2:{ cbn in Cstake. rewrite Cstake. ended x. }
    ended x.
  - unfold bind at 1, lift at 1.
    destruct (error_message response) as [msg|e].
    2:{ cbn in Ce. rewrite Ce. ended x. }
    ended x.
Qed.

(** X4. In plain mode a failed operation does not stop the batch: when
    the chain client answers the balance query, composes and signs, and
    nothing but an [Exception] is raised by the submission or the queries
    that follow it, the loop over the queued operations returns normally,
    has composed [remove_stake] for every operation in order, and has
    submitted one extrinsic for each of them, failures included. *)
Theorem plain_mode_attempts_every_operation
    (unstake_operations : list UnstakeOp) (w : World) :
  let run := for_each (perform_plain wallet subtensor) unstake_operations w in
  fst run = Ok tt
  /\ composed (snd run)
     = composed w
       ++ map (fun op =>
                 remove_stake_call (hotkey_ss58 op) (op_netuid op)
                   (amount_to_unstake op))
            unstake_operations
  /\ length (submitted (snd run))
     = (length (submitted w) + length unstake_operations)%nat.
Proof.
  revert w.
  induction unstake_operations as [|op rest IH]; intros w.
  - cbn. rewrite app_nil_r. repeat split; lia.
  - cbn zeta. cbn [for_each map length]. unfold bind.
    destruct (_unstake_extrinsic_run (op_netuid op) (amount_to_unstake op)
                (current_stake_balance op) (hotkey_ss58 op) w)
      as (w1 & x & o & Hrun & Hc & Hs & _).
    change (_unstake_extrinsic wallet subtensor (op_netuid op)
              (amount_to_unstake op) (current_stake_balance op)
              (hotkey_ss58 op) w)
      with (perform_plain wallet subtensor op w) in Hrun.
    rewrite Hrun.
    destruct (IH w1) as (Hr & Hc' & Hs').
    split; [exact Hr|]. split.
    + rewrite Hc', Hc, <- app_assoc. reflexivity.
    + rewrite Hs', Hs, length_app. cbn. lia.
Qed.

(** X5. The standard helper does not swallow a failure silently: under
    the same conditions [_unstake_extrinsic] returns normally after one
    submission, and the last line it printed is a failure message or the
    new stake, never just the status line. *)
Theorem standard_helper_always_reports
    (netuid : Z) (amount current : Balance) (hk : string) (w : World) :
  let run := _unstake_extrinsic wallet subtensor netuid amount current hk w in
  fst run = Ok tt
  /\ length (submitted (snd run)) = S (length (submitted w))
  /\ exists o, last (printed (snd run)) = Some o
               /\ Ledger.is_report o = true.
Proof.
  destruct (_unstake_extrinsic_run netuid amount current hk w)
    as (w1 & x & o & -> & Hc & Hs & Hlast & Ho).
  cbn. split; [reflexivity|]. split.
  - rewrite Hs, length_app. cbn. lia.
  - exists o. auto.
Qed.

End PlainMode.

Lemma demo_chain_signs (submit : result Proc.Response) :
  Ledger.signs (Demo.chain submit).
Proof.
  repeat split; intros; eexists; reflexivity.
Qed.

Lemma demo_chain_no_interrupt :
  Ledger.no_interrupt (Demo.chain (Raise Demo.timeout)).
Proof.
  repeat split; intros; exact I.
Qed.

Lemma plain_mode_attempts_every_operation_witness :
  let run :=
    Remove.for_each
      (Remove.perform_plain (H := Demo.externals) Demo.wallet
         (Demo.chain (Raise Demo.timeout)))
      [Demo.op_1; Demo.op_0] Demo.world0 in
  fst run = Ok tt
  /\ length (Proc.submitted (snd run)) = 2%nat.
Proof.
  pose proof (plain_mode_attempts_every_operation (H := Demo.externals)
                Demo.wallet (Demo.chain (Raise Demo.timeout))
                (demo_chain_signs _) demo_chain_no_interrupt
                [Demo.op_1; Demo.op_0] Demo.world0) as (Hr & _ & Hs).
  split; [exact Hr | exact Hs].
Defined.

Lemma standard_helper_always_reports_witness :
  fst (Remove._unstake_extrinsic (H := Demo.externals) Demo.wallet
         (Demo.chain (Raise Demo.timeout)) 1 (Demo.tao_ 10) (Demo.tao_ 30)
         "5Hot" Demo.world0)
  = Ok tt.
Proof.
  apply (standard_helper_always_reports (H := Demo.externals)
           Demo.wallet (Demo.chain (Raise Demo.timeout))
           (demo_chain_signs _) demo_chain_no_interrupt
           1%Z (Demo.tao_ 10) (Demo.tao_ 30) "5Hot" Demo.world0).
Defined.


Section NoStake.
Import Proc Remove.
Context `{Externals}.
Variables (wallet : Wallet) (subtensor : SubtensorInterface)
          (user : User) (args : Args).
Variable all_sn_dynamic_info : gmap Z DynamicInfo.

Lemma printing_all_nil w : Ledger.printing_all [] w = w.
Proof.
  unfold Ledger.printing_all. rewrite app_nil_r. destruct w. reflexivity.
Qed.

Lemma printing_all_app os1 os2 w :
  Ledger.printing_all os2 (Ledger.printing_all os1 w)
  = Ledger.printing_all (os1 ++ os2) w.
Proof. unfold Ledger.printing_all. cbn. rewrite app_assoc. reflexivity. Qed.

Lemma emit_printing_all o w :
  emit o w = (Ok tt, Ledger.printing_all [o] w).
Proof. reflexivity. Qed.

Lemma collect_netuids_no_table hotkey netuids st w :
  skip_remaining_subnets st = false ->
  collect_netuids user args all_sn_dynamic_info ∅ hotkey netuids st w
  = (Ok st,
     Ledger.printing_all
       (map (fun netuid => Ledger.no_stake_found (hotkey, netuid)) netuids)
       w).
Proof.
  intros Hskip. revert w.
  induction netuids as [|netuid rest IH]; intros w; cbn [collect_netuids map].
  - rewrite printing_all_nil. reflexivity.
  - rewrite Hskip. unfold bind at 1, collect_netuid.
    rewrite lookup_empty. unfold bind at 1. rewrite emit_printing_all.
    cbn [ret]. rewrite IH, printing_all_app. reflexivity.
Qed.

Lemma collect_hotkeys_no_table netuids hotkeys st w :
  skip_remaining_subnets st = false ->
  collect_hotkeys user args all_sn_dynamic_info ∅ netuids hotkeys st w
  = (Ok st, Ledger.printing_all
              (map Ledger.no_stake_found
                 (Ledger.visited args netuids hotkeys)) w).
Proof.
  intros Hskip. revert w.
  induction hotkeys as [|hotkey rest IH]; intros w.
  - cbn. rewrite printing_all_nil. reflexivity.
  - cbn [collect_hotkeys]. rewrite Hskip. unfold bind at 1.
    rewrite collect_netuids_no_table by exact Hskip.
    rewrite IH, printing_all_app.
    unfold Ledger.visited. cbn [flat_map]. rewrite map_app, map_map.
    reflexivity.
Qed.

End NoStake.

Section NoStakeCommand.
Import Proc Remove.
Context `{Externals}.
Variables (wallet : Wallet) (subtensor : SubtensorInterface)
          (user : User) (args : Args).

(** X6. When the chain reports no stake at all for the coldkey,
    [unstake] asks nothing and sends nothing: it prints one
    "No stake found for hotkey" line for every hotkey and netuid it was
    given, in the order of the loops, then that there is no operation to
    perform, and returns [False]. *)
Theorem unstake_without_any_stake
    (hotkeys_to_unstake_from : list Hotkey) (netuids : list Z) (w : World)
    (infos : list DynamicInfo) (chain_head : string) :
  all_subnets subtensor = Ok infos ->
  get_chain_head subtensor (submitted w) = Ok chain_head ->
  get_stake_for_coldkey subtensor (coldkeypub_ss58_address wallet) = Ok [] ->
  unstake wallet subtensor user args hotkeys_to_unstake_from netuids w
  = (Ok (Some false),
     Ledger.printing_all
       (Ledger.tip args netuids
        ++ map Ledger.no_stake_found
             (Ledger.visited args netuids hotkeys_to_unstake_from)
        ++ [console_print "[red]No unstake operations to perform.[/red]"])
       w).
Proof.
  intros Hinfos Hhead Hstakes.
  unfold unstake.
  unfold bind at 1, lift at 1. rewrite Hinfos.
  unfold bind at 1. cbn [history].
  unfold bind at 1, lift at 1. rewrite Hhead.
  unfold bind at 1, lift at 1. rewrite Hstakes.
  change (build_stake_in_netuids []) with (∅ : gmap string (gmap Z Balance)).
  unfold bind at 1.
  assert (Htip :
            (if ((1 <? length netuids)%nat
                 && negb (Py.nonzero (amount args)))%bool
             then emit (console_print
                          ("[dark_sea_green3]Tip: Enter 'q' any time to stop going over remaining subnets and process current unstakes."
                           +:+ String "010" EmptyString))
             else ret tt) w
            = (Ok tt, Ledger.printing_all (Ledger.tip args netuids) w)).
  { unfold Ledger.tip.
    destruct (_ && _)%bool; [reflexivity|].
    rewrite printing_all_nil. reflexivity. }
  rewrite Htip. unfold bind at 1.
  rewrite collect_hotkeys_no_table by reflexivity.
  cbn [unstake_operations Collected_init].
  unfold bind. rewrite emit_printing_all. cbn [ret].
  rewrite !printing_all_app. reflexivity.
Qed.

End NoStakeCommand.

Lemma unstake_without_any_stake_witness :
  fst (Remove.unstake (H := Demo.externals) Demo.wallet
         (Sample.chain_without_stake) Demo.user Demo.args
         [Demo.hotkey] [0; 1]%Z Demo.world0)
  = Ok (Some false).
Proof.
  rewrite (unstake_without_any_stake (H := Demo.externals) Demo.wallet
             Sample.chain_without_stake Demo.user Demo.args [Demo.hotkey]
             [0; 1]%Z Demo.world0 [Demo.root_pool; Demo.pool_1; Demo.pool_2]
             "0xhead" eq_refl eq_refl eq_refl).
  reflexivity.
Defined.


(** ** The prompt for the amount *)

Section AskAmount.
Import Proc.
Context `{Externals}.
Variables (lower : string -> string) (float : string -> option Q).

Lemma gtb_irrefl (b : Balance) : Balance.gtb b b = false.
Proof. unfold Balance.gtb. apply Z.ltb_irrefl. Qed.

Lemma ask_amount_accepts current netuid answers :
  forall w b rest w',
    Prompts.ask_amount lower float current netuid answers w
    = (Ok (Some b, rest), w') ->
    Balance.gtb b current = false
    /\ Prompts.answer_for current netuid b
    /\ (exists read, answers = read ++ rest /\ read <> [])
    /\ composed w' = composed w /\ submitted w' = submitted w.
Proof.
  induction answers as [|amount_input answers IH]; intros w b rest w' Hrun;
    cbn [Prompts.ask_amount] in Hrun; [discriminate|].
  assert (Hnext :
            forall o,
              (emit o ;;; Prompts.ask_amount lower float current netuid
                            answers)%proc w
              = (Ok (Some b, rest), w') ->
              Balance.gtb b current = false
              /\ Prompts.answer_for current netuid b
              /\ (exists read, amount_input :: answers = read ++ rest
                               /\ read <> [])
              /\ composed w' = composed w /\ submitted w' = submitted w).
  { intros o Ho. unfold bind in Ho. cbn [emit] in Ho.
    apply IH in Ho as (Hle & Hans & (read & -> & _) & Hc & Hs).
    repeat split; auto.
    exists (amount_input :: read). split; [reflexivity | discriminate]. }
  destruct (String.eqb (lower amount_input) "q"); [discriminate|].
  destruct (float amount_input) as [amount_value|]; [|eapply Hnext; eauto].
  destruct (Qle_bool amount_value 0) eqn:Hpos; [eapply Hnext; eauto|].
  destruct (Balance.gtb _ current) eqn:Hgt; [eapply Hnext; eauto|].
  injection Hrun as <- <- <-.
  split; [exact Hgt|]. split; [|split].
  - right. exists amount_value. split; [|reflexivity].
    apply Qnot_le_lt. intros Hle. apply Qle_bool_iff in Hle. congruence.
  - exists [amount_input]. split; [reflexivity | discriminate].
  - auto.
Qed.

Lemma _ask_unstake_amount_accepts
    (current_stake_balance : Balance) (netuid : Z)
    (staking_address_name staking_address_ss58 : string)
    (interactive : bool) (answers : list string) (w : World)
    (b : Balance) (rest : list string) (w' : World) :
  Prompts._ask_unstake_amount lower float current_stake_balance netuid
    staking_address_name staking_address_ss58 interactive answers w
  = (Ok (Some b, rest), w') ->
  Balance.gtb b current_stake_balance = false
  /\ Prompts.answer_for current_stake_balance netuid b
  /\ (exists read, answers = read ++ rest /\ read <> [])
  /\ composed w' = composed w /\ submitted w' = submitted w.
Proof.
  revert w.
  induction answers as [|response answers IH]; intros w Hrun;
    cbn [Prompts._ask_unstake_amount] in Hrun; [discriminate|].
  cbn zeta in Hrun.
  destruct (String.eqb (lower response) "q"); [discriminate|].
  destruct (String.eqb (lower response) "y").
  { injection Hrun as <- <- <-.
    split; [apply gtb_irrefl|]. split; [left; reflexivity|]. split; [|auto].
    exists [response]. split; [reflexivity | discriminate]. }
  destruct (negb (String.eqb (lower response) "n")).
  - unfold bind in Hrun. cbn [emit] in Hrun.
    apply IH in Hrun as (Hle & Hans & (read & -> & _) & Hc & Hs).
    repeat split; auto.
    exists (response :: read). split; [reflexivity | discriminate].
  - apply ask_amount_accepts in Hrun as (Hle & Hans & (read & -> & _) & Hcs).
    repeat split; try tauto.
    exists (response :: read). split; [reflexivity | discriminate].
Qed.

(** X7. Whatever the user types, an amount that [_ask_unstake_amount]
    returns is the whole current stake or a positive number of TAO in the
    unit of the subnet, and it is never more than the current stake; the
    dialogue read at least one line to get there and neither composed nor
    submitted anything. *)
Theorem asked_amount_is_within_stake
    (current_stake_balance : Balance) (netuid : Z)
    (staking_address_name staking_address_ss58 : string)
    (interactive : bool) (answers : list string) (w : World)
    (b : Balance) (rest : list string) (w' : World) :
  Prompts._ask_unstake_amount lower float current_stake_balance netuid
    staking_address_name staking_address_ss58 interactive answers w
  = (Ok (Some b, rest), w') ->
  Balance.gtb b current_stake_balance = false
  /\ Prompts.answer_for current_stake_balance netuid b
  /\ (exists read, answers = read ++ rest /\ read <> [])
  /\ composed w' = composed w /\ submitted w' = submitted w.
Proof. apply _ask_unstake_amount_accepts. Qed.

End AskAmount.

Lemma asked_amount_is_within_stake_witness :
  Balance.gtb (Balance.set_unit 1 (Balance.from_tao 10)) (Demo.tao_ 30)
  = false.
Proof.
  apply (asked_amount_is_within_stake (H := Demo.externals) (fun s => s)
           Sample.float (Demo.tao_ 30) 1 "validator" "5Hot" false
           ["maybe"; "n"; "100"; "ten"; "10"; "y"] Demo.world0
           (Balance.set_unit 1 (Balance.from_tao 10)) ["y"]
           (snd (Prompts._ask_unstake_amount (H := Demo.externals)
                   (fun s => s) Sample.float (Demo.tao_ 30) 1 "validator"
                   "5Hot" false ["maybe"; "n"; "100"; "ten"; "10"; "y"]
                   Demo.world0))).
  vm_compute. reflexivity.
Defined.

Section PromptedCollection.
Import Proc Remove.
Context `{Externals}.
Variables (lower : string -> string) (float : string -> option Q).
Variables (user : User) (args : Args).
Variables (all_sn_dynamic_info : gmap Z DynamicInfo)
          (stake_in_netuids : gmap string (gmap Z Balance)).
Hypothesis Hno_amount : Py.nonzero (amount args) = false.
Hypothesis Hdialogue : Prompts.answers_by_dialogue lower float user.

Lemma requested_amount_within hotkey netuid current a :
  requested_amount user args hotkey netuid current = Some a ->
  Balance.gtb (Balance.set_unit netuid a) current = false.
Proof.
  unfold requested_amount. rewrite Hno_amount. intros Hask.
  apply Hdialogue in Hask as (answers & rest & w & w' & Hrun).
  apply _ask_unstake_amount_accepts in Hrun as [Hle _].
  exact Hle.
Qed.

Lemma collect_netuid_only_print_error hotkey netuid st w :
  exists os,
    snd (collect_netuid user args all_sn_dynamic_info stake_in_netuids
           hotkey netuid st w)
    = Ledger.printing_all os w
    /\ forallb Prompts.is_print_error os = true.
Proof.
  assert (Hnone : forall r : result Collected,
             exists os, snd (r, w) = Ledger.printing_all os w
                        /\ forallb Prompts.is_print_error os = true).
  { intros r. exists []. unfold Ledger.printing_all. cbn.
    rewrite app_nil_r. destruct w; auto. }
  unfold collect_netuid, bind, emit, ret, raise.
  destruct (stake_in_netuids !! staking_address_ss58 hotkey) as [stakes|];
    [|eexists [_]; split; reflexivity].
  destruct (stakes !! netuid) as [current|];
    [|eexists [_]; split; reflexivity].
  destruct (Qeq_bool (Balance.tao current) 0);
    [eexists [_]; split; reflexivity|].
  destruct (requested_amount user args hotkey netuid current) as [a|] eqn:Ha;
    [|apply Hnone].
  rewrite (requested_amount_within _ _ _ _ Ha).
  destruct (all_sn_dynamic_info !! netuid) as [info|]; [|apply Hnone].
  destruct (_calculate_slippage info (Balance.set_unit netuid a))
    as [[received pct] pctf].
  apply Hnone.
Qed.

Lemma collect_netuids_only_print_error hotkey netuids :
  forall st w,
    exists os,
      snd (collect_netuids user args all_sn_dynamic_info stake_in_netuids
             hotkey netuids st w)
      = Ledger.printing_all os w
      /\ forallb Prompts.is_print_error os = true.
Proof.
  induction netuids as [|netuid rest IH]; intros st w; cbn [collect_netuids].
  - exists []. rewrite printing_all_nil. auto.
  - destruct (skip_remaining_subnets st).
    { exists []. rewrite printing_all_nil. auto. }
    unfold bind.
    destruct (collect_netuid_only_print_error hotkey netuid st w)
      as (os & Hw & Hos).
    destruct (collect_netuid _ _ _ _ hotkey netuid st w) as [[st1|e] w1];
      cbn in Hw; subst w1.
    + destruct (IH st1 (Ledger.printing_all os w)) as (os' & -> & Hos').
      exists (os ++ os'). rewrite printing_all_app, forallb_app, Hos, Hos'.
      auto.
    + exists os. auto.
Qed.

(** X8. When no [--amount] is given and the amounts come from the dialogue
    of [_ask_unstake_amount], the balance check of [unstake] never fires:
    the collection loops print nothing but [print_error] lines (no stake
    for the hotkey, nothing staked on the subnet), never the
    "Not enough stake to remove" line of the error console, and they
    neither compose nor submit. *)
Theorem prompted_amounts_pass_the_balance_check
    (netuids : list Z) (hotkeys_to_unstake_from : list Hotkey)
    (st : Collected) (w : World) :
  exists os,
    snd (collect_hotkeys user args all_sn_dynamic_info stake_in_netuids
           netuids hotkeys_to_unstake_from st w)
    = Ledger.printing_all os w
    /\ forallb Prompts.is_print_error os = true.
Proof.
  revert st w.
  induction hotkeys_to_unstake_from as [|hotkey rest IH]; intros st w;
    cbn [collect_hotkeys].
  - exists []. rewrite printing_all_nil. auto.
  - destruct (skip_remaining_subnets st).
    { exists []. rewrite printing_all_nil. auto. }
    unfold bind.
    destruct (collect_netuids_only_print_error hotkey
                (if interactive args then [selected_netuid hotkey]
                 else netuids) st w)
      as (os & Hw & Hos).
    destruct (collect_netuids _ _ _ _ hotkey _ st w) as [[st1|e] w1];
      cbn in Hw; subst w1.
    + destruct (IH st1 (Ledger.printing_all os w)) as (os' & -> & Hos').
      exists (os ++ os'). rewrite printing_all_app, forallb_app, Hos, Hos'.
      auto.
    + exists os. auto.
Qed.

End PromptedCollection.

Lemma demo_user_answers_by_dialogue :
  Prompts.answers_by_dialogue (H := Demo.externals) (fun s => s)
    Sample.float Demo.user.
Proof.
  intros current netuid name_ ss58 inter b [= <-].
  exists ["y"], [], Demo.world0, Demo.world0. reflexivity.
Qed.

Lemma prompted_amounts_pass_the_balance_check_witness :
  exists os,
    snd (Remove.collect_hotkeys (H := Demo.externals) Demo.user
           Sample.args_prompt Demo.infos Demo.stake_in_netuids [0; 1; 3]%Z
           [Demo.hotkey] Remove.Collected_init Demo.world0)
    = Ledger.printing_all os Demo.world0
    /\ forallb Prompts.is_print_error os = true.
Proof.
  apply (prompted_amounts_pass_the_balance_check (H := Demo.externals)
           (fun s => s) Sample.float Demo.user Sample.args_prompt
           Demo.infos Demo.stake_in_netuids eq_refl
           demo_user_answers_by_dialogue).
Defined.


(** ** The hotkeys to unstake from *)

Section HotkeyChoice.
Import Hotkeys.
Variables (wallet : HotkeyWallet)
          (get_hotkey_wallets_for_wallet : result (list HotkeyWallet))
          (Wallet_ : string -> HotkeyWallet)
          (is_valid_ss58_address : string -> bool).

Lemma all_but_excluded_kept exclude_hotkeys all_hotkeys_ :
  match all_but_excluded exclude_hotkeys all_hotkeys_ with
  | Py.Ok result => Forall2 pair_of (kept exclude_hotkeys all_hotkeys_) result
  | Py.Raise e =>
      Exists (fun wallet => hotkey_ss58_address wallet = Raise e)
        (kept exclude_hotkeys all_hotkeys_)
  end.
Proof.
  induction all_hotkeys_ as [|w rest IH]; cbn [all_but_excluded kept List.filter].
  - constructor.
  - fold (kept exclude_hotkeys rest).
    destruct (excluded exclude_hotkeys (hotkey_str w)); cbn [negb].
    + exact IH.
    + destruct (hotkey_ss58_address w) as [ss58|e] eqn:Ew.
      * destruct (all_but_excluded exclude_hotkeys rest) as [result|e].
        -- constructor; [split; [reflexivity | exact Ew] | exact IH].
        -- apply Exists_cons_tl. exact IH.
      * apply Exists_cons_hd. exact Ew.
Qed.

(** X9. With [--all-hotkeys] and no explicit address,
    [_get_hotkeys_to_unstake] returns exactly the hotkeys of the wallet
    whose names are not in [exclude_hotkeys], in their order, each with
    its name and its address; the key file of an excluded hotkey is not
    even read, and the call raises exactly when a key file of a hotkey
    that is not excluded cannot be read. *)
Theorem all_hotkeys_minus_excluded
    (hotkey_ss58_address_ : option string)
    (include_hotkeys exclude_hotkeys : list string)
    (all_hotkeys_ : list HotkeyWallet) :
  hotkey_ss58_address_ = None \/ hotkey_ss58_address_ = Some EmptyString ->
  get_hotkey_wallets_for_wallet = Ok all_hotkeys_ ->
  match _get_hotkeys_to_unstake wallet get_hotkey_wallets_for_wallet Wallet_
          is_valid_ss58_address hotkey_ss58_address_ true include_hotkeys
          exclude_hotkeys
  with
  | Py.Ok result =>
      Forall2 pair_of (kept exclude_hotkeys all_hotkeys_) result
      /\ Forall (fun pair =>
                   forall name_,
                     fst pair = Some name_ ->
                     ~ In name_ exclude_hotkeys)
           result
  | Py.Raise e =>
      Exists (fun wallet => hotkey_ss58_address wallet = Raise e)
        (kept exclude_hotkeys all_hotkeys_)
  end.
Proof.
  intros Hss58 Hall. unfold _get_hotkeys_to_unstake. rewrite Hall.
  assert (Hgo :
            match hotkey_ss58_address_ with
            | Some (String a s) => Ok [(None, String a s)]
            | _ => all_but_excluded exclude_hotkeys all_hotkeys_
            end = all_but_excluded exclude_hotkeys all_hotkeys_).
  { destruct Hss58 as [-> | ->]; reflexivity. }
  rewrite Hgo.
  pose proof (all_but_excluded_kept exclude_hotkeys all_hotkeys_) as Hkept.
  destruct (all_but_excluded exclude_hotkeys all_hotkeys_) as [result|e];
    [|exact Hkept].
  split; [exact Hkept|].
  assert (Hnames :
            Forall (fun w => ~ In (hotkey_str w) exclude_hotkeys)
              (kept exclude_hotkeys all_hotkeys_)).
  { apply List.Forall_forall. intros w Hw.
    apply List.filter_In in Hw as [_ Hw]. intros Hin.
    apply negb_true_iff in Hw. unfold excluded in Hw.
    assert (Hex : existsb (String.eqb (hotkey_str w)) exclude_hotkeys = true).
    { apply existsb_exists. exists (hotkey_str w).
      split; [exact Hin | apply String.eqb_refl]. }
    congruence. }
  clear Hgo. induction Hkept as [|w p ws ps [Hname _] _ IH]; constructor.
  - intros name_ Hp. rewrite Hname in Hp. injection Hp as <-.
    inversion Hnames; assumption.
  - apply IH. inversion Hnames; assumption.
Qed.

Lemma included_length include_hotkeys result :
  included Wallet_ is_valid_ss58_address include_hotkeys = Ok result ->
  length result = length include_hotkeys
  /\ Forall2 (fun hotkey_identifier pair =>
                if is_valid_ss58_address hotkey_identifier
                then pair = (None, hotkey_identifier)
                else pair_of (Wallet_ hotkey_identifier) pair)
       include_hotkeys result.
Proof.
  revert result.
  induction include_hotkeys as [|h rest IH]; intros result Hrun;
    cbn [included] in Hrun.
  - injection Hrun as <-. split; [reflexivity | constructor].
  - destruct (is_valid_ss58_address h) eqn:Hvalid.
    + destruct (included Wallet_ is_valid_ss58_address rest) as [r|e];
        [|discriminate].
      injection Hrun as <-. destruct (IH r eq_refl) as [Hlen Hall].
      split; [cbn; lia|]. constructor; [rewrite Hvalid; reflexivity | exact Hall].
    + destruct (hotkey_ss58_address (Wallet_ h)) as [ss58|e] eqn:Ew;
        [|discriminate].
      destruct (included Wallet_ is_valid_ss58_address rest) as [r|e];
        [|discriminate].
      injection Hrun as <-. destruct (IH r eq_refl) as [Hlen Hall].
      split; [cbn; lia|].
      constructor; [rewrite Hvalid; split; [reflexivity | exact Ew] | exact Hall].
Qed.

(** X10. The options of [_get_hotkeys_to_unstake] are read in a fixed
    order. A non-empty explicit address is the only entry, whatever else
    is given. Without [--all-hotkeys] the list [exclude_hotkeys] has no
    effect at all. With included hotkeys (and neither of the former) there
    is one entry per identifier, in order: the identifier itself without a
    name when it is a valid address, else the name and address of the
    wallet hotkey of that name. *)
Theorem hotkey_options_precedence
    (all_hotkeys : bool) (include_hotkeys exclude_hotkeys : list string) :
  (forall a s,
     _get_hotkeys_to_unstake wallet get_hotkey_wallets_for_wallet Wallet_
       is_valid_ss58_address (Some (String a s)) all_hotkeys include_hotkeys
       exclude_hotkeys
     = Ok [(None, String a s)])
  /\ (forall hotkey_ss58_address_ other_excluded,
        _get_hotkeys_to_unstake wallet get_hotkey_wallets_for_wallet Wallet_
          is_valid_ss58_address hotkey_ss58_address_ false include_hotkeys
          exclude_hotkeys
        = _get_hotkeys_to_unstake wallet get_hotkey_wallets_for_wallet
            Wallet_ is_valid_ss58_address hotkey_ss58_address_ false
            include_hotkeys other_excluded)
  /\ (forall result,
        include_hotkeys <> [] ->
        _get_hotkeys_to_unstake wallet get_hotkey_wallets_for_wallet Wallet_
          is_valid_ss58_address None false include_hotkeys exclude_hotkeys
        = Ok result ->
        Forall2 (fun hotkey_identifier pair =>
                   if is_valid_ss58_address hotkey_identifier
                   then pair = (None, hotkey_identifier)
                   else pair_of (Wallet_ hotkey_identifier) pair)
          include_hotkeys result).
Proof.
  split; [reflexivity|]. split; [reflexivity|].
  intros result Hne Hrun. unfold _get_hotkeys_to_unstake in Hrun.
  destruct include_hotkeys as [|h rest]; [contradiction|].
  apply included_length in Hrun. apply Hrun.
Qed.

End HotkeyChoice.

Lemma all_hotkeys_minus_excluded_witness :
  match Hotkeys._get_hotkeys_to_unstake
          {| Hotkeys.hotkey_str := "default";
             Hotkeys.hotkey_ss58_address := Ok "5Hot" |}
          (Ok Sample.hotkey_wallets)
          (fun h => {| Hotkeys.hotkey_str := h;
                       Hotkeys.hotkey_ss58_address :=
                         Raise Py.KeyFileError |})
          (fun _ => false) None true [] ["broken"]
  with
  | Py.Ok result =>
      Forall2 Hotkeys.pair_of
        (Hotkeys.kept ["broken"] Sample.hotkey_wallets) result
      /\ Forall (fun pair =>
                   forall name_,
                     fst pair = Some name_ -> ~ In name_ ["broken"])
           result
  | Py.Raise e =>
      Exists (fun wallet => Hotkeys.hotkey_ss58_address wallet = Raise e)
        (Hotkeys.kept ["broken"] Sample.hotkey_wallets)
  end.
Proof.
  apply (all_hotkeys_minus_excluded
           {| Hotkeys.hotkey_str := "default";
              Hotkeys.hotkey_ss58_address := Ok "5Hot" |}
           (Ok Sample.hotkey_wallets)
           (fun h => {| Hotkeys.hotkey_str := h;
                        Hotkeys.hotkey_ss58_address :=
                          Raise Py.KeyFileError |})
           (fun _ => false) None [] ["broken"] Sample.hotkey_wallets).
  - left. reflexivity.
  - reflexivity.
Defined.

(** With the hotkey whose key file cannot be read excluded, the other two
    are returned. *)
Example excluded_hotkey_is_not_read :
  Hotkeys._get_hotkeys_to_unstake
    {| Hotkeys.hotkey_str := "default";
       Hotkeys.hotkey_ss58_address := Ok "5Hot" |}
    (Ok Sample.hotkey_wallets)
    (fun h => {| Hotkeys.hotkey_str := h;
                 Hotkeys.hotkey_ss58_address := Raise Py.KeyFileError |})
    (fun _ => false) None true [] ["broken"]
  = Ok [(Some "miner", "5Miner"); (Some "validator", "5Hot")].
Proof. reflexivity. Qed.

Lemma hotkey_options_precedence_witness :
  Forall2 (fun hotkey_identifier pair =>
             if String.eqb hotkey_identifier "5Hot"
             then pair = (None, hotkey_identifier)
             else Hotkeys.pair_of
                    {| Hotkeys.hotkey_str := hotkey_identifier;
                       Hotkeys.hotkey_ss58_address := Ok "5Miner" |} pair)
    ["miner"; "5Hot"] [(Some "miner", "5Miner"); (None, "5Hot")].
Proof.
  apply (hotkey_options_precedence
           {| Hotkeys.hotkey_str := "default";
              Hotkeys.hotkey_ss58_address := Ok "5Hot" |}
           (Ok Sample.hotkey_wallets)
           (fun h => {| Hotkeys.hotkey_str := h;
                        Hotkeys.hotkey_ss58_address := Ok "5Miner" |})
           (fun h => String.eqb h "5Hot") false ["miner"; "5Hot"] []).
  - discriminate.
  - reflexivity.
Defined.


(** ** [unstake_all] *)

Section UnstakeAllFacts.
Import Proc UnstakeAll.
Context `{Externals}.
Variables (wallet : Wallet) (subtensor : SubtensorInterface) (user : User).
Variables
  (fetch_coldkey_hotkey_identities :
     result (gmap string (gmap string Identities.HkIdentity)))
  (get_delegate_identities : result (gmap string string))
  (sign_and_send_extrinsic : Call -> M (bool * string)).

(** The part of [unstake_all] after the table: confirmation, unlocking
    and sending. *)
Lemma unstake_all_guards hotkey_ss58_address unstake_all_alpha prompt w :
  let '(r, w') :=
    unstake_all wallet subtensor user fetch_coldkey_hotkey_identities
      get_delegate_identities sign_and_send_extrinsic hotkey_ss58_address
      unstake_all_alpha prompt w in
  (composed w' = composed w /\ submitted w' = submitted w /\ r <> Ok true)
  \/ ((exists stake_info,
         get_stake_for_coldkey subtensor (coldkeypub_ss58_address wallet)
         = Ok stake_info
         /\ stakes_to_unstake
              (hotkey_or_default wallet hotkey_ss58_address)
              unstake_all_alpha stake_info <> [])
      /\ (prompt = false \/ Confirm_ask user proceed_question = true)
      /\ unlock_coldkey wallet = Ok tt).
Proof.
  unfold unstake_all.
  unfold bind at 1, lift at 1.
  destruct (get_stake_for_coldkey subtensor _) as [stake_info|e];
    [|left; repeat split; discriminate].
  unfold bind at 1, lift at 1.
  destruct fetch_coldkey_hotkey_identities as [ck|e];
    [|left; repeat split; discriminate].
  unfold bind at 1, lift at 1.
  destruct get_delegate_identities as [old|e];
    [|left; repeat split; discriminate].
  unfold bind at 1, lift at 1.
  destruct (all_subnets subtensor) as [infos|e];
    [|left; repeat split; discriminate].
  unfold bind at 1. cbn [history].
  unfold bind at 1, lift at 1.
  destruct (get_balance subtensor _ _) as [bal|e];
    [|left; repeat split; discriminate].
  destruct (stakes_to_unstake _ unstake_all_alpha stake_info)
    as [|stake rest] eqn:Hstakes.
  { left. repeat split; discriminate. }
  unfold bind at 1, lift at 1.
  destruct (summarize _ _ _ _ _ _) as [[max_slippage total]|e];
    [|left; repeat split; discriminate].
  unfold bind at 1. cbn [emit].
  unfold bind at 1.
  match goal with
  | |- context [(if Py.gt max_slippage 5 then ?a else ?b) ?w0] =>
      assert (Hwarn : exists os,
                 (if Py.gt max_slippage 5 then a else b) w0
                 = (Ok tt, Ledger.printing_all os w0))
  end.
  { destruct (Py.gt max_slippage 5).
    - eexists [_]. reflexivity.
    - exists []. rewrite printing_all_nil. reflexivity. }
  destruct Hwarn as [os ->].
  unfold bind at 1. cbn [emit].
  destruct prompt; cbn [andb].
  - destruct (Confirm_ask user proceed_question) eqn:Hask; cbn [negb].
    2:{ left. cbn. repeat split; discriminate. }
    unfold bind at 1, try_except, bind at 1, lift at 1.
    destruct (unlock_coldkey wallet) as [[]|e].
    2:{ destruct e; cbn; left; repeat split; discriminate. }
    match goal with
    | |- let '(_, _) := ?t in _ => destruct t as [r1 w1]
    end.
    right. split; [|split; [right|]; reflexivity].
    exists stake_info. split; [reflexivity|]. rewrite Hstakes. discriminate.
  - unfold bind at 1, try_except, bind at 1, lift at 1.
    destruct (unlock_coldkey wallet) as [[]|e].
    2:{ destruct e; cbn; left; repeat split; discriminate. }
    match goal with
    | |- let '(_, _) := ?t in _ => destruct t as [r1 w1]
    end.
    right. split; [|split; [left|]; reflexivity].
    exists stake_info. split; [reflexivity|]. rewrite Hstakes. discriminate.
Qed.

(** X11. [unstake_all] composes nothing, sends nothing and does not
    return [True] unless the coldkey has a stake on the chosen hotkey
    (outside root, when only alpha is to be unstaked), the user agrees
    when asked, and the coldkey can be unlocked; this holds whatever
    [sign_and_send_extrinsic] would do. *)
Theorem unstake_all_needs_stake_consent_and_key
    (hotkey_ss58_address : option string) (unstake_all_alpha prompt : bool)
    (w : World) :
  match get_stake_for_coldkey subtensor (coldkeypub_ss58_address wallet)
  with
  | Py.Ok stake_info =>
      stakes_to_unstake (hotkey_or_default wallet hotkey_ss58_address)
        unstake_all_alpha stake_info = []
  | Py.Raise _ => True
  end
  \/ (prompt = true /\ Confirm_ask user proceed_question = false)
  \/ unlock_coldkey wallet = Raise Py.KeyFileError ->
  let run :=
    unstake_all wallet subtensor user fetch_coldkey_hotkey_identities
      get_delegate_identities sign_and_send_extrinsic hotkey_ss58_address
      unstake_all_alpha prompt w in
  composed (snd run) = composed w /\ submitted (snd run) = submitted w
  /\ fst run <> Ok true.
Proof.
  intros Hguard.
  pose proof (unstake_all_guards hotkey_ss58_address unstake_all_alpha
                prompt w) as Hrun.
  cbn zeta.
  destruct (unstake_all _ _ _ _ _ _ _ _ _ w) as [r w'].
  destruct Hrun
    as [Hstill | ((stake_info & Hinfo & Hsome) & Hconsent & Hkey)];
    [exact Hstill|].
  exfalso. destruct Hguard as [Hnone | [[Hprompt Hno] | Hlocked]].
  - rewrite Hinfo in Hnone. contradiction.
  - destruct Hconsent; congruence.
  - congruence.
Qed.

Lemma summarize_adds ck old infos stake_info :
  forall max_slippage total max_slippage' total',
    summarize ck old infos stake_info max_slippage total
    = Ok (max_slippage', total') ->
    (total' == total + expected_return infos stake_info)%Q
    /\ (max_slippage <= max_slippage')%Q
    /\ Forall (fun stake => is_Some (infos !! StakeInfo.netuid stake))
         (counted stake_info).
Proof.
  unfold expected_return.
  induction stake_info as [|stake rest IH];
    intros m t m' t' Hrun; cbn [summarize] in Hrun.
  - injection Hrun as <- <-. cbn.
    split; [ring|]. split; [apply Qle_refl | constructor].
  - cbn [counted List.filter].
    destruct (Balance.rao (StakeInfo.stake stake) =? 0)%Z; cbn [negb].
    + apply IH in Hrun. exact Hrun.
    + destruct (Identities.hotkey_name_of ck old _ _); [|discriminate].
      destruct (infos !! StakeInfo.netuid stake) as [info|] eqn:Hinfo;
        [|discriminate].
      destruct (Remove._calculate_slippage info (StakeInfo.stake stake))
        as [[received pct] pctf] eqn:Hcalc.
      assert (Hreceived : received_for infos stake = received).
      { unfold received_for. rewrite Hinfo, Hcalc. reflexivity. }
      apply IH in Hrun as (Htotal & Hmax & Hknown).
      split; [|split].
      * rewrite Htotal. cbn [foldr]. rewrite Hreceived.
        fold (counted rest). ring.
      * eapply Qle_trans; [apply max_left | exact Hmax].
      * constructor; [rewrite Hinfo; eauto | exact Hknown].
Qed.


Hypothesis Hsend :
  forall call, preserves composed (sign_and_send_extrinsic call).

Lemma unstake_all_one_call hotkey_ss58_address unstake_all_alpha prompt w :
  let '(r, w') :=
    unstake_all wallet subtensor user fetch_coldkey_hotkey_identities
      get_delegate_identities sign_and_send_extrinsic hotkey_ss58_address
      unstake_all_alpha prompt w in
  (composed w' = composed w /\ r <> Ok true)
  \/ composed w'
     = composed w
       ++ [unstake_all_call (hotkey_or_default wallet hotkey_ss58_address)
             unstake_all_alpha].
Proof.
  unfold unstake_all.
  unfold bind at 1, lift at 1.
  destruct (get_stake_for_coldkey subtensor _) as [stake_info|e];
    [|left; repeat split; discriminate].
  unfold bind at 1, lift at 1.
  destruct fetch_coldkey_hotkey_identities as [ck|e];
    [|left; repeat split; discriminate].
  unfold bind at 1, lift at 1.
  destruct get_delegate_identities as [old|e];
    [|left; repeat split; discriminate].
  unfold bind at 1, lift at 1.
  destruct (all_subnets subtensor) as [infos|e];
    [|left; repeat split; discriminate].
  unfold bind at 1. cbn [history].
  unfold bind at 1, lift at 1.
  destruct (get_balance subtensor _ _) as [bal|e];
    [|left; repeat split; discriminate].
  destruct (stakes_to_unstake _ unstake_all_alpha stake_info)
    as [|stake rest] eqn:Hstakes.
  { left. repeat split; discriminate. }
  unfold bind at 1, lift at 1.
  destruct (summarize _ _ _ _ _ _) as [[max_slippage total]|e];
    [|left; repeat split; discriminate].
  unfold bind at 1. cbn [emit].
  unfold bind at 1.
  match goal with
  | |- context [(if Py.gt max_slippage 5 then ?a else ?b) ?w0] =>
      assert (Hwarn : exists os,
                 (if Py.gt max_slippage 5 then a else b) w0
                 = (Ok tt, Ledger.printing_all os w0))
  end.
  { destruct (Py.gt max_slippage 5).
    - eexists [_]. reflexivity.
    - exists []. rewrite printing_all_nil. reflexivity. }
  destruct Hwarn as [os ->].
  unfold bind at 1. cbn [emit].
  destruct (prompt && negb (Confirm_ask user proceed_question))%bool.
  { left. cbn. repeat split; discriminate. }
  unfold bind at 1, try_except, bind at 1, lift at 1.
  destruct (unlock_coldkey wallet) as [[]|e].
  2:{ destruct e; cbn; left; repeat split; discriminate. }
  cbn [ret negb].
  unfold bind at 1. cbn [history].
  unfold bind at 1, lift at 1.
  destruct (get_stake subtensor _ _ _ _) as [root|e].
  2:{ left. cbn. repeat split; discriminate. }
  match goal with
  | |- context [bind (compose subtensor ?c) ?k ?w0] =>
      pose proof (Frame.composes_only_compose subtensor c k) as Hcomposed;
      specialize (Hcomposed
                    ltac:(intros; repeat first
                            [ match goal with |- forall _, _ => intro end
                            | apply Frame.preserves_bind
                            | apply Hsend
                            | solve [auto with frame]
                            | match goal with
                              | |- preserves _ (if ?b then _ else _) =>
                                  destruct b
                              | |- preserves _ (let '(_, _) := ?x in _) =>
                                  destruct x
                              | |- preserves _ (match ?x with _ => _ end) =>
                                  destruct x
                              end ]) w0);
      destruct (bind (compose subtensor c) k w0) as [r1 w1]
  end.
  cbn in Hcomposed.
  destruct Hcomposed as [[Hsame [e ->]] | Hone].
  - left. split; [exact Hsame | discriminate].
  - right. exact Hone.
Qed.

(** X13. When [sign_and_send_extrinsic] itself composes nothing,
    [unstake_all] composes at most one call, and exactly one whenever it
    returns [True]: [unstake_all_alpha] or [unstake_all] of the
    [SubtensorModule], according to the flag, with the hotkey as its only
    parameter, which is the hotkey of the wallet when no address (or an
    empty one) is given. *)
Theorem unstake_all_composes_one_call
    (hotkey_ss58_address : option string) (unstake_all_alpha prompt : bool)
    (w : World) :
  let run :=
    unstake_all wallet subtensor user fetch_coldkey_hotkey_identities
      get_delegate_identities sign_and_send_extrinsic hotkey_ss58_address
      unstake_all_alpha prompt w in
  let call :=
    unstake_all_call (hotkey_or_default wallet hotkey_ss58_address)
      unstake_all_alpha in
  (composed (snd run) = composed w \/ composed (snd run) = composed w ++ [call])
  /\ (fst run = Ok true -> composed (snd run) = composed w ++ [call])
  /\ call_module call = "SubtensorModule"
  /\ (call_function call = "unstake_all_alpha" <-> unstake_all_alpha = true)
  /\ (call_function call = "unstake_all" <-> unstake_all_alpha = false)
  /\ (forall key value,
        call_params call !! key = Some value ->
        key = "hotkey"
        /\ value = PStr (hotkey_or_default wallet hotkey_ss58_address))
  /\ (hotkey_ss58_address = None \/ hotkey_ss58_address = Some EmptyString ->
      hotkey_or_default wallet hotkey_ss58_address
      = Proc.hotkey_ss58_address wallet).
Proof.
  pose proof (unstake_all_one_call hotkey_ss58_address unstake_all_alpha
                prompt w) as Hrun.
  cbn zeta.
  destruct (unstake_all _ _ _ _ _ _ _ _ _ w) as [r w'].
  cbn [fst snd].
  split; [destruct Hrun as [[Hsame _] | Hone]; auto|].
  split; [destruct Hrun as [[_ Hno] | Hone]; [contradiction | auto]|].
  split; [reflexivity|].
  split; [destruct unstake_all_alpha; cbn; split; congruence|].
  split; [destruct unstake_all_alpha; cbn; split; congruence|].
  split.
  - intros key value. cbn [unstake_all_call call_params].
    intros Hlook. apply lookup_singleton_Some in Hlook as [<- <-].
    auto.
  - intros [-> | ->]; reflexivity.
Qed.

End UnstakeAllFacts.

Lemma unstake_all_needs_stake_consent_and_key_witness :
  let run :=
    UnstakeAll.unstake_all (H := Demo.externals) Demo.locked_wallet
      (Demo.chain (Ok Demo.response_ok)) Demo.user (Ok Sample.ck_hk_identities)
      (Ok Sample.old_identities) Sample.sign_and_send_extrinsic None false
      true Demo.world0 in
  Proc.composed (snd run) = [] /\ Proc.submitted (snd run) = []
  /\ fst run <> Ok true.
Proof.
  apply (unstake_all_needs_stake_consent_and_key (H := Demo.externals)
           Demo.locked_wallet (Demo.chain (Ok Demo.response_ok)) Demo.user
           (Ok Sample.ck_hk_identities) (Ok Sample.old_identities)
           Sample.sign_and_send_extrinsic None false true Demo.world0).
  right. right. reflexivity.
Defined.


Lemma unstake_all_composes_one_call_witness :
  let run :=
    UnstakeAll.unstake_all (H := Demo.externals) Demo.wallet
      (Demo.chain (Ok Demo.response_ok)) Demo.user (Ok Sample.ck_hk_identities)
      (Ok Sample.old_identities) Sample.sign_and_send_extrinsic None true
      true Demo.world0 in
  fst run = Ok true
  /\ Proc.composed (snd run)
     = [UnstakeAll.unstake_all_call "5Hot" true].
Proof.
  split; [vm_compute; reflexivity|].
  apply (unstake_all_composes_one_call (H := Demo.externals) Demo.wallet
           (Demo.chain (Ok Demo.response_ok)) Demo.user
           (Ok Sample.ck_hk_identities) (Ok Sample.old_identities)
           Sample.sign_and_send_extrinsic
           (fun call w => eq_refl) None true true Demo.world0).
  vm_compute. reflexivity.
Defined.


(** ** The interactive selection *)

Section ODictFacts.
Context {K V : Type} (eqb : K -> K -> bool).
Hypothesis eqb_eq : forall x y, eqb x y = true <-> x = y.

Lemma eqb_same (k : K) : eqb k k = true.
Proof. apply eqb_eq. reflexivity. Qed.

Lemma eqb_other (k k' : K) : k <> k' -> eqb k k' = false.
Proof.
  intros Hne. destruct (eqb k k') eqn:E; [|reflexivity].
  apply eqb_eq in E. contradiction.
Qed.

Lemma get_set_eq (k : K) (v : V) (d : list (K * V)) :
  ODict.get eqb (ODict.set eqb k v d) k = Some v.
Proof.
  induction d as [|[k' v'] d IH]; cbn.
  - rewrite eqb_same. reflexivity.
  - destruct (eqb k' k) eqn:E; cbn; rewrite E; [reflexivity | exact IH].
Qed.

Lemma get_set_ne (k k' : K) (v : V) (d : list (K * V)) :
  k <> k' ->
  ODict.get eqb (ODict.set eqb k v d) k' = ODict.get eqb d k'.
Proof.
  intros Hne. induction d as [|[k0 v0] d IH]; cbn.
  - rewrite eqb_other by exact Hne. reflexivity.
  - destruct (eqb k0 k) eqn:E; cbn.
    + apply eqb_eq in E. subst k0.
      rewrite eqb_other by exact Hne. reflexivity.
    + destruct (eqb k0 k'); [reflexivity | exact IH].
Qed.

Lemma get_keys (d : list (K * V)) (k : K) :
  In k (ODict.keys d) <-> is_Some (ODict.get eqb d k).
Proof.
  induction d as [|[k' v'] d IH]; cbn.
  - split; [contradiction | intros [? ?]; discriminate].
  - destruct (eqb k' k) eqn:E.
    + apply eqb_eq in E. split; [eauto | auto].
    + rewrite <- IH. split; [|auto].
      intros [Heq | Hin]; [|exact Hin].
      apply eqb_eq in Heq. congruence.
Qed.

Lemma get_in (d : list (K * V)) (k : K) (v : V) :
  ODict.get eqb d k = Some v -> In (k, v) d.
Proof.
  induction d as [|[k' v'] d IH]; cbn; [discriminate|].
  destruct (eqb k' k) eqn:E.
  - apply eqb_eq in E. intros [= ->]. left. congruence.
  - auto.
Qed.

Lemma set_not_nil (k : K) (v : V) (d : list (K * V)) :
  ODict.set eqb k v d <> [].
Proof. destruct d as [|[k' v'] d]; cbn; [|destruct (eqb k' k)]; discriminate. Qed.

End ODictFacts.

Lemma Z_eqb_eq (x y : Z) : (x =? y)%Z = true <-> x = y.
Proof. apply Z.eqb_eq. Qed.

Lemma split_comma_not_nil (s : string) : Selection.split_comma s <> [].
Proof.
  induction s as [|c s IH]; cbn; [discriminate|].
  destruct (Ascii.eqb c ","); [discriminate|].
  destruct (Selection.split_comma s); discriminate.
Qed.

Lemma getitem_In {A} (l : list A) (i : Z) (x : A) :
  Selection.getitem l i = Ok x -> In x l.
Proof.
  unfold Selection.getitem.
  destruct (_ <? 0)%Z; [discriminate|].
  destruct (nth_error l _) as [y|] eqn:E; [|discriminate].
  intros [= <-]. eapply nth_error_In. exact E.
Qed.

Section SelectionFacts.
Import Proc Selection.
Variables (wallet : Wallet) (subtensor : SubtensorInterface).
Variables (lower strip : string -> string) (int_ : string -> option Z).

Lemma has_stake_more stake_infos more hotkey n :
  has_stake stake_infos hotkey n -> has_stake (stake_infos ++ more) hotkey n.
Proof.
  intros (s & Hin & Hrest). exists s. split; [|exact Hrest].
  apply in_or_app. left. exact Hin.
Qed.

Lemma backed_more netuid stake_infos more hotkey_stakes :
  backed netuid stake_infos hotkey_stakes ->
  backed netuid (stake_infos ++ more) hotkey_stakes.
Proof.
  intros Hb hotkey netuid_stakes Hget.
  destruct (Hb hotkey netuid_stakes Hget) as [Hne Hall].
  split; [exact Hne|]. intros n Hn. destruct (Hall n Hn) as [Hs Hf].
  split; [apply has_stake_more; exact Hs | exact Hf].
Qed.

Lemma hotkey_stakes_of_backed netuid stake_infos :
  backed netuid stake_infos (hotkey_stakes_of netuid stake_infos).
Proof.
  induction stake_infos as [|x l IH] using rev_ind.
  - intros hotkey netuid_stakes Hget. discriminate.
  - unfold hotkey_stakes_of. rewrite foldl_snoc.
    fold (hotkey_stakes_of netuid l).
    assert (Hold : backed netuid (l ++ [x]) (hotkey_stakes_of netuid l))
      by (apply backed_more; exact IH).
    destruct (match netuid with
              | Some netuid0 => negb (StakeInfo.netuid x =? netuid0)%Z
              | None => false
              end) eqn:Hskip; [exact Hold|].
    destruct (Py.gt (Balance.tao (StakeInfo.stake x)) 0) eqn:Hpos;
      [|exact Hold].
    intros hotkey netuid_stakes Hget.
    destruct (String.eqb_spec (StakeInfo.hotkey_ss58 x) hotkey) as [Hh|Hh].
    + subst hotkey.
      rewrite (get_set_eq String.eqb String.eqb_eq) in Hget.
      injection Hget as <-.
      split; [apply set_not_nil|].
      intros n Hn.
      destruct (Z.eqb_spec (StakeInfo.netuid x) n) as [Hx|Hx].
      * subst n. split.
        -- exists x. split; [apply in_or_app; right; left; reflexivity|].
           auto.
        -- destruct netuid as [netuid0|]; [|exact I].
           apply negb_false_iff, Z.eqb_eq in Hskip. exact Hskip.
      * rewrite (get_set_ne Z.eqb Z_eqb_eq) in Hn by exact Hx.
        destruct (ODict.get String.eqb (hotkey_stakes_of netuid l)
                    (StakeInfo.hotkey_ss58 x)) as [inner|] eqn:Hinner.
        -- cbn [default] in Hn. apply (Hold _ _ Hinner). exact Hn.
        -- cbn in Hn. destruct Hn as [? Hn]. discriminate.
    + rewrite (get_set_ne String.eqb String.eqb_eq) in Hget by exact Hh.
      apply (Hold _ _ Hget).
Qed.

Lemma hotkeys_info_of_keys identities old_identities hotkey_stakes :
  forall idx infos,
    hotkeys_info_of identities old_identities idx hotkey_stakes = Ok infos ->
    forall info,
      In info infos -> In (hotkey_ss58 info) (ODict.keys hotkey_stakes).
Proof.
  induction hotkey_stakes as [|[hk stakes] rest IH]; intros idx infos Hrun;
    cbn [hotkeys_info_of] in Hrun.
  - injection Hrun as <-. contradiction.
  - destruct (Identities.hotkey_name_of _ _ _ _); [|discriminate].
    destruct (hotkeys_info_of identities old_identities (S idx) rest)
      as [infos'|] eqn:Hrest; [|discriminate].
    injection Hrun as <-. intros info [<- | Hin].
    + left. reflexivity.
    + right. eapply IH; eassumption.
Qed.

Lemma stake_rows_known dynamic_info netuid_stakes :
  stake_rows dynamic_info netuid_stakes = Ok tt ->
  forall n, In n (ODict.keys netuid_stakes) -> is_Some (dynamic_info !! n).
Proof.
  induction netuid_stakes as [|[n0 a] rest IH]; cbn; [contradiction|].
  destruct (dynamic_info !! n0) eqn:Hn0; [|discriminate].
  intros Hrest n [<- | Hin]; [rewrite Hn0; eauto | auto].
Qed.

Lemma netuid_list_of_length words netuid_list :
  netuid_list_of strip int_ words = Some netuid_list ->
  length netuid_list = length words.
Proof.
  revert netuid_list.
  induction words as [|word words IH]; intros netuid_list; cbn.
  - intros [= <-]. reflexivity.
  - destruct (int_ (strip word)); [|discriminate].
    destruct (netuid_list_of strip int_ words); [|discriminate].
    intros [= <-]. cbn. rewrite (IH l); reflexivity.
Qed.

Lemma invalid_netuids_of_nil netuid_stakes netuid_list :
  invalid_netuids_of netuid_stakes netuid_list = [] ->
  forall n, In n netuid_list -> is_Some (ODict.get Z.eqb netuid_stakes n).
Proof.
  unfold invalid_netuids_of. intros Hnil n Hin.
  destruct (ODict.get Z.eqb netuid_stakes n) eqn:Hget; [eauto|].
  assert (Hbad : In n (List.filter
                         (fun n => match ODict.get Z.eqb netuid_stakes n with
                                   | None => true
                                   | Some _ => false
                                   end) netuid_list)).
  { apply List.filter_In. split; [exact Hin|]. rewrite Hget. reflexivity. }
  rewrite Hnil in Hbad. contradiction.
Qed.

(** The loop that asks for the netuids ends with netuids that are keys of
    [netuid_stakes], and with all of them when all were asked for. *)
Lemma ask_netuids_chosen netuid_stakes answers :
  netuid_stakes <> [] ->
  forall w selected_netuids unstake_all rest w',
    ask_netuids lower strip int_ netuid_stakes answers w
    = (Ok (selected_netuids, unstake_all, rest), w') ->
    selected_netuids <> []
    /\ (forall n, In n selected_netuids ->
                  is_Some (ODict.get Z.eqb netuid_stakes n))
    /\ (unstake_all = true -> selected_netuids = ODict.keys netuid_stakes)
    /\ composed w' = composed w /\ submitted w' = submitted w.
Proof.
  intros Hne.
  induction answers as [|netuid_input answers IH];
    intros w selected_netuids unstake_all rest w' Hrun;
    cbn [ask_netuids] in Hrun; [discriminate|].
  destruct (String.eqb (lower netuid_input) "all").
  { injection Hrun as <- <- <- <-.
    split; [destruct netuid_stakes; [contradiction | discriminate]|].
    split; [intros n Hn; apply (get_keys Z.eqb Z_eqb_eq); exact Hn|].
    auto. }
  destruct (netuid_list_of strip int_ (split_comma netuid_input))
    as [netuid_list|] eqn:Hlist.
  2:{ unfold bind in Hrun. cbn [emit] in Hrun. apply IH in Hrun. exact Hrun. }
  destruct (invalid_netuids_of netuid_stakes netuid_list) eqn:Hinvalid.
  2:{ unfold bind in Hrun. cbn [emit] in Hrun. apply IH in Hrun. exact Hrun. }
  injection Hrun as <- <- <- <-.
  split; [|split; [|split; [discriminate | auto]]].
  - apply netuid_list_of_length in Hlist.
    pose proof (split_comma_not_nil netuid_input) as Hwords.
    destruct netuid_list; [|discriminate].
    destruct (split_comma netuid_input); [contradiction | discriminate].
  - apply invalid_netuids_of_nil. exact Hinvalid.
Qed.

(** X14. Whatever the user types, a selection that [_unstake_selection]
    returns is never empty, names one hotkey only, and consists of subnets
    on which the chain reported a stake above zero for that hotkey and
    which are among the subnets handed in as [dynamic_info]; with a netuid
    given it is that netuid alone and "all" is not set. The selection
    neither composes nor submits. *)
Theorem selection_is_backed_by_stakes
    (dynamic_info : gmap Z DynamicInfo)
    (identities : gmap string (gmap string Identities.HkIdentity))
    (old_identities : gmap string string) (netuid : option Z)
    (answers : list string) (w : World) (stake_infos : list StakeInfo)
    (hotkeys_to_unstake_from : list (string * string * Z))
    (unstake_all : bool) (rest : list string) (w' : World) :
  get_stake_for_coldkey subtensor (coldkeypub_ss58_address wallet)
  = Ok stake_infos ->
  _unstake_selection wallet subtensor lower strip int_ dynamic_info
    identities old_identities netuid answers w
  = (Ok (hotkeys_to_unstake_from, unstake_all, rest), w') ->
  hotkeys_to_unstake_from <> []
  /\ (exists hotkey_name hotkey_ss58,
        Forall (fun triple =>
                  fst (fst triple) = hotkey_name
                  /\ snd (fst triple) = hotkey_ss58
                  /\ has_stake stake_infos hotkey_ss58 (snd triple)
                  /\ is_Some (dynamic_info !! snd triple))
          hotkeys_to_unstake_from)
  /\ match netuid with
     | Some netuid =>
         map snd hotkeys_to_unstake_from = [netuid] /\ unstake_all = false
     | None => True
     end
  /\ composed w' = composed w /\ submitted w' = submitted w.
Proof.
  intros Hstakes Hrun. unfold _unstake_selection in Hrun.
  unfold bind at 1, lift at 1 in Hrun. rewrite Hstakes in Hrun.
  destruct stake_infos as [|s0 l0] eqn:Hinfos; [discriminate|].
  rewrite <- Hinfos in *. clear Hinfos.
  pose proof (hotkey_stakes_of_backed netuid stake_infos) as Hbacked.
  destruct (hotkey_stakes_of netuid stake_infos) as [|e0 d0] eqn:Hd;
    [discriminate|].
  rewrite <- Hd in *.
  unfold bind at 1, lift at 1 in Hrun.
  destruct (hotkeys_info_of identities old_identities 0 _) as [infos|]
    eqn:Hinfos; [|discriminate].
  unfold bind at 1 in Hrun. cbn [emit] in Hrun.
  destruct answers as [|hotkey_idx answers]; [discriminate|].
  destruct (int_ hotkey_idx) as [i|]; [|discriminate].
  unfold bind at 1, lift at 1 in Hrun.
  destruct (getitem infos i) as [info|] eqn:Hitem; [|discriminate].
  destruct (ODict.get String.eqb _ (hotkey_ss58 info)) as [netuid_stakes|]
    eqn:Hget; [|discriminate].
  destruct (Hbacked _ _ Hget) as [Hne Hall].
  unfold bind at 1, lift at 1 in Hrun.
  destruct (stake_rows dynamic_info netuid_stakes) as [[]|] eqn:Hrows;
    [|discriminate].
  pose proof (stake_rows_known _ _ Hrows) as Hknown.
  unfold bind at 1 in Hrun. cbn [emit] in Hrun.
  unfold bind at 1 in Hrun.
  destruct netuid as [n0|].
  - cbn [ret] in Hrun. injection Hrun as <- <- <- <-.
    assert (Hn0 : is_Some (ODict.get Z.eqb netuid_stakes n0)).
    { destruct netuid_stakes as [|[n a] rest0]; [contradiction|].
      destruct (Hall n) as [_ ->]; cbn; rewrite Z.eqb_refl; eauto. }
    split; [discriminate|]. split; [|split; [split; reflexivity | auto]].
    exists (identity info), (hotkey_ss58 info).
    constructor; [|constructor]. cbn.
    repeat split; [apply Hall; exact Hn0|].
    apply Hknown, (get_keys Z.eqb Z_eqb_eq). exact Hn0.
  - match type of Hrun with
    | context [ask_netuids ?a ?b ?c ?d ?e ?w0] =>
        destruct (ask_netuids a b c d e w0)
          as [[[[selected_netuids flag] answers'] | ] w1] eqn:Hask;
          [|discriminate]
    end.
    apply (ask_netuids_chosen _ _ Hne) in Hask
      as (Hsel & Hin & _ & Hc & Hs).
    cbn [ret] in Hrun. injection Hrun as <- <- <- <-.
    split; [destruct selected_netuids; [contradiction | discriminate]|].
    split; [|split; [exact I | auto]].
    exists (identity info), (hotkey_ss58 info).
    apply List.Forall_forall. intros triple Htriple.
    apply in_map_iff in Htriple as (n & <- & Hn). cbn.
    repeat split; [apply Hall, Hin; exact Hn|].
    apply Hknown, (get_keys Z.eqb Z_eqb_eq), Hin. exact Hn.
Qed.

End SelectionFacts.

(** The user picks the only hotkey, asks for subnet 9, on which there is
    no stake, then for a word, then for subnets 1 and 2. *)
Lemma selection_is_backed_by_stakes_witness :
  let run :=
    Selection._unstake_selection Demo.wallet
      (Demo.chain (Ok Demo.response_ok)) (fun s => s) (fun s => s)
      Sample.int_ Demo.infos Sample.ck_hk_identities Sample.old_identities
      None ["0"; "9"; "one"; "1,2"; "y"] Demo.world0 in
  fst run
  = Ok ([("validator", "5Hot", 1%Z); ("validator", "5Hot", 2%Z)], false,
        ["y"])
  /\ Proc.composed (snd run) = [] /\ Proc.submitted (snd run) = [].
Proof.
  cbn zeta. split; [vm_compute; reflexivity|].
  apply (selection_is_backed_by_stakes Demo.wallet
           (Demo.chain (Ok Demo.response_ok)) (fun s => s) (fun s => s)
           Sample.int_ Demo.infos Sample.ck_hk_identities
           Sample.old_identities None ["0"; "9"; "one"; "1,2"; "y"]
           Demo.world0
           [Demo.stake_on 0 5; Demo.stake_on 1 30; Demo.stake_on 2 1]
           [("validator", "5Hot", 1%Z); ("validator", "5Hot", 2%Z)] false
           ["y"]).
  - reflexivity.
  - vm_compute. reflexivity.
Defined.


(** ** Registration of a subnet *)

Section RegistrationFacts.
Import Proc Subnets Registration.
Context `{Externals}.
Variables (subtensor : SubtensorInterface) (wallet : Wallet) (user : User).
Variables (w : World) (your_balance_ : gmap string Balance)
          (your_balance : Balance) (lc : Z).
Hypothesis Hbalances :
  get_balance subtensor (submitted w) (coldkeypub_ss58_address wallet)
  = Ok your_balance_.
Hypothesis Hbalance :
  your_balance_ !! coldkeypub_ss58_address wallet = Some your_balance.
Hypothesis Hcost :
  query_runtime_api subtensor "SubnetRegistrationRuntimeApi"
    "get_network_registration_cost" = Ok (Some lc).
Hypothesis Hlc : lc <> 0%Z.

Lemma lock_cost_known :
  lock_cost subtensor w
  = (Ok (Some (Balance.from_rao lc)),
     Ledger.printing_all [lock_cost_line (Balance.from_rao lc)] w).
Proof.
  unfold lock_cost, bind at 1, lift. rewrite Hcost.
  destruct lc; [contradiction | reflexivity | reflexivity].
Qed.

(** X15. A registration that the balance cannot pay for stops at once:
    when the lock cost is more than the balance of the coldkey,
    [register_subnetwork_extrinsic] prints the lock cost and that the
    balance is not enough and returns [False]; the user is not asked, and
    nothing is composed or submitted. *)
Theorem registration_stops_below_lock_cost
    (wait_for_inclusion wait_for_finalization prompt : bool) :
  Balance.gtb (Balance.from_rao lc) your_balance = true ->
  register_subnetwork_extrinsic subtensor wallet user wait_for_inclusion
    wait_for_finalization prompt w
  = (Ok false,
     Ledger.printing_all
       [lock_cost_line (Balance.from_rao lc);
        not_enough_line your_balance (Balance.from_rao lc)] w).
Proof.
  intros Hmore. unfold register_subnetwork_extrinsic.
  unfold bind at 1. cbn [history].
  unfold bind at 1, lift at 1. rewrite Hbalances, Hbalance.
  unfold bind at 1. rewrite lock_cost_known. rewrite Hmore.
  unfold bind, emit, ret, Ledger.printing_all. cbn.
  rewrite <- app_assoc. reflexivity.
Qed.

Variables (prompt : bool) (call : Call) (x : Extrinsic)
          (response : Response).
Hypothesis Hpay : Balance.gtb (Balance.from_rao lc) your_balance = false.
Hypothesis Hconsent :
  prompt = false
  \/ Confirm_ask user (question (Balance.from_rao lc)) = true.
Hypothesis Hunlock : unlock_coldkey wallet = Ok tt.
Hypothesis Hcall :
  compose_call subtensor (register_network_call wallet) = Ok call.
Hypothesis Hsign :
  create_signed_extrinsic subtensor call (coldkey wallet) None = Ok x.
Hypothesis Hsubmit :
  submit_extrinsic subtensor (submitted w) x = Ok response.

(** Up to the submission, and what is left to do after it. *)
Lemma registration_submits wait_for_inclusion wait_for_finalization :
  register_subnetwork_extrinsic subtensor wallet user wait_for_inclusion
    wait_for_finalization prompt w
  = (if (negb wait_for_finalization && negb wait_for_inclusion)%bool
     then ret true
     else
       (lift (process_events response) ;;;
        ok <- lift (is_success response) ;;
        if negb ok then
          msg <- lift (error_message response) ;;
          emit (failed_line msg) ;;;
          ret false
        else
          events <- lift (triggered_events response) ;;
          match find_event_attributes events "NetworkAdded" with
          | [] => raise Py.IndexError
          | netuid :: _ => emit (registered_line netuid) ;;; ret true
          end)%proc)
      (submitted_in wallet prompt your_balance (Balance.from_rao lc) x w).
Proof.
  unfold register_subnetwork_extrinsic.
  unfold bind at 1. cbn [history].
  unfold bind at 1, lift at 1. rewrite Hbalances, Hbalance.
  unfold bind at 1. rewrite lock_cost_known. rewrite Hpay.
  unfold bind at 1.
  assert (Hasked :
            (if prompt
             then (emit (console_print
                           ("Your balance is: [green]"
                            +:+ str_Balance your_balance +:+ "[/green]")) ;;;
                   ret (Confirm_ask user
                          ("Do you want to register a subnet for [green]"
                           +:+ str_Balance (Balance.from_rao lc)
                           +:+ "[/green]?")))%proc
             else ret true)
              (Ledger.printing_all [lock_cost_line (Balance.from_rao lc)] w)
            = (Ok true,
               Ledger.printing_all
                 (preamble prompt your_balance (Balance.from_rao lc)) w)).
  { unfold preamble. destruct prompt.
    - destruct Hconsent as [Hno | Hyes]; [discriminate|].
      unfold question in Hyes. unfold bind. cbn [emit ret]. rewrite Hyes.
      unfold ret, Ledger.printing_all. cbn.
      rewrite <- app_assoc. reflexivity.
    - reflexivity. }
  rewrite Hasked. cbn [negb].
  unfold bind at 1, try_except, bind at 1, lift at 1. rewrite Hunlock.
  cbn [ret negb].
  unfold bind at 1, compose at 1.
  change {| call_module := "SubtensorModule";
            call_function := "register_network";
            call_params :=
              <["hotkey" := PStr (hotkey_ss58_address wallet)]>
                (<["mechid" := PInt 1]> ∅) |}
    with (register_network_call wallet).
  rewrite Hcall.
  unfold bind at 1, lift at 1. rewrite Hsign.
  unfold bind at 1, submit at 1. cbn [submitted Ledger.printing_all].
  rewrite Hsubmit. reflexivity.
Qed.

(** X16. Without waiting there is no check: with [wait_for_inclusion]
    and [wait_for_finalization] both off, a registration that was
    submitted returns [True] whatever the receipt says, prints nothing
    about the outcome, and has composed [register_network] with the
    hotkey of the wallet and [mechid] 1 and submitted one extrinsic. *)
Theorem registration_without_waiting_returns_true :
  register_subnetwork_extrinsic subtensor wallet user false false prompt w
  = (Ok true,
     submitted_in wallet prompt your_balance (Balance.from_rao lc) x w).
Proof. rewrite registration_submits. reflexivity. Qed.

Lemma find_event_attributes_first events event_name :
  find_event_attributes events event_name
  = match first_event events event_name with
    | Some event => snd event
    | None => [(-1)%Z]
    end.
Proof.
  unfold first_event.
  induction events as [|[event_id attributes] rest IH]; cbn; [reflexivity|].
  destruct (String.eqb event_id event_name); [reflexivity | exact IH].
Qed.

(** X17. After a successful receipt the netuid that is reported is the
    first attribute of the first [NetworkAdded] event of the receipt, and
    when the receipt has no such event the registration still returns
    [True] and reports netuid -1. *)
Theorem registered_netuid_is_read_from_the_event
    (wait_for_inclusion wait_for_finalization : bool)
    (events : list (string * list Z)) :
  (wait_for_inclusion || wait_for_finalization)%bool = true ->
  process_events response = Ok tt ->
  is_success response = Ok true ->
  triggered_events response = Ok events ->
  let reported netuid :=
    (Ok true,
     Ledger.printing_all [registered_line netuid]
       (submitted_in wallet prompt your_balance (Balance.from_rao lc) x w)) in
  let run :=
    register_subnetwork_extrinsic subtensor wallet user wait_for_inclusion
      wait_for_finalization prompt w in
  match first_event events "NetworkAdded" with
  | Some (_, netuid :: _) => run = reported netuid
  | Some (_, []) => fst run = Raise Py.IndexError
  | None => run = reported (-1)%Z
  end.
Proof.
  intros Hwait Hprocess Hsuccess Hevents. cbn zeta.
  rewrite registration_submits.
  assert (Hnowait :
            (negb wait_for_finalization && negb wait_for_inclusion)%bool
            = false).
  { destruct wait_for_inclusion, wait_for_finalization;
      cbn in *; congruence. }
  rewrite Hnowait.
  unfold bind, lift. rewrite Hprocess, Hsuccess. cbn [negb].
  rewrite Hevents, find_event_attributes_first.
  destruct (first_event events "NetworkAdded") as [[event_id [|netuid rest]]|];
    reflexivity.
Qed.

End RegistrationFacts.

Lemma registration_stops_below_lock_cost_witness :
  Subnets.register_subnetwork_extrinsic (H := Demo.externals)
    Sample.expensive_chain Demo.wallet Demo.user false true true Demo.world0
  = (Ok false,
     Ledger.printing_all
       [Registration.lock_cost_line (H := Demo.externals)
          (Demo.tao_ 200);
        Registration.not_enough_line (H := Demo.externals) (Demo.tao_ 100)
          (Demo.tao_ 200)]
       Demo.world0).
Proof.
  apply (registration_stops_below_lock_cost (H := Demo.externals)
           Sample.expensive_chain Demo.wallet Demo.user Demo.world0
           {["5Cold" := Demo.tao_ 100]} (Demo.tao_ 100) 200000000000%Z
           eq_refl eq_refl eq_refl ltac:(discriminate) false true true
           eq_refl).
Defined.

Lemma registration_without_waiting_returns_true_witness :
  fst (Subnets.register_subnetwork_extrinsic (H := Demo.externals)
         (Demo.chain (Ok Sample.response_without_event)) Demo.wallet
         Demo.user false false true Demo.world0)
  = Ok true.
Proof.
  rewrite (registration_without_waiting_returns_true (H := Demo.externals)
             (Demo.chain (Ok Sample.response_without_event)) Demo.wallet
             Demo.user Demo.world0 {["5Cold" := Demo.tao_ 100]}
             (Demo.tao_ 100) 1000000000%Z eq_refl eq_refl eq_refl
             ltac:(discriminate) true
             (Registration.register_network_call Demo.wallet)
             Sample.registration Sample.response_without_event eq_refl
             (or_intror eq_refl) eq_refl eq_refl eq_refl eq_refl).
  reflexivity.
Defined.

Lemma registered_netuid_is_read_from_the_event_witness :
  Subnets.register_subnetwork_extrinsic (H := Demo.externals)
    (Demo.chain (Ok Sample.response_without_event)) Demo.wallet Demo.user
    false true true Demo.world0
  = (Ok true,
     Ledger.printing_all
       [Registration.registered_line (-1)]
       (Registration.submitted_in (H := Demo.externals) Demo.wallet true
          (Demo.tao_ 100) (Demo.tao_ 1) Sample.registration Demo.world0)).
Proof.
  apply (registered_netuid_is_read_from_the_event (H := Demo.externals)
           (Demo.chain (Ok Sample.response_without_event)) Demo.wallet
           Demo.user Demo.world0 {["5Cold" := Demo.tao_ 100]}
           (Demo.tao_ 100) 1000000000%Z eq_refl eq_refl eq_refl
           ltac:(discriminate) true
           (Registration.register_network_call Demo.wallet)
           Sample.registration Sample.response_without_event eq_refl
           (or_intror eq_refl) eq_refl eq_refl eq_refl eq_refl
           false true [("ExtrinsicSuccess", [])] eq_refl eq_refl eq_refl
           eq_refl).
Defined.


(** ** [register] *)

Section RegisterNeuronFacts.
Import Proc RegisterNeuron.
Context `{Externals}.
Variables (wallet : Wallet) (subtensor : SubtensorInterface) (user : User).
Variables
  (subnet_exists : Z -> string -> result bool)
  (get_hyperparameter : string -> Z -> string -> result (option Z))
  (burned_register_extrinsic : Z -> Balance -> M bool).

(** The guards of [register], for a run that ends in the world [w']. *)
Lemma register_guards (netuid : Z) (prompt : bool) (w : World) :
  forall r w',
    register wallet subtensor user subnet_exists get_hyperparameter
      burned_register_extrinsic netuid prompt w = (r, w') ->
  (composed w' = composed w /\ submitted w' = submitted w)
  \/ exists block_hash current_recycle_ balance_ balance w1,
       get_chain_head subtensor (submitted w) = Ok block_hash
       /\ subnet_exists netuid block_hash = Ok true
       /\ get_hyperparameter "Burn" netuid block_hash = Ok current_recycle_
       /\ get_balance subtensor (submitted w) (coldkeypub_ss58_address wallet)
          = Ok balance_
       /\ balance_ !! coldkeypub_ss58_address wallet = Some balance
       /\ (Balance.rao (current_recycle_of current_recycle_)
           <= Balance.rao balance)%Z
       /\ (prompt = true ->
           Confirm_ask user
             (question balance (current_recycle_of current_recycle_)) = true)
       /\ composed w1 = composed w /\ submitted w1 = submitted w
       /\ w' = snd (burned_register_extrinsic netuid balance w1).
Proof.
  intros r w'. unfold register.
  unfold bind at 1. cbn [history].
  unfold bind at 1, lift at 1.
  destruct (get_chain_head subtensor (submitted w)) as [block_hash|e] eqn:Hhead;
    [|intros [= <- <-]; left; split; reflexivity].
  unfold bind at 1, lift at 1.
  destruct (subnet_exists netuid block_hash) as [[]|e] eqn:Hexists;
    cbn [negb]; [|intros [= <- <-]; left; split; reflexivity..].
  unfold bind at 1, lift at 1.
  destruct (get_hyperparameter "Burn" netuid block_hash)
    as [current_recycle_|e] eqn:Hburn;
    [|intros [= <- <-]; left; split; reflexivity].
  unfold bind at 1, lift at 1.
  destruct (get_balance subtensor (submitted w) _) as [balance_|e] eqn:Hbal;
    [|intros [= <- <-]; left; split; reflexivity].
  destruct (balance_ !! coldkeypub_ss58_address wallet) as [balance|] eqn:Hmine;
    [|intros [= <- <-]; left; split; reflexivity].
  destruct (Balance.gtb (current_recycle_of current_recycle_) balance)
    eqn:Hlt; [intros [= <- <-]; left; split; reflexivity|].
  unfold Balance.gtb in Hlt. apply Z.ltb_ge in Hlt.
  destruct prompt.
  - unfold bind at 1, bind at 1. cbn [emit ret].
    destruct (Confirm_ask user _) eqn:Hask; cbn [negb];
      [|intros [= <- <-]; left; split; reflexivity].
    unfold bind, ret.
    match goal with
    | |- context [burned_register_extrinsic netuid balance ?w0] =>
        set (w1 := w0);
        destruct (burned_register_extrinsic netuid balance w1)
          as [[b|e] w2] eqn:Hburned
    end; intros [= <- <-];
      right; exists block_hash, current_recycle_, balance_, balance, w1;
      rewrite Hburned; repeat split; auto.
  - unfold bind at 1. cbn [ret negb]. unfold bind, ret.
    destruct (burned_register_extrinsic netuid balance w)
      as [[b|e] w2] eqn:Hburned; intros [= <- <-];
      right; exists block_hash, current_recycle_, balance_, balance, w;
      rewrite Hburned; repeat split; auto; discriminate.
Qed.

(** X18. [register] hands over to [burned_register_extrinsic] only when
    the subnet exists at the chain head, the balance of the coldkey is
    not below the recycle cost (zero when the chain reports none) and,
    with [prompt], the user agrees; it then passes the balance it read as
    [old_balance], runs the extrinsic once, and has composed and
    submitted nothing itself. In every other case nothing is composed or
    submitted at all. *)
Theorem register_burns_only_with_subnet_funds_and_consent
    (netuid : Z) (prompt : bool) (w : World) :
  let run :=
    register wallet subtensor user subnet_exists get_hyperparameter
      burned_register_extrinsic netuid prompt w in
  (composed (snd run) = composed w /\ submitted (snd run) = submitted w)
  \/ exists block_hash current_recycle_ balance_ balance w1,
       get_chain_head subtensor (submitted w) = Ok block_hash
       /\ subnet_exists netuid block_hash = Ok true
       /\ get_hyperparameter "Burn" netuid block_hash = Ok current_recycle_
       /\ get_balance subtensor (submitted w) (coldkeypub_ss58_address wallet)
          = Ok balance_
       /\ balance_ !! coldkeypub_ss58_address wallet = Some balance
       /\ (Balance.rao (current_recycle_of current_recycle_)
           <= Balance.rao balance)%Z
       /\ (prompt = true ->
           Confirm_ask user
             (question balance (current_recycle_of current_recycle_)) = true)
       /\ composed w1 = composed w /\ submitted w1 = submitted w
       /\ snd run = snd (burned_register_extrinsic netuid balance w1).
Proof.
  cbn zeta.
  destruct (register _ _ _ _ _ _ _ _ w) as [r w'] eqn:Hrun.
  exact (register_guards netuid prompt w r w' Hrun).
Qed.

End RegisterNeuronFacts.


(** ** [show_subnet] *)

Section ShowSubnetFacts.
Import ShowSubnet.

Lemma foldl_emission (l : list Balance) :
  forall total,
    (foldl (fun total e => total + Balance.tao e) total l
     == total + foldr (fun e rest => Balance.tao e + rest) 0 l)%Q.
Proof.
  induction l as [|e l IH]; intros total; cbn [foldl foldr].
  - ring.
  - rewrite IH. ring.
Qed.

Lemma nonzero_neq (x : Q) : Py.nonzero x = true -> ~ (x == 0)%Q.
Proof.
  unfold Py.nonzero. intros Hnz Hx.
  apply negb_true_iff in Hnz. apply Qeq_bool_iff in Hx. congruence.
Qed.

Lemma getitem_lt {A} (l : list A) (idx : nat) :
  (idx < length l)%nat -> exists x, l !! idx = Some x /\ getitem l idx = Ok x.
Proof.
  intros Hlt. destruct (lookup_lt_is_Some_2 l idx Hlt) as [x Hx].
  exists x. unfold getitem. rewrite Hx. auto.
Qed.

Variables (subnet_state : SubnetState) (netuid_ : Z).

(** The loop from the index [idx] on, when no list is shorter than that
    of the hotkeys. *)
Lemma rows_loop_sums (emission_sum : Q) (rest : list string) :
  forall idx sums,
    (idx + length rest <= length (hotkeys subnet_state))%nat ->
    (idx + length rest <= length (coldkeys subnet_state))%nat ->
    (idx + length rest <= length (emission subnet_state))%nat ->
    (idx + length rest <= length (global_stake subnet_state))%nat ->
    (idx + length rest <= length (local_stake subnet_state))%nat ->
    (idx + length rest <= length (stake_weight subnet_state))%nat ->
    (idx + length rest <= length (incentives subnet_state))%nat ->
    exists sums',
      rows_loop subnet_state netuid_ emission_sum rest idx sums = Ok sums'
      /\ length (rows sums') = (length (rows sums) + length rest)%nat
      /\ (relative_emissions_sum sums'
          == relative_emissions_sum sums
             + if Py.nonzero emission_sum
               then
                 foldr (fun e total => Balance.tao e + total) 0
                   (take (length rest) (drop idx (emission subnet_state)))
                 / emission_sum
               else 0)%Q
      /\ Balance.rao (tao_sum sums')
         = (Balance.rao (tao_sum sums)
            + rao_of_first (length rest)
                (drop idx (global_stake subnet_state)))%Z
      /\ Balance.rao (stake_sum sums')
         = (Balance.rao (stake_sum sums)
            + rao_of_first (length rest)
                (drop idx (local_stake subnet_state)))%Z.
Proof.
  induction rest as [|hk rest IH]; intros idx sums Hh Hc He Hg Hl Hw Hi;
    cbn [rows_loop length].
  - exists sums. split; [reflexivity|]. split; [lia|].
    unfold rao_of_first. rewrite !take_0. cbn [foldr].
    split.
    { destruct (Py.nonzero emission_sum) eqn:Hnz; [|ring].
      field. apply nonzero_neq; exact Hnz. }
    split; lia.
  - cbn [length] in *.
    destruct (getitem_lt (hotkeys subnet_state) idx) as (h & _ & Hh');
      [lia|].
    destruct (getitem_lt (coldkeys subnet_state) idx) as (c & _ & Hc');
      [lia|].
    destruct (getitem_lt (emission subnet_state) idx) as (e & He1 & He');
      [lia|].
    destruct (getitem_lt (global_stake subnet_state) idx) as (g & Hg1 & Hg');
      [lia|].
    destruct (getitem_lt (local_stake subnet_state) idx) as (l & Hl1 & Hl');
      [lia|].
    destruct (getitem_lt (stake_weight subnet_state) idx) as (wt & _ & Hw');
      [lia|].
    destruct (getitem_lt (incentives subnet_state) idx) as (i & _ & Hi');
      [lia|].
    unfold hotkey_block_emission_of.
    rewrite Hh', Hc', Hg', Hl', Hw', Hi'.
    rewrite (drop_S _ _ _ He1), (drop_S _ _ _ Hg1), (drop_S _ _ _ Hl1).
    unfold rao_of_first. rewrite !firstn_cons. cbn [foldr].
    destruct (Py.nonzero emission_sum) eqn:Hnz.
    + rewrite He'. cbn [and_then]. unfold Py.truediv.
      pose proof Hnz as Hnz'. unfold Py.nonzero in Hnz'.
      apply negb_true_iff in Hnz'. rewrite Hnz'. cbn [and_then].
      match goal with
      | |- context [rows_loop _ _ _ rest (S idx) ?sums1] =>
          destruct (IH (S idx) sums1)
            as (sums' & -> & Hrows & Hrel & Htao & Hstake); try lia
      end.
      exists sums'. split; [reflexivity|].
      try rewrite Hnz in Hrel.
      cbn [rows relative_emissions_sum tao_sum stake_sum Balance.add
           Balance.rao] in Hrows, Hrel, Htao, Hstake.
      split; [rewrite Hrows, length_app; cbn; lia|].
      split; [rewrite Hrel; field; apply nonzero_neq; exact Hnz|].
      unfold rao_of_first in *. split; lia.
    + cbn [and_then]. rewrite He'. cbn [and_then].
      match goal with
      | |- context [rows_loop _ _ _ rest (S idx) ?sums1] =>
          destruct (IH (S idx) sums1)
            as (sums' & -> & Hrows & Hrel & Htao & Hstake); try lia
      end.
      exists sums'. split; [reflexivity|].
      try rewrite Hnz in Hrel.
      cbn [rows relative_emissions_sum tao_sum stake_sum Balance.add
           Balance.rao] in Hrows, Hrel, Htao, Hstake.
      split; [rewrite Hrows, length_app; cbn; lia|].
      split; [rewrite Hrel; ring|].
      unfold rao_of_first in *. split; lia.
Qed.

(** X19. The Dividends column of [show_subnet] adds up to one. When the
    decoded state has as many emissions as hotkeys and no other list is
    shorter, the table has one row per hotkey and no [IndexError] or
    [ZeroDivisionError] is raised; the footer of the Dividends column is,
    in exact arithmetic, 1 when the emissions do not add up to zero and
    0 when they do; and the footers of the TAO and Stake columns are the
    sums over the hotkeys. *)
Theorem dividends_add_up_to_one :
  length (emission subnet_state) = length (hotkeys subnet_state) ->
  (length (hotkeys subnet_state) <= length (coldkeys subnet_state))%nat ->
  (length (hotkeys subnet_state) <= length (global_stake subnet_state))%nat ->
  (length (hotkeys subnet_state) <= length (local_stake subnet_state))%nat ->
  (length (hotkeys subnet_state) <= length (stake_weight subnet_state))%nat ->
  (length (hotkeys subnet_state) <= length (incentives subnet_state))%nat ->
  exists sums,
    table_of subnet_state netuid_ = Ok sums
    /\ length (rows sums) = length (hotkeys subnet_state)
    /\ (relative_emissions_sum sums
        == if Py.nonzero (emission_sum_of subnet_state) then 1 else 0)%Q
    /\ Balance.rao (tao_sum sums)
       = rao_of_first (length (hotkeys subnet_state))
           (global_stake subnet_state)
    /\ Balance.rao (stake_sum sums)
       = rao_of_first (length (hotkeys subnet_state))
           (local_stake subnet_state).
Proof.
  intros He Hc Hg Hl Hw Hi. unfold table_of.
  destruct (rows_loop_sums (emission_sum_of subnet_state)
              (hotkeys subnet_state) 0 Sums_init)
    as (sums & Hrun & Hrows & Hrel & Htao & Hstake); try lia.
  exists sums. split; [exact Hrun|]. split; [exact Hrows|].
  cbn in Hrel, Htao, Hstake. rewrite !drop_0 in *.
  split; [|split; [exact Htao | exact Hstake]].
  rewrite Hrel. rewrite <- He, firstn_all.
  destruct (Py.nonzero (emission_sum_of subnet_state)) eqn:Hnz; [|ring].
  apply nonzero_neq in Hnz.
  assert (Hsum : (foldr (fun e total => Balance.tao e + total) 0
                    (emission subnet_state)
                  == emission_sum_of subnet_state)%Q).
  { unfold emission_sum_of. rewrite foldl_emission. ring. }
  rewrite Hsum. field. exact Hnz.
Qed.

End ShowSubnetFacts.

Lemma dividends_add_up_to_one_witness :
  exists sums,
    ShowSubnet.table_of Sample.subnet_state 1 = Ok sums
    /\ length (ShowSubnet.rows sums) = 2%nat
    /\ (ShowSubnet.relative_emissions_sum sums == 1)%Q
    /\ Balance.rao (ShowSubnet.tao_sum sums) = 70000000000%Z
    /\ Balance.rao (ShowSubnet.stake_sum sums) = 50000000000%Z.
Proof.
  apply (dividends_add_up_to_one Sample.subnet_state 1);
    cbn; solve [reflexivity | lia].
Defined.


(** ** The metagraph table *)

Section MetagraphColumns.
Import Metagraph.

Lemma select_columns_selected table_cols_indices row new_row :
  select_columns table_cols_indices row = Ok new_row ->
  Forall2 (fun idx cell => nth_error row idx = Some cell)
    table_cols_indices new_row.
Proof.
  revert new_row.
  induction table_cols_indices as [|idx rest IH]; intros new_row; cbn.
  - intros [= <-]. constructor.
  - destruct (nth_error row idx) as [cell|] eqn:Hcell; [|discriminate].
    destruct (select_columns rest row) as [cells|]; [|discriminate].
    intros [= <-]. constructor; [exact Hcell | apply IH; reflexivity].
Qed.

Lemma select_columns_total table_cols_indices row :
  Forall (fun idx => idx < length row) table_cols_indices ->
  exists new_row, select_columns table_cols_indices row = Ok new_row.
Proof.
  induction table_cols_indices as [|idx rest IH]; intros Hall; cbn.
  - eauto.
  - inversion Hall as [|? ? Hidx Hrest]; subst.
    destruct (nth_error row idx) as [cell|] eqn:Hcell.
    + destruct (IH Hrest) as [cells ->]. eauto.
    + apply nth_error_None in Hcell. lia.
Qed.

Lemma select_all_selected table_cols_indices table_data rows :
  select_all table_cols_indices table_data = Ok rows ->
  Forall2 (fun row new_row =>
             Forall2 (fun idx cell => nth_error row idx = Some cell)
               table_cols_indices new_row)
    table_data rows.
Proof.
  revert rows.
  induction table_data as [|row rest IH]; intros rows; cbn.
  - intros [= <-]. constructor.
  - destruct (select_columns table_cols_indices row) as [r|] eqn:Hrow;
      [|discriminate].
    destruct (select_all table_cols_indices rest) as [rs|]; [|discriminate].
    intros [= <-].
    constructor; [apply select_columns_selected; exact Hrow|].
    apply IH. reflexivity.
Qed.

Lemma select_all_total table_cols_indices table_data :
  Forall (fun row => Forall (fun idx => idx < length row) table_cols_indices)
    table_data ->
  exists rows, select_all table_cols_indices table_data = Ok rows.
Proof.
  induction table_data as [|row rest IH]; intros Hall; cbn.
  - eauto.
  - inversion Hall as [|? ? Hrow Hrest]; subst.
    destruct (select_columns_total _ _ Hrow) as [r ->].
    destruct (IH Hrest) as [rs ->]. eauto.
Qed.

Lemma shown_indices_spec display_cols :
  forall start,
    length (shown_indices display_cols start) = Columns.shown display_cols
    /\ Forall (fun idx =>
                 start <= idx < start + length display_cols
                 /\ nth_error display_cols (idx - start) = Some true)
         (shown_indices display_cols start)
    /\ Sorted lt (shown_indices display_cols start).
Proof.
  unfold Columns.shown.
  induction display_cols as [|shown rest IH]; intros start; cbn.
  - repeat split; constructor.
  - destruct (IH (S start)) as (Hlen & Hall & Hsorted).
    assert (Hshift :
              Forall (fun idx =>
                        start <= idx < start + S (length rest)
                        /\ nth_error (shown :: rest) (idx - start)
                           = Some true)
                (shown_indices rest (S start))).
    { eapply List.Forall_impl; [|exact Hall].
      intros idx [Hrange Hnth]. split; [lia|].
      replace (idx - start) with (S (idx - S start)) by lia. exact Hnth. }
    destruct shown; cbn.
    + split; [rewrite Hlen; reflexivity|]. split.
      * constructor; [|exact Hshift].
        split; [lia|]. rewrite Nat.sub_diag. reflexivity.
      * constructor; [exact Hsorted|].
        destruct (shown_indices rest (S start)) as [|i l]; constructor.
        inversion Hall as [|? ? [Hi _] _]; subst. lia.
    + repeat split; assumption.
Qed.

(** X20. The rows that [metagraph_cmd] adds to its table follow the
    column settings. With no column enabled there is one row, a single
    cell of 256 blanks; with all columns enabled the rows are those of
    the table data; otherwise every row is cut down to the cells of the
    enabled columns, in the order of the columns, so that it has as many
    cells as there are enabled columns. Rows that have a cell for every
    column are never refused. *)
Theorem metagraph_rows_follow_the_columns
    (display_cols : list bool) (table_data : list (list Json.str)) :
  (forall rows,
     added_rows display_cols table_data = Ok rows ->
     if forallb negb display_cols then rows = [[repeat 32%N 256]]
     else if existsb negb display_cols then
       Forall2 (fun row new_row =>
                  Columns.selected display_cols row new_row
                  /\ length new_row = Columns.shown display_cols)
         table_data rows
     else rows = table_data)
  /\ (Forall (fun row => length display_cols <= length row) table_data ->
      exists rows, added_rows display_cols table_data = Ok rows)
  /\ Forall (fun idx => nth_error display_cols idx = Some true)
       (shown_indices display_cols 0)
  /\ Sorted lt (shown_indices display_cols 0).
Proof.
  destruct (shown_indices_spec display_cols 0) as (Hlen & Hall & Hsorted).
  split; [|split; [|split]].
  - intros rows Hrows. unfold added_rows in Hrows.
    destruct (forallb negb display_cols); [congruence|].
    destruct (existsb negb display_cols); [|congruence].
    apply select_all_selected in Hrows.
    eapply Forall2_impl; [exact Hrows|].
    intros row new_row Hsel. split; [exact Hsel|].
    apply Forall2_length in Hsel. rewrite <- Hsel. exact Hlen.
  - intros Hlong. unfold added_rows.
    destruct (forallb negb display_cols); [eauto|].
    destruct (existsb negb display_cols); [|eauto].
    apply select_all_total.
    eapply List.Forall_impl; [|exact Hlong].
    intros row Hrow.
    eapply List.Forall_impl; [|exact Hall].
    intros idx [Hrange _]. cbn beta in *. lia.
  - eapply List.Forall_impl; [|exact Hall].
    intros idx [_ Hnth]. rewrite Nat.sub_0_r in Hnth. exact Hnth.
  - exact Hsorted.
Qed.

End MetagraphColumns.

(** X21. [metagraph_cmd] with [--html] on freshly fetched data never
    renders: the text for [render_table] reads [metadata_info['stake']],
    a key that the dict built from the fetched data does not have, so the
    command ends with [KeyError: 'stake'] whatever was fetched; the
    [except sqlite3.OperationalError] around it does not catch this, and
    [render_table] is not called. *)
Theorem html_metagraph_of_fresh_data_raises
    (no_cache : bool) (table_data : list (list Json.str))
    (summary : MetagraphHtml.Summary)
    (render_table : Json.str -> result unit) (db : Metagraph.DB) :
  MetagraphHtml.table_info_of
    (MetagraphHtml.metadata_info_of summary table_data)
  = Raise (Py.KeyError "stake")
  /\ fst (MetagraphHtml.metagraph_cmd false no_cache
            (Ok (table_data, summary)) render_table db)
     = Raise (Py.KeyError "stake").
Proof.
  assert (Hinfo :
            MetagraphHtml.table_info_of
              (MetagraphHtml.metadata_info_of summary table_data)
            = Raise (Py.KeyError "stake")).
  { unfold MetagraphHtml.table_info_of, MetagraphHtml.getitem,
      MetagraphHtml.metadata_info_of.
    repeat (rewrite lookup_insert_ne by discriminate).
    rewrite lookup_insert_eq.
    repeat (rewrite lookup_insert_ne by discriminate).
    rewrite lookup_insert_eq.
    repeat (rewrite lookup_insert_ne by discriminate).
    rewrite lookup_insert_eq.
    repeat (rewrite lookup_insert_ne by discriminate).
    rewrite lookup_empty. reflexivity. }
  split; [exact Hinfo|].
  unfold MetagraphHtml.metagraph_cmd. cbn [negb].
  destruct (negb no_cache); cbn [fst]; rewrite Hinfo; reflexivity.
Qed.

Lemma metagraph_rows_follow_the_columns_witness :
  exists rows,
    Metagraph.added_rows [true; false] Demo.table_data = Ok rows.
Proof.
  apply (proj1 (proj2 (metagraph_rows_follow_the_columns [true; false]
                         Demo.table_data))).
  repeat constructor.
Defined.


(** ** The stake tables *)

Section ODictKeys.
Context {K V : Type} (eqb : K -> K -> bool).
Hypothesis eqb_eq : forall x y, eqb x y = true <-> x = y.

Lemma keys_set (k : K) (v : V) (d : list (K * V)) :
  ODict.keys (ODict.set eqb k v d)
  = match ODict.get eqb d k with
    | Some _ => ODict.keys d
    | None => ODict.keys d ++ [k]
    end.
Proof.
  induction d as [|[k' v'] d IH]; cbn; [reflexivity|].
  destruct (eqb k' k) eqn:E; cbn; [reflexivity|].
  unfold ODict.keys in IH. rewrite IH.
  destruct (ODict.get eqb d k); reflexivity.
Qed.

Lemma set_concat (k : K) (x : V) (d : list (K * list V)) :
  Permutation
    (concat (map snd
               (ODict.set eqb k (default [] (ODict.get eqb d k) ++ [x]) d)))
    (x :: concat (map snd d)).
Proof.
  induction d as [|[k' g] d IH]; cbn.
  - reflexivity.
  - destruct (eqb k' k) eqn:E; cbn.
    + rewrite <- app_assoc. cbn.
      symmetry. apply Permutation_middle.
    + rewrite IH. symmetry. apply Permutation_middle.
Qed.

End ODictKeys.

Section Grouping.
Import StakeTables.

Lemma hotkeys_to_substakes_of_snoc l x :
  hotkeys_to_substakes_of (l ++ [x])
  = if (Balance.rao (StakeInfo.stake x) =? 0)%Z
    then hotkeys_to_substakes_of l
    else
      ODict.set String.eqb (StakeInfo.hotkey_ss58 x)
        (default [] (ODict.get String.eqb (hotkeys_to_substakes_of l)
                       (StakeInfo.hotkey_ss58 x))
         ++ [x])
        (hotkeys_to_substakes_of l).
Proof. unfold hotkeys_to_substakes_of. rewrite foldl_snoc. reflexivity. Qed.

Lemma group_of sub_stakes hotkey :
  ODict.get String.eqb (hotkeys_to_substakes_of sub_stakes) hotkey
  = match stakes_of sub_stakes hotkey with
    | [] => None
    | (_ :: _) as substakes => Some substakes
    end.
Proof.
  induction sub_stakes as [|x l IH] using rev_ind; [reflexivity|].
  rewrite hotkeys_to_substakes_of_snoc.
  unfold stakes_of. rewrite List.filter_app. cbn [List.filter].
  fold (stakes_of l hotkey).
  destruct (Balance.rao (StakeInfo.stake x) =? 0)%Z; cbn [negb andb].
  { rewrite app_nil_r. exact IH. }
  destruct (String.eqb_spec (StakeInfo.hotkey_ss58 x) hotkey) as [Hh|Hh].
  - subst hotkey. rewrite (get_set_eq String.eqb String.eqb_eq), IH.
    destruct (stakes_of l (StakeInfo.hotkey_ss58 x)); reflexivity.
  - rewrite (get_set_ne String.eqb String.eqb_eq) by exact Hh.
    rewrite app_nil_r. exact IH.
Qed.

Lemma group_keys_NoDup sub_stakes :
  List.NoDup (ODict.keys (hotkeys_to_substakes_of sub_stakes)).
Proof.
  induction sub_stakes as [|x l IH] using rev_ind; [constructor|].
  rewrite hotkeys_to_substakes_of_snoc.
  destruct (Balance.rao (StakeInfo.stake x) =? 0)%Z; [exact IH|].
  rewrite (keys_set String.eqb).
  destruct (ODict.get String.eqb (hotkeys_to_substakes_of l)
              (StakeInfo.hotkey_ss58 x)) eqn:Hget; [exact IH|].
  apply List.NoDup_app; [exact IH | repeat constructor; intros [] |].
  intros k Hk [<- | []].
  apply (get_keys String.eqb String.eqb_eq) in Hk.
  rewrite Hget in Hk. destruct Hk. discriminate.
Qed.

Lemma groups_partition sub_stakes :
  Permutation
    (concat (map snd (hotkeys_to_substakes_of sub_stakes)))
    (List.filter
       (fun s => negb (Balance.rao (StakeInfo.stake s) =? 0)%Z) sub_stakes).
Proof.
  induction sub_stakes as [|x l IH] using rev_ind; [reflexivity|].
  rewrite hotkeys_to_substakes_of_snoc, List.filter_app. cbn [List.filter].
  destruct (Balance.rao (StakeInfo.stake x) =? 0)%Z; cbn [negb].
  - rewrite app_nil_r. exact IH.
  - rewrite (set_concat String.eqb), IH. apply Permutation_cons_append.
Qed.

(** X22. [stake_list] groups the stakes by hotkey without losing,
    inventing or reordering any: the group of a hotkey is exactly the
    list of its stakes above zero, in the order of the answer of the
    chain, and a hotkey without such a stake has no group; no hotkey has
    two groups; all groups together hold every stake above zero once;
    and there is no group at all, so that the command ends with
    [typer.Exit], exactly when every stake is zero. *)
Theorem stakes_are_grouped_by_hotkey (sub_stakes : list StakeInfo) :
  (forall hotkey,
     ODict.get String.eqb (hotkeys_to_substakes_of sub_stakes) hotkey
     = match stakes_of sub_stakes hotkey with
       | [] => None
       | (_ :: _) as substakes => Some substakes
       end)
  /\ List.NoDup (ODict.keys (hotkeys_to_substakes_of sub_stakes))
  /\ Permutation
       (concat (map snd (hotkeys_to_substakes_of sub_stakes)))
       (List.filter
          (fun s => negb (Balance.rao (StakeInfo.stake s) =? 0)%Z)
          sub_stakes)
  /\ (hotkeys_to_substakes_of sub_stakes = []
      <-> Forall (fun s => Balance.rao (StakeInfo.stake s) = 0%Z)
            sub_stakes).
Proof.
  split; [apply group_of|]. split; [apply group_keys_NoDup|].
  split; [apply groups_partition|].
  induction sub_stakes as [|x l IH] using rev_ind.
  - split; [constructor | reflexivity].
  - rewrite hotkeys_to_substakes_of_snoc, Forall_app.
    destruct (Z.eqb_spec (Balance.rao (StakeInfo.stake x)) 0) as [Hz|Hz].
    + split.
      * intros Hl. split; [apply IH; exact Hl|].
        constructor; [exact Hz | constructor].
      * intros [Hl _]. apply IH. exact Hl.
    + split.
      * intros Hnil. exfalso. eapply set_not_nil. exact Hnil.
      * intros [_ Hx]. inversion Hx; subst. contradiction.
Qed.

End Grouping.

Section TableOrder.
Import StakeTables.
Variable dynamic_info : gmap Z DynamicInfo.

Lemma filter_partition {A} (f : A -> bool) (l : list A) :
  Permutation l (List.filter f l ++ List.filter (fun x => negb (f x)) l).
Proof.
  induction l as [|x l IH]; cbn; [reflexivity|].
  destruct (f x); cbn.
  - apply perm_skip. exact IH.
  - rewrite <- Permutation_middle. apply perm_skip. exact IH.
Qed.

Lemma keyed_values l ks :
  keyed dynamic_info l = Ok ks ->
  map snd ks = l
  /\ Forall (fun p =>
               is_Some (dynamic_info !! StakeInfo.netuid (snd p))
               /\ fst p = value_of dynamic_info (snd p))
       ks.
Proof.
  revert ks. induction l as [|x l IH]; intros ks; cbn.
  - intros [= <-]. split; [reflexivity | constructor].
  - unfold value_key at 1.
    destruct (dynamic_info !! StakeInfo.netuid x) as [pool|] eqn:Hpool;
      [|discriminate].
    destruct (keyed dynamic_info l) as [ks'|]; [|discriminate].
    intros [= <-]. destruct (IH ks' eq_refl) as [Hmap Hall].
    split; [cbn; rewrite Hmap; reflexivity|].
    constructor; [|exact Hall]. cbn.
    split; [rewrite Hpool; eauto|].
    unfold value_of. rewrite Hpool. reflexivity.
Qed.

Lemma keyed_unknown l x :
  In x l -> dynamic_info !! StakeInfo.netuid x = None ->
  exists key, keyed dynamic_info l = Raise (Py.KeyError key).
Proof.
  induction l as [|y l IH]; [contradiction|].
  intros Hin Hx. cbn. unfold value_key at 1.
  destruct (dynamic_info !! StakeInfo.netuid y) as [pool|] eqn:Hy; [|eauto].
  destruct Hin as [-> | Hin]; [congruence|].
  destruct (IH Hin Hx) as [key ->]. eauto.
Qed.

Lemma keyed_raises l e :
  keyed dynamic_info l = Raise e ->
  exists s,
    In s l /\ dynamic_info !! StakeInfo.netuid s = None
    /\ e = Py.KeyError (Py.str (StakeInfo.netuid s)).
Proof.
  revert e. induction l as [|y l IH]; intros e; cbn; [discriminate|].
  unfold value_key at 1.
  destruct (dynamic_info !! StakeInfo.netuid y) as [pool|] eqn:Hy.
  - destruct (keyed dynamic_info l) as [ks'|e1] eqn:Hl; [discriminate|].
    intros [= <-]. destruct (IH e1 eq_refl) as (s & Hs & Hrest).
    exists s. split; [right; exact Hs | exact Hrest].
  - intros [= <-]. exists y. split; [left; reflexivity | auto].
Qed.

Lemma insert_by_value_perm x l :
  Permutation (x :: l) (insert_by_value x l).
Proof.
  induction l as [|y l IH]; cbn; [reflexivity|].
  destruct (Py.lt (fst x) (fst y)).
  - rewrite perm_swap. apply perm_skip. exact IH.
  - reflexivity.
Qed.

Lemma sorted_by_value_perm l : Permutation l (sorted_by_value l).
Proof.
  induction l as [|x l IH]; cbn; [reflexivity|].
  rewrite <- insert_by_value_perm. apply perm_skip. exact IH.
Qed.

Lemma lt_true (x y : Q) : Py.lt x y = true -> (x <= y)%Q.
Proof.
  unfold Py.lt. intros Hlt. apply negb_true_iff in Hlt.
  apply Qlt_le_weak, Qnot_le_lt. intros Hle.
  apply Qle_bool_iff in Hle. congruence.
Qed.

Lemma lt_false (x y : Q) : Py.lt x y = false -> (y <= x)%Q.
Proof.
  unfold Py.lt. intros Hlt. apply negb_false_iff in Hlt.
  apply Qle_bool_iff. exact Hlt.
Qed.

Lemma insert_by_value_hd x y l :
  key_desc y x -> HdRel key_desc y l ->
  HdRel key_desc y (insert_by_value x l).
Proof.
  intros Hyx Hl. destruct l as [|z l]; cbn.
  - constructor. exact Hyx.
  - destruct (Py.lt (fst x) (fst z)); constructor.
    + inversion Hl; assumption.
    + exact Hyx.
Qed.

Lemma insert_by_value_sorted x l :
  Sorted key_desc l -> Sorted key_desc (insert_by_value x l).
Proof.
  induction l as [|y l IH]; intros Hl; cbn.
  - repeat constructor.
  - inversion Hl as [|? ? Hsorted Hhd]; subst.
    destruct (Py.lt (fst x) (fst y)) eqn:E.
    + constructor; [apply IH; exact Hsorted|].
      apply insert_by_value_hd; [|exact Hhd].
      apply lt_true. exact E.
    + constructor; [exact Hl|].
      constructor. apply lt_false. exact E.
Qed.

Lemma sorted_by_value_sorted l : Sorted key_desc (sorted_by_value l).
Proof.
  induction l as [|x l IH]; cbn; [constructor|].
  apply insert_by_value_sorted. exact IH.
Qed.

Lemma sorted_values ks :
  Forall (fun p => fst p = value_of dynamic_info (snd p)) ks ->
  Sorted key_desc ks ->
  Sorted (value_desc dynamic_info) (map snd ks).
Proof.
  intros Hkeys Hsorted.
  induction Hsorted as [|p ks Hs IH Hhd]; cbn; [constructor|].
  inversion Hkeys as [|? ? Hp Hks]; subst.
  constructor; [apply IH; exact Hks|].
  destruct Hhd as [|q ks' Hpq]; cbn; constructor.
  inversion Hks as [|? ? Hq _]; subst.
  unfold value_desc, key_desc in *. rewrite <- Hp, <- Hq. exact Hpq.
Qed.

(** What [sorted_substakes] is, or why it could not be computed. *)
Lemma sorted_substakes_of_spec (substakes : list StakeInfo) :
  match sorted_substakes_of dynamic_info substakes with
  | Py.Ok sorted_substakes =>
      Permutation substakes sorted_substakes
      /\ exists other_stakes,
           sorted_substakes = List.filter is_root substakes ++ other_stakes
           /\ Forall (fun s =>
                        StakeInfo.netuid s <> 0%Z
                        /\ is_Some (dynamic_info !! StakeInfo.netuid s))
                other_stakes
           /\ Sorted (value_desc dynamic_info) other_stakes
  | Py.Raise e =>
      exists s,
        In s substakes /\ StakeInfo.netuid s <> 0%Z
        /\ dynamic_info !! StakeInfo.netuid s = None
        /\ e = Py.KeyError (Py.str (StakeInfo.netuid s))
  end.
Proof.
  unfold sorted_substakes_of.
  destruct (keyed dynamic_info _) as [ks|e] eqn:Hkeyed.
  - destruct (keyed_values _ _ Hkeyed) as [Hmap Hall].
    split.
    + rewrite (filter_partition is_root substakes) at 1.
      apply Permutation_app_head.
      rewrite <- Hmap at 1. apply Permutation_map, sorted_by_value_perm.
    + eexists. split; [reflexivity|]. split.
      * apply List.Forall_forall. intros s Hs.
        apply in_map_iff in Hs as (p & <- & Hp).
        apply (Permutation_in _ (Permutation_sym (sorted_by_value_perm ks)))
          in Hp.
        split.
        -- assert (Hin : In (snd p) (map snd ks))
             by (apply in_map; exact Hp).
           rewrite Hmap in Hin. apply List.filter_In in Hin as [_ Hroot].
           unfold is_root in Hroot.
           apply negb_true_iff, Z.eqb_neq in Hroot. exact Hroot.
        -- apply (proj1 (List.Forall_forall _ _) Hall p Hp).
      * apply sorted_values; [|apply sorted_by_value_sorted].
        apply List.Forall_forall. intros p Hp.
        apply (Permutation_in _ (Permutation_sym (sorted_by_value_perm ks)))
          in Hp.
        apply (proj1 (List.Forall_forall _ _) Hall p Hp).
  - apply keyed_raises in Hkeyed as (s & Hs & Hnone & ->).
    apply List.filter_In in Hs as [Hin Hroot].
    unfold is_root in Hroot. apply negb_true_iff, Z.eqb_neq in Hroot.
    exists s. auto.
Qed.

(** X23. The positions of a stake table are those of the hotkey, each
    once: the root positions first, in the order of the answer of the
    chain, then the others in descending order of their no-slippage TAO
    value; and the order cannot be computed, so that the table is not
    shown, exactly when a position outside root is on a subnet that is
    missing from [dynamic_info]. *)
Theorem table_positions_are_sorted_by_value (substakes : list StakeInfo) :
  match sorted_substakes_of dynamic_info substakes with
  | Py.Ok sorted_substakes =>
      Permutation substakes sorted_substakes
      /\ exists other_stakes,
           sorted_substakes = List.filter is_root substakes ++ other_stakes
           /\ Forall (fun s =>
                        StakeInfo.netuid s <> 0%Z
                        /\ is_Some (dynamic_info !! StakeInfo.netuid s))
                other_stakes
           /\ Sorted (value_desc dynamic_info) other_stakes
  | Py.Raise e =>
      exists s,
        In s substakes /\ StakeInfo.netuid s <> 0%Z
        /\ dynamic_info !! StakeInfo.netuid s = None
        /\ e = Py.KeyError (Py.str (StakeInfo.netuid s))
  end.
Proof. apply sorted_substakes_of_spec. Qed.

End TableOrder.

Section TableTotals.
Import StakeTables.
Variable dynamic_info : gmap Z DynamicInfo.

Lemma sum_values_app l1 l2 :
  (sum_values dynamic_info (l1 ++ l2)
   == sum_values dynamic_info l1 + sum_values dynamic_info l2)%Q.
Proof.
  unfold sum_values. induction l1 as [|x l1 IH]; cbn; [ring|].
  rewrite IH. ring.
Qed.

Lemma sum_values_perm l1 l2 :
  Permutation l1 l2 ->
  (sum_values dynamic_info l1 == sum_values dynamic_info l2)%Q.
Proof.
  unfold sum_values.
  induction 1 as [|x l1 l2 _ IH|x y l|l1 l2 l3 _ IH1 _ IH2]; cbn.
  - reflexivity.
  - rewrite IH. reflexivity.
  - ring.
  - rewrite IH1. exact IH2.
Qed.

(** The ownership cells of [create_table] are always defined, and a
    position gets a row exactly when it is above the threshold. *)
Lemma create_table_ownership_shown pool substake_ total :
  exists owned,
    StakeList.create_table_ownership pool substake_ total = Ok owned
    /\ (match StakeList.tao_ownership owned with
        | Some _ => true
        | None => false
        end = shown substake_).
Proof.
  unfold StakeList.create_table_ownership, shown.
  destruct (per_block_emission_defined pool substake_) as [x ->].
  destruct (Py.gt _ StakeList.ownership_threshold); [|eauto].
  destruct (Py.nonzero (Balance.tao (StakeList.issuance_of pool))) eqn:Hnz;
    [|eauto].
  unfold StakeList.ownership_share, Py.truediv.
  unfold Py.nonzero in Hnz. apply negb_true_iff in Hnz. rewrite Hnz.
  eauto.
Qed.

Lemma create_live_table_ownership_defined pool substake total :
  exists owned,
    StakeList.create_live_table_ownership (Some pool) substake total
    = Ok owned.
Proof.
  unfold StakeList.create_live_table_ownership.
  destruct (_ =? 0)%Z; [eauto|].
  destruct (per_block_emission_defined pool substake) as [x ->].
  destruct (Py.gt _ StakeList.ownership_threshold); cbn [andb]; [|eauto].
  destruct (Py.nonzero (Balance.tao (StakeList.issuance_of pool))) eqn:Hnz;
    [|eauto].
  unfold StakeList.ownership_share, Py.truediv.
  unfold Py.nonzero in Hnz. apply negb_true_iff in Hnz. rewrite Hnz.
  eauto.
Qed.

Lemma create_table_loop_totals sorted_substakes :
  forall st,
    match create_table_loop dynamic_info sorted_substakes st with
    | Py.Ok table =>
        rows table = rows st ++ List.filter shown sorted_substakes
        /\ (total_tao_value table
            == total_tao_value st
               + sum_values dynamic_info sorted_substakes)%Q
        /\ Forall (fun s => is_Some (dynamic_info !! StakeInfo.netuid s))
             sorted_substakes
    | Py.Raise e =>
        exists s,
          In s sorted_substakes
          /\ dynamic_info !! StakeInfo.netuid s = None
          /\ e = Py.KeyError (Py.str (StakeInfo.netuid s))
    end.
Proof.
  induction sorted_substakes as [|s rest IH]; intros st;
    cbn [create_table_loop].
  - cbn. rewrite app_nil_r. split; [reflexivity|]. split; [ring|constructor].
  - destruct (dynamic_info !! StakeInfo.netuid s) as [pool|] eqn:Hpool.
    2:{ exists s. split; [left; reflexivity | auto]. }
    destruct (create_table_ownership_shown pool s (total_tao_ownership st))
      as (owned & -> & Hshown).
    match goal with
    | |- context [create_table_loop dynamic_info rest ?st1] =>
        specialize (IH st1);
        destruct (create_table_loop dynamic_info rest st1) as [table|e]
    end.
    + destruct IH as (Hrows & Htotal & Hknown). cbn in Hrows, Htotal.
      split; [|split].
      * rewrite Hrows. cbn [List.filter]. rewrite <- Hshown.
        destruct (StakeList.tao_ownership owned);
          [rewrite <- app_assoc|]; reflexivity.
      * rewrite Htotal. unfold sum_values. cbn [foldr].
        unfold value_of at 2. rewrite Hpool. ring.
      * constructor; [rewrite Hpool; eauto | exact Hknown].
    + destruct IH as (s' & Hs' & Hrest).
      exists s'. split; [right; exact Hs' | exact Hrest].
Qed.

(** What [create_table] returns, or why it raises. *)
Lemma create_table_spec (substakes : list StakeInfo) :
  match create_table dynamic_info substakes with
  | Py.Ok table =>
      (exists sorted_substakes,
         sorted_substakes_of dynamic_info substakes = Ok sorted_substakes
         /\ rows table = List.filter shown sorted_substakes)
      /\ (total_tao_value table == sum_values dynamic_info substakes)%Q
      /\ Forall (fun s => is_Some (dynamic_info !! StakeInfo.netuid s))
           substakes
  | Py.Raise e =>
      exists s,
        In s substakes
        /\ dynamic_info !! StakeInfo.netuid s = None
        /\ e = Py.KeyError (Py.str (StakeInfo.netuid s))
  end.
Proof.
  unfold create_table.
  pose proof (sorted_substakes_of_spec dynamic_info substakes) as Hsorted.
  destruct (sorted_substakes_of dynamic_info substakes) as [sorted|e].
  2:{ destruct Hsorted as (s & Hin & _ & Hnone & ->). exists s. auto. }
  destruct Hsorted as [Hperm _].
  pose proof (create_table_loop_totals sorted Totals_init) as Hloop.
  destruct (create_table_loop dynamic_info sorted Totals_init) as [table|e].
  - destruct Hloop as (Hrows & Htotal & Hknown). cbn in Hrows, Htotal.
    split; [eauto|]. split.
    + rewrite Htotal, (sum_values_perm _ _ Hperm). ring.
    + apply List.Forall_forall. intros s Hs.
      apply (proj1 (List.Forall_forall _ _) Hknown).
      eapply Permutation_in; eassumption.
  - destruct Hloop as (s & Hs & Hrest). exists s. split; [|exact Hrest].
    eapply Permutation_in; [symmetry; exact Hperm | exact Hs].
Qed.

(** X24. The footer of a stake table counts every position of the
    hotkey, the rows only some: when [create_table] returns, the total
    value is the sum of the no-slippage values of all positions, while
    there is a row only for the positions of more than 0.00009 alpha, in
    the sorted order; and [create_table] never raises anything but the
    [KeyError] of a position, root included, whose subnet is missing from
    [dynamic_info]. *)
Theorem table_totals_count_every_position (substakes : list StakeInfo) :
  match create_table dynamic_info substakes with
  | Py.Ok table =>
      (exists sorted_substakes,
         sorted_substakes_of dynamic_info substakes = Ok sorted_substakes
         /\ rows table = List.filter shown sorted_substakes)
      /\ (total_tao_value table == sum_values dynamic_info substakes)%Q
      /\ Forall (fun s => is_Some (dynamic_info !! StakeInfo.netuid s))
           substakes
  | Py.Raise e =>
      exists s,
        In s substakes
        /\ dynamic_info !! StakeInfo.netuid s = None
        /\ e = Py.KeyError (Py.str (StakeInfo.netuid s))
  end.
Proof. apply create_table_spec. Qed.

End TableTotals.

Section LiveTable.
Import StakeTables.
Variable dynamic_info : gmap Z DynamicInfo.

Lemma create_live_table_loop_rows sorted_substakes :
  forall st,
    exists table,
      create_live_table_loop dynamic_info sorted_substakes st = Ok table
      /\ rows table
         = rows st ++ List.filter (live_shown dynamic_info) sorted_substakes
      /\ (total_tao_value table
          == total_tao_value st
             + sum_values dynamic_info
                 (List.filter (live_shown dynamic_info) sorted_substakes))%Q.
Proof.
  induction sorted_substakes as [|s rest IH]; intros st;
    cbn [create_live_table_loop List.filter].
  - exists st. rewrite app_nil_r. split; [reflexivity|].
    split; [reflexivity | cbn; ring].
  - destruct (live_shown dynamic_info s) eqn:Hshown;
      unfold live_shown in Hshown;
      destruct (dynamic_info !! StakeInfo.netuid s) as [pool|] eqn:Hpool;
      try discriminate; try apply IH.
    2:{ apply negb_false_iff in Hshown. rewrite Hshown. apply IH. }
    apply negb_true_iff in Hshown. rewrite Hshown.
    destruct (create_live_table_ownership_defined pool s
                (total_tao_ownership st)) as [owned ->].
    match goal with
    | |- context [create_live_table_loop dynamic_info rest ?st1] =>
        destruct (IH st1) as (table & -> & Hrows & Htotal)
    end.
    exists table. cbn in Hrows, Htotal. split; [reflexivity|]. split.
    + rewrite Hrows, <- app_assoc. reflexivity.
    + rewrite Htotal. unfold sum_values. cbn [foldr].
      unfold value_of at 2. rewrite Hpool. ring.
Qed.

(** X25. The live table stops on a missing subnet although its loop is
    written to skip one. [create_live_table] raises, and then with the
    [KeyError] of the sort key, exactly when a position outside root is
    on a subnet that is missing from [dynamic_info]; otherwise it returns,
    and only a position of zero or a root position without a pool is left
    out of its rows and totals. *)
Theorem live_table_skips_only_root_without_pool
    (substakes : list StakeInfo) :
  match create_live_table dynamic_info substakes with
  | Py.Ok table =>
      Forall (fun s =>
                StakeInfo.netuid s <> 0%Z ->
                is_Some (dynamic_info !! StakeInfo.netuid s))
        substakes
      /\ exists sorted_substakes,
           sorted_substakes_of dynamic_info substakes = Ok sorted_substakes
           /\ rows table
              = List.filter (live_shown dynamic_info) sorted_substakes
           /\ (total_tao_value table
               == sum_values dynamic_info
                    (List.filter (live_shown dynamic_info) substakes))%Q
  | Py.Raise e =>
      exists s,
        In s substakes /\ StakeInfo.netuid s <> 0%Z
        /\ dynamic_info !! StakeInfo.netuid s = None
        /\ e = Py.KeyError (Py.str (StakeInfo.netuid s))
  end.
Proof.
  unfold create_live_table.
  pose proof (sorted_substakes_of_spec dynamic_info substakes) as Hsorted.
  destruct (sorted_substakes_of dynamic_info substakes) as [sorted|e];
    [|exact Hsorted].
  destruct Hsorted as (Hperm & others & -> & Hothers & _).
  destruct (create_live_table_loop_rows
              (List.filter is_root substakes ++ others) Totals_init)
    as (table & -> & Hrows & Htotal).
  cbn in Hrows, Htotal. split.
  - apply List.Forall_forall. intros s Hs Hnz.
    apply (Permutation_in _ Hperm) in Hs.
    apply in_app_or in Hs as [Hroot | Hother].
    + apply List.filter_In in Hroot as [_ Hroot].
      unfold is_root in Hroot. apply Z.eqb_eq in Hroot. contradiction.
    + apply (proj1 (List.Forall_forall _ _) Hothers s Hother).
  - eexists. split; [reflexivity|]. split; [exact Hrows|].
    rewrite Htotal. rewrite Qplus_0_l.
    apply sum_values_perm.
    symmetry. clear Hrows Htotal.
    revert Hperm. generalize (List.filter is_root substakes ++ others).
    intros l Hperm. induction Hperm as [|x l1 l2 _ IH|x y l|l1 l2 l3 _ IH1 _ IH2];
      cbn [List.filter].
    + reflexivity.
    + destruct (live_shown dynamic_info x); [apply perm_skip|]; exact IH.
    + destruct (live_shown dynamic_info x), (live_shown dynamic_info y);
        try reflexivity. apply perm_swap.
    + rewrite IH1. exact IH2.
Qed.

End LiveTable.

Section GrandTotal.
Import StakeTables.
Variable dynamic_info : gmap Z DynamicInfo.

Lemma all_tables_total hotkeys_to_substakes :
  forall total_global_tao total_tao_value_,
    match all_tables dynamic_info hotkeys_to_substakes total_global_tao
            total_tao_value_
    with
    | Py.Ok (_, value) =>
        (value
         == total_tao_value_
            + sum_values dynamic_info
                (concat (map snd hotkeys_to_substakes)))%Q
    | Py.Raise e =>
        exists s,
          In s (concat (map snd hotkeys_to_substakes))
          /\ dynamic_info !! StakeInfo.netuid s = None
          /\ e = Py.KeyError (Py.str (StakeInfo.netuid s))
    end.
Proof.
  induction hotkeys_to_substakes as [|[hotkey substakes] rest IH];
    intros own0 value0; cbn [all_tables map concat snd].
  - cbn. ring.
  - pose proof (create_table_spec dynamic_info substakes) as Htable.
    destruct (create_table dynamic_info substakes) as [table|e].
    + destruct Htable as (_ & Htotal & _).
      match goal with
      | |- match all_tables _ _ ?own1 ?value1 with _ => _ end =>
          specialize (IH own1 value1);
          destruct (all_tables dynamic_info rest own1 value1) as [[own value]|e]
      end.
      * rewrite IH, sum_values_app, Htotal. ring.
      * destruct IH as (s & Hs & Hrest). exists s.
        split; [apply in_or_app; right; exact Hs | exact Hrest].
    + destruct Htable as (s & Hs & Hrest). exists s.
      split; [apply in_or_app; left; exact Hs | exact Hrest].
Qed.

(** X26. The grand total of [stake_list] is the value of everything that
    is staked: when the command gets to its summary, "Total Value" is the
    sum of the no-slippage values of all stakes above zero that the chain
    reported, whatever their hotkeys and their order. When the command
    ends before the summary, it does so with [typer.Exit], and then every
    stake is zero, or with the [KeyError] of a stake above zero whose
    subnet is missing from [dynamic_info]. *)
Theorem grand_total_is_the_value_of_all_stakes
    (sub_stakes : list StakeInfo) :
  match stake_list dynamic_info sub_stakes with
  | Py.Ok (total_tao_ownership_, total_tao_value_) =>
      (total_tao_value_
       == sum_values dynamic_info
            (List.filter
               (fun s => negb (Balance.rao (StakeInfo.stake s) =? 0)%Z)
               sub_stakes))%Q
  | Py.Raise e =>
      (e = Py.TyperExit
       /\ Forall (fun s => Balance.rao (StakeInfo.stake s) = 0%Z) sub_stakes)
      \/ exists s,
           In s sub_stakes
           /\ Balance.rao (StakeInfo.stake s) <> 0%Z
           /\ dynamic_info !! StakeInfo.netuid s = None
           /\ e = Py.KeyError (Py.str (StakeInfo.netuid s))
  end.
Proof.
  unfold stake_list.
  pose proof (groups_partition sub_stakes) as Hperm.
  destruct (hotkeys_to_substakes_of sub_stakes) as [|group groups] eqn:Hgroups.
  - left. split; [reflexivity|].
    cbn in Hperm. apply Permutation_nil in Hperm.
    apply List.Forall_forall. intros s Hs.
    destruct (Z.eqb_spec (Balance.rao (StakeInfo.stake s)) 0) as [Hz|Hz];
      [exact Hz|].
    exfalso.
    assert (Hin : In s (List.filter
              (fun s => negb (Balance.rao (StakeInfo.stake s) =? 0)%Z)
              sub_stakes)).
    { apply List.filter_In. split; [exact Hs|].
      apply negb_true_iff, Z.eqb_neq. exact Hz. }
    rewrite Hperm in Hin. exact Hin.
  - pose proof (all_tables_total (group :: groups) (Balance.from_rao 0) 0%Q)
      as Htotal.
    destruct (all_tables dynamic_info (group :: groups) (Balance.from_rao 0)
                0%Q) as [[own value]|e].
    + rewrite Htotal, (sum_values_perm _ _ _ Hperm). ring.
    + right. destruct Htotal as (s & Hs & Hnone & ->).
      apply (Permutation_in _ Hperm) in Hs.
      apply List.filter_In in Hs as [Hs Hnz].
      apply negb_true_iff, Z.eqb_neq in Hnz.
      exists s. auto.
Qed.

End GrandTotal.
